(** * PFC conversation engine (src/plugins/PFC/pfc.py)

    A shallow embedding of the conversation orchestration code: the
    DecisionInfo reducer, the action planner, the goal store, the waiter,
    the notification handler, the action dispatch of a Conversation and
    the per-stream instance registry.

    Conventions of the embedding.
    - Values that the program reads out of untyped dictionaries are
      [pyval]s; Python's truth test, [d[k]], [d.get(k, dflt)] and the
      subtraction [time.time() - x] are written out on them.
    - Numbers of type float are idealised as rationals ([Q]): no rounding,
      no infinities.  Nothing below depends on rounding.
    - Text is a [string] holding UTF-8; the characters of a text are its
      decoded code points.
    - An exception is a value of Python's [Exception] class.  Signals
      outside that class (task cancellation, interpreter exit) are not
      modelled.
    - Collaborators that live outside pfc.py (the language model, the chat
      observer, the JSON extractor, the reply checker, the transport) are
      fields of a record [Collaborators]: arbitrary functions over an
      abstract environment that may return or raise.
    - What the program does to the outside is kept as a trace of events;
      of the log, warnings and errors are kept.
    - A loop without a bound ([Waiter.wait], the conversation loop) is
      unrolled a given number of times ([fuel]).
    - Coroutines of the registry ([get_instance], [_initialize]) are cut
      at their awaits and interleaved by a schedule. *)

From Stdlib Require Import ZArith QArith Qround String Ascii List Lia Lqa.
From stdpp Require Import base option list gmap strings.

Local Open Scope string_scope.
Local Open Scope list_scope.

Set Warnings "-register-all".

(** ** Python values *)

Inductive pyval : Type :=
| PyNone
| PyBool (b : bool)
| PyInt (z : Z)
| PyFloat (q : Q)
| PyStr (s : string)
| PyList (l : list pyval)
| PyDict (d : list (string * pyval)).

Abbreviation pydict := (list (string * pyval)).

(** [bool(v)]: the truth value of an object. *)
Definition truthy (v : pyval) : bool :=
  match v with
  | PyNone => false
  | PyBool b => b
  | PyInt z => negb (z =? 0)%Z
  | PyFloat q => negb (Qeq_bool q 0)
  | PyStr s => negb (String.eqb s "")
  | PyList l => match l with [] => false | _ => true end
  | PyDict d => match d with [] => false | _ => true end
  end.

(** The number a value stands for in arithmetic, if it is one
    ([True] and [False] are the integers 1 and 0). *)
Definition py_num (v : pyval) : option Q :=
  match v with
  | PyBool b => Some (if b then 1 else 0)%Q
  | PyInt z => Some (inject_Z z)
  | PyFloat q => Some q
  | _ => None
  end.

(** [hash(v)] succeeds: lists and dicts are unhashable. *)
Definition hashable (v : pyval) : bool :=
  match v with
  | PyList _ | PyDict _ => false
  | _ => true
  end.

(** [a == b] on hashable values (numbers compare by value across
    [bool], [int] and [float]). *)
Definition py_eqb (a b : pyval) : bool :=
  match a, b with
  | PyNone, PyNone => true
  | PyStr s, PyStr t => String.eqb s t
  | _, _ =>
      match py_num a, py_num b with
      | Some x, Some y => Qeq_bool x y
      | _, _ => false
      end
  end.

(** ** Exceptions and outcomes *)

Inductive exn : Type :=
| KeyError (key : string)
| TypeError (what : string)
| AttributeError (what : string)
| ValueError (what : string)
| RuntimeError (what : string)
| TimeoutError
| ExternalError (what : string).

(** What running a piece of code yields: a value, a raised exception, or
    [OutOfFuel] when a bounded unrolling of a loop was too short. *)
Inductive outcome (A : Type) : Type :=
| Ret (a : A)
| Raise (e : exn)
| OutOfFuel.
Arguments Ret {A} a.
Arguments Raise {A} e.
Arguments OutOfFuel {A}.

Definition is_ret {A} (o : outcome A) : bool :=
  match o with Ret _ => true | _ => false end.

Definition is_raise {A} (o : outcome A) : bool :=
  match o with Raise _ => true | _ => false end.

#[global] Instance outcome_ret : MRet outcome := fun A a => Ret a.
#[global] Instance outcome_bind : MBind outcome := fun A B f m =>
  match m with
  | Ret a => f a
  | Raise e => Raise e
  | OutOfFuel => OutOfFuel
  end.

(** [d[k]] *)
Fixpoint dict_lookup (d : pydict) (k : string) : option pyval :=
  match d with
  | [] => None
  | (k', v) :: d' => if String.eqb k' k then Some v else dict_lookup d' k
  end.

Definition getitem (d : pydict) (k : string) : outcome pyval :=
  match dict_lookup d k with
  | Some v => Ret v
  | None => Raise (KeyError k)
  end.

(** [d.get(k, dflt)] *)
Definition dict_get (d : pydict) (k : string) (dflt : pyval) : pyval :=
  default dflt (dict_lookup d k).

(** [v.get(k, dflt)] on an arbitrary object: only dicts have [get]. *)
Definition py_get (v : pyval) (k : string) (dflt : pyval) : outcome pyval :=
  match v with
  | PyDict d => Ret (dict_get d k dflt)
  | _ => Raise (AttributeError "get")
  end.

(** [now - v] where [now] is a float. *)
Definition float_sub (now : Q) (v : pyval) : outcome Q :=
  match py_num v with
  | Some t => Ret (now - t)%Q
  | None => Raise (TypeError "unsupported operand type(s) for -")
  end.

(** ** ConversationState *)

Inductive ConversationState : Type :=
| INIT | RETHINKING | ANALYZING | PLANNING | GENERATING | CHECKING
| SENDING | WAITING | LISTENING | ENDED | JUDGING.

(** ** UserInfo (constructed by [UserInfo.from_dict], a collaborator) *)

Record UserInfo : Type := mkUserInfo {
  user_id : pyval;
  user_nickname : pyval
}.


(** ** State and exceptions

    Code that mutates an object and may raise is a function from the state
    to an outcome and the state as it stands when the code is left. *)

Definition M (S A : Type) : Type := S -> outcome A * S.

#[global] Instance M_ret {S} : MRet (M S) := fun A a s => (Ret a, s).
#[global] Instance M_bind {S} : MBind (M S) := fun A B f m s =>
  match m s with
  | (Ret a, s') => f a s'
  | (Raise e, s') => (Raise e, s')
  | (OutOfFuel, s') => (OutOfFuel, s')
  end.

Definition raise {S A} (e : exn) : M S A := fun s => (Raise e, s).
Definition out_of_fuel {S A} : M S A := fun s => (OutOfFuel, s).
Definition lift {S A} (o : outcome A) : M S A := fun s => (o, s).
Definition gets {S A} (f : S -> A) : M S A := fun s => (Ret (f s), s).
Definition modify {S} (f : S -> S) : M S unit := fun s => (Ret tt, f s).

(** [try: body except Exception as e: handler(e)] *)
Definition try_except {S A} (body : M S A) (handler : exn -> M S A) : M S A :=
  fun s =>
    match body s with
    | (Raise e, s') => handler e s'
    | r => r
    end.

(** What a collaborator call yields: it returns or it raises. *)
Abbreviation result A := (exn + A)%type.

Definition of_result {A} (r : result A) : outcome A :=
  match r with
  | inl e => Raise e
  | inr a => Ret a
  end.

(** A value flowing into a parameter annotated [str].  [analyze_goal]
    asks the extractor for fields of type [str]; should it hand out
    something else, the attempt counts as failed. *)
Definition as_str (v : pyval) : outcome string :=
  match v with
  | PyStr s => Ret s
  | _ => Raise (TypeError "str expected")
  end.

(** ** DecisionInfo *)

Record DecisionInfo : Type := mkDecisionInfo {
  last_message_time : pyval;
  last_message_content : pyval;
  last_message_sender : pyval;
  new_messages_count : Z;
  unprocessed_messages : list pydict;
  is_cold_chat : bool;
  cold_chat_duration : Q;
  last_bot_speak_time : pyval;
  last_user_speak_time : pyval;
  active_users : list pyval;
  bot_id : string
}.

(** The dataclass defaults. *)
Definition DecisionInfo_default : DecisionInfo :=
  mkDecisionInfo PyNone PyNone PyNone 0 [] false 0 PyNone PyNone [] "".

Definition set_last_message_time v (d : DecisionInfo) :=
  let 'mkDecisionInfo _ b c n u i k e f g h := d in mkDecisionInfo v b c n u i k e f g h.
Definition set_last_message_content v (d : DecisionInfo) :=
  let 'mkDecisionInfo a _ c n u i k e f g h := d in mkDecisionInfo a v c n u i k e f g h.
Definition set_last_message_sender v (d : DecisionInfo) :=
  let 'mkDecisionInfo a b _ n u i k e f g h := d in mkDecisionInfo a b v n u i k e f g h.
Definition set_new_messages_count v (d : DecisionInfo) :=
  let 'mkDecisionInfo a b c _ u i k e f g h := d in mkDecisionInfo a b c v u i k e f g h.
Definition set_unprocessed_messages v (d : DecisionInfo) :=
  let 'mkDecisionInfo a b c n _ i k e f g h := d in mkDecisionInfo a b c n v i k e f g h.
Definition set_is_cold_chat v (d : DecisionInfo) :=
  let 'mkDecisionInfo a b c n u _ k e f g h := d in mkDecisionInfo a b c n u v k e f g h.
Definition set_cold_chat_duration v (d : DecisionInfo) :=
  let 'mkDecisionInfo a b c n u i _ e f g h := d in mkDecisionInfo a b c n u i v e f g h.
Definition set_last_bot_speak_time v (d : DecisionInfo) :=
  let 'mkDecisionInfo a b c n u i k _ f g h := d in mkDecisionInfo a b c n u i k v f g h.
Definition set_last_user_speak_time v (d : DecisionInfo) :=
  let 'mkDecisionInfo a b c n u i k e _ g h := d in mkDecisionInfo a b c n u i k e v g h.
Definition set_active_users v (d : DecisionInfo) :=
  let 'mkDecisionInfo a b c n u i k e f _ h := d in mkDecisionInfo a b c n u i k e f v h.

(** [s.add(x)] on a set kept as a duplicate-free list. *)
Definition set_add (x : pyval) (s : list pyval) : outcome (list pyval) :=
  if hashable x
  then Ret (if existsb (py_eqb x) s then s else s ++ [x])
  else Raise (TypeError "unhashable type").

(** [update_from_message(message)]; [from_dict] is [UserInfo.from_dict],
    defined outside pfc.py.  The object is mutated statement by statement:
    a failure part-way leaves the earlier assignments in place. *)
Definition update_from_message (from_dict : pyval -> result UserInfo)
    (message : pydict) : M DecisionInfo unit :=
  t ← lift (getitem message "time");
  modify (set_last_message_time t);;
  modify (set_last_message_content
            (dict_get message "processed_plain_text" (PyStr "")));;
  user_info ← lift (of_result (from_dict (dict_get message "user_info" (PyDict []))));
  modify (set_last_message_sender (user_id user_info));;
  bot ← gets bot_id;
  (if py_eqb (user_id user_info) (PyStr bot)
   then
     t' ← lift (getitem message "time");
     modify (set_last_bot_speak_time t')
   else
     t' ← lift (getitem message "time");
     modify (set_last_user_speak_time t');;
     users ← gets active_users;
     users' ← lift (set_add (user_id user_info) users);
     modify (set_active_users users'));;
  n ← gets new_messages_count;
  modify (set_new_messages_count (n + 1)%Z);;
  u ← gets unprocessed_messages;
  modify (set_unprocessed_messages (u ++ [message])).

(** [update_cold_chat_status(is_cold, current_time)] *)
Definition update_cold_chat_status (is_cold : bool) (current_time : Q)
    : M DecisionInfo unit :=
  modify (set_is_cold_chat is_cold);;
  t ← gets last_message_time;
  if is_cold && truthy t
  then d ← lift (float_sub current_time t); modify (set_cold_chat_duration d)
  else mret tt.

(** [get_active_duration()]; [now] is the reading of [time.time()]. *)
Definition get_active_duration (now : Q) (self : DecisionInfo) : outcome pyval :=
  if negb (truthy (last_message_time self))
  then Ret (PyFloat 0)
  else d ← float_sub now (last_message_time self); Ret (PyFloat d).

(** [get_user_response_time()] *)
Definition get_user_response_time (now : Q) (self : DecisionInfo) : outcome pyval :=
  if negb (truthy (last_user_speak_time self))
  then Ret PyNone
  else d ← float_sub now (last_user_speak_time self); Ret (PyFloat d).

(** [get_bot_response_time()] *)
Definition get_bot_response_time (now : Q) (self : DecisionInfo) : outcome pyval :=
  if negb (truthy (last_bot_speak_time self))
  then Ret PyNone
  else d ← float_sub now (last_bot_speak_time self); Ret (PyFloat d).

(** [clear_unprocessed_messages()] *)
Definition clear_unprocessed_messages (self : DecisionInfo) : DecisionInfo :=
  set_new_messages_count 0 (set_unprocessed_messages [] self).

(** ** Goal store (GoalAnalyzer.goals) *)

(** The code points of a UTF-8 text: what iterating over a [str] yields.
    [pending] counts the continuation bytes still expected and [acc]
    holds the bits read so far. *)
Fixpoint utf8_from (s : string) (pending : nat) (acc : N) : list N :=
  match s with
  | EmptyString => []
  | String a rest =>
      let b := N_of_ascii a in
      match pending with
      | O =>
          if (b <? 128)%N then b :: utf8_from rest 0 0
          else if (b <? 224)%N then utf8_from rest 1 (b mod 32)
          else if (b <? 240)%N then utf8_from rest 2 (b mod 16)
          else utf8_from rest 3 (b mod 8)
      | S p =>
          let acc' := (acc * 64 + b mod 64)%N in
          match p with
          | O => acc' :: utf8_from rest 0 0
          | S _ => utf8_from rest p acc'
          end
      end
  end.

Definition chars (s : string) : list N := utf8_from s 0 0.

(** [set(goal)] *)
Definition char_set (s : string) : gset N := list_to_set (chars s).

(** [_calculate_similarity(goal1, goal2)]: the Jaccard index of the two
    character sets. *)
Definition _calculate_similarity (goal1 goal2 : string) : Q :=
  let words1 := char_set goal1 in
  let words2 := char_set goal2 in
  let overlap := size (words1 ∩ words2) in
  let total := size (words1 ∪ words2) in
  if (0 <? total)%nat
  then (inject_Z (Z.of_nat overlap) / inject_Z (Z.of_nat total))%Q
  else 0%Q.

(** The test [_calculate_similarity(a, b) > 0.7].  The program compares
    two doubles, the rounded quotient and the literal 0.7; character sets
    have at most 1114112 elements, and for fractions with so small a
    denominator the rounded quotient exceeds the double 0.7 exactly when
    the fraction exceeds 7/10. *)
Definition similar (goal1 goal2 : string) : bool :=
  negb (Qle_bool (_calculate_similarity goal1 goal2) (7 # 10)).

(** A goal: [(goal, method, reasoning)]. *)
Abbreviation Goal := (string * string * string)%type.

Definition goal_text (g : Goal) : string := fst (fst g).

(** [self.max_goals = 3] *)
Definition max_goals : nat := 3.

(** The index at which the scan of [_update_goals] stops: the first goal
    similar to [new_goal], counting from [i]. *)
Fixpoint first_similar (new_goal : string) (goals : list Goal) (i : nat)
    : option nat :=
  match goals with
  | [] => None
  | g :: rest =>
      if similar new_goal (goal_text g) then Some i
      else first_similar new_goal rest (S i)
  end.

(** [l.pop()] *)
Definition pop_last {A} (l : list A) : list A := removelast l.

(** [_update_goals(new_goal, method, reasoning)] *)
Definition _update_goals (new_goal method reasoning : string)
    (goals : list Goal) : list Goal :=
  match first_similar new_goal goals 0 with
  | Some i =>
      (* self.goals[i] = (new_goal, method, reasoning) *)
      let goals1 := <[i := (new_goal, method, reasoning)]> goals in
      (* self.goals.insert(0, self.goals.pop(i)) *)
      match goals1 !! i with
      | Some x => x :: delete i goals1
      | None => goals1
      end
  | None =>
      let goals1 := (new_goal, method, reasoning) :: goals in
      if (max_goals <? length goals1)%nat then pop_last goals1 else goals1
  end.

(** [get_alternative_goals()] *)
Definition get_alternative_goals (goals : list Goal) : list Goal :=
  if (length goals <=? 1)%nat then [] else drop 1 goals.

(** ** Messages, history entries and the Conversation object *)

Record ChatStream : Type := mkChatStream {
  platform : string
}.

(** The [Message] built by [_convert_to_message]. *)
Record Message : Type := mkMessage {
  msg_message_id : pyval;
  msg_chat_stream : ChatStream;
  msg_time : pyval;
  msg_user_info : UserInfo;
  msg_processed_plain_text : pyval;
  msg_detailed_plain_text : pyval
}.

(** An entry of [action_history]: [{"action": .., "reason": .., "time": ..}]. *)
Record ActionEntry : Type := mkActionEntry {
  entry_action : string;
  entry_reason : pyval;
  entry_time : string
}.

(** The attributes of a Conversation that pfc.py reads or writes,
    together with the goal list of its GoalAnalyzer and its
    DecisionInfo. *)
Record Conversation : Type := mkConversation {
  stream_id : string;
  chat_stream : ChatStream;
  state : ConversationState;
  current_goal : string;
  current_method : string;
  goal_reasoning : string;
  goal_achieved : pyval;
  stop_conversation : pyval;
  reason : pyval;
  generated_reply : string;
  knowledge_cache : gmap string string;
  action_history : list ActionEntry;
  should_continue : bool;
  goals : list Goal;
  decision_info : DecisionInfo
}.

Definition set_state v (c : Conversation) :=
  let 'mkConversation a b _ d e f g h i j k l m n o := c in
  mkConversation a b v d e f g h i j k l m n o.
Definition set_current_goal (v : Goal) (c : Conversation) :=
  let 'mkConversation a b s _ _ _ g h i j k l m n o := c in
  mkConversation a b s (v.1.1) (v.1.2) (v.2) g h i j k l m n o.
Definition set_judgement (v : pyval * pyval * pyval) (c : Conversation) :=
  let 'mkConversation a b s d e f _ _ _ j k l m n o := c in
  mkConversation a b s d e f (v.1.1) (v.1.2) (v.2) j k l m n o.
Definition set_generated_reply v (c : Conversation) :=
  let 'mkConversation a b s d e f g h i _ k l m n o := c in
  mkConversation a b s d e f g h i v k l m n o.
Definition set_knowledge_cache v (c : Conversation) :=
  let 'mkConversation a b s d e f g h i j _ l m n o := c in
  mkConversation a b s d e f g h i j v l m n o.
Definition set_action_history v (c : Conversation) :=
  let 'mkConversation a b s d e f g h i j k _ m n o := c in
  mkConversation a b s d e f g h i j k v m n o.
Definition set_should_continue v (c : Conversation) :=
  let 'mkConversation a b s d e f g h i j k l _ n o := c in
  mkConversation a b s d e f g h i j k l v n o.
Definition set_goals v (c : Conversation) :=
  let 'mkConversation a b s d e f g h i j k l m _ o := c in
  mkConversation a b s d e f g h i j k l m v o.
Definition set_decision_info v (c : Conversation) :=
  let 'mkConversation a b s d e f g h i j k l m n _ := c in
  mkConversation a b s d e f g h i j k l m n v.

(** ** The world a Conversation runs in *)

Inductive level : Type := WARNING | ERROR.

(** What the program does to the outside, in order.  Of the log only
    warnings and errors are kept. *)
Inductive event : Type :=
| Log (lvl : level) (msg : string)
| TriggerUpdate
| LLMCall (request_type prompt : string)
| SendMessage (content : string) (reply_to : option Message)
| SendREST (end_point content : string)
| StoreMessage (content : string)
| RemoveInstance (sid : string)
| Sleep (seconds : Q).

Record World (Env : Type) : Type := mkWorld {
  conv : Conversation;
  (** [chat_observer.waiting_start_time] *)
  waiting_start_time : option Q;
  trace : list event;
  env : Env
}.
Arguments mkWorld {Env}.
Arguments conv {Env}.
Arguments waiting_start_time {Env}.
Arguments trace {Env}.
Arguments env {Env}.

Definition set_conv {Env} v (w : World Env) :=
  mkWorld v (waiting_start_time w) (trace w) (env w).
Definition set_waiting_start_time {Env} v (w : World Env) :=
  mkWorld (conv w) v (trace w) (env w).
Definition set_trace {Env} v (w : World Env) :=
  mkWorld (conv w) (waiting_start_time w) v (env w).
Definition set_env {Env} (v : Env) (w : World Env) : World Env :=
  mkWorld (conv w) (waiting_start_time w) (trace w) v.

(** An argument of [ReplyGenerator.generate]: the caller passes a text, a
    list of messages or the knowledge dict. *)
Inductive genarg : Type :=
| ArgNone
| ArgStr (s : string)
| ArgList (l : list Message)
| ArgDict (d : gmap string string).

Definition genarg_truthy (a : genarg) : bool :=
  match a with
  | ArgNone => false
  | ArgStr s => negb (String.eqb s "")
  | ArgList l => match l with [] => false | _ => true end
  | ArgDict d => negb (bool_decide (d = ∅))
  end.

(** ** Collaborators

    Everything pfc.py imports: the clock, the configuration, the chat
    observer, the language model, the JSON extractor, the reply checker,
    the knowledge fetcher, the message classes and the transport.  [Env]
    is the state of the outside world; a call may change it and returns
    or raises. *)
Record Collaborators (Env : Type) : Type := mkCollaborators {
  (* time.time(), asyncio.sleep(s), strftime("%H:%M:%S") *)
  time_time : Env -> Q;
  asyncio_sleep : Q -> Env -> Env;
  now_strftime : Env -> string;
  fromtimestamp_strftime : pyval -> result string;
  (* str(v) as used by f-strings *)
  py_str : pyval -> string;
  genarg_str : genarg -> string;
  (* the text of a prompt template with its holes filled *)
  render : string -> list string -> string;
  (* global_config, Individuality *)
  BOT_NICKNAME : string;
  personality_info : string;
  api_urls : string -> option string;
  (* message classes *)
  UserInfo_from_dict : pyval -> result UserInfo;
  ChatStream_from_dict : pyval -> result ChatStream;
  (* LLM_request.generate_response_async(prompt): the content *)
  generate_response_async : string -> string -> Env -> result string * Env;
  (* get_items_from_json(content, *items, default_values, required_types) *)
  get_items_from_json :
    string -> list string -> pydict -> list (string * string) ->
    result (bool * pydict);
  (* ChatObserver *)
  get_message_history : option nat -> Env -> result (list pydict) * Env;
  trigger_update : Env -> result unit * Env;
  wait_for_update : Env -> result bool * Env;
  new_message_after : Q -> Env -> result bool * Env;
  (* ReplyChecker.check(reply, goal, retry_count) *)
  reply_checker_check :
    string -> string -> Z -> Env -> result (bool * string * bool) * Env;
  (* KnowledgeFetcher.fetch(goal, chat_history) *)
  knowledge_fetch : string -> list Message -> Env -> result (string * string) * Env;
  (* MessageSending.process(), global_api.send_message_REST, MessageStorage *)
  message_process : string -> Env -> result unit * Env;
  send_message_REST : string -> string -> Env -> result unit * Env;
  store_message : string -> Env -> result unit * Env;
  (* Conversation.remove_instance(stream_id): called by
     [_stop_conversation], its body is not part of pfc.py *)
  remove_instance : string -> Env -> result unit * Env
}.
Arguments mkCollaborators {Env}.
Arguments time_time {Env} _.
Arguments asyncio_sleep {Env} _.
Arguments now_strftime {Env} _.
Arguments fromtimestamp_strftime {Env} _.
Arguments py_str {Env} _.
Arguments genarg_str {Env} _.
Arguments render {Env} _.
Arguments BOT_NICKNAME {Env} _.
Arguments personality_info {Env} _.
Arguments api_urls {Env} _.
Arguments UserInfo_from_dict {Env} _.
Arguments ChatStream_from_dict {Env} _.
Arguments generate_response_async {Env} _.
Arguments get_items_from_json {Env} _.
Arguments get_message_history {Env} _.
Arguments trigger_update {Env} _.
Arguments wait_for_update {Env} _.
Arguments new_message_after {Env} _.
Arguments reply_checker_check {Env} _.
Arguments knowledge_fetch {Env} _.
Arguments message_process {Env} _.
Arguments send_message_REST {Env} _.
Arguments store_message {Env} _.
Arguments remove_instance {Env} _.

(** ** NotificationType and Notification (chat_states) *)

Inductive NotificationType : Type :=
| NEW_MESSAGE
| COLD_CHAT
| OTHER_NOTIFICATION (name : string).

(** A notification object: [n_data = None] when the object has no
    attribute [data]; [Some PyNone] when [data is None]. *)
Record Notification : Type := mkNotification {
  n_type : NotificationType;
  n_data : option pyval
}.

(** [v[:30]] is defined on sequences only. *)
Definition sliceable (v : pyval) : bool :=
  match v with
  | PyStr _ | PyList _ => true
  | _ => false
  end.

(** [int(q)]: truncation towards zero. *)
Definition py_int (q : Q) : Z :=
  if Qle_bool 0 q then Qfloor q else Qceiling q.

Definition nl : string := String (ascii_of_nat 10) EmptyString.

(** [d[k] = v] *)
Fixpoint dict_set (d : pydict) (k : string) (v : pyval) : pydict :=
  match d with
  | [] => [(k, v)]
  | (k', v') :: d' =>
      if String.eqb k' k then (k, v) :: d' else (k', v') :: dict_set d' k v
  end.

(** [l[-n:]] *)
Definition last_n {A} (n : nat) (l : list A) : list A :=
  drop (length l - n) l.

(** The index of the first goal whose text equals [goal], as found by the
    scan of [analyze_conversation]. *)
Fixpoint first_equal (goal : string) (goals : list Goal) (i : nat) : option nat :=
  match goals with
  | [] => None
  | g :: rest =>
      if String.eqb (goal_text g) goal then Some i
      else first_equal goal rest (S i)
  end.

Definition valid_actions : list string :=
  ["direct_reply"; "fetch_knowledge"; "wait"; "listening"; "rethink_goal";
   "judge_conversation"].

Definition default_goal : Goal :=
  ("保持友好的对话", "以友好的态度回应", "确保对话顺利进行").

Definition max_retries : nat := 3.

Section Program.

Context {Env : Type} (C : Collaborators Env).

Local Abbreviation W := (World Env).

Definition emit (e : event) : M W unit :=
  modify (fun w => set_trace (trace w ++ [e]) w).

Definition log (lvl : level) (msg : string) : M W unit := emit (Log lvl msg).

(** A call into a collaborator. *)
Definition call {A} (f : Env -> result A * Env) : M W A :=
  fun w => let (r, e') := f (env w) in (of_result r, set_env e' w).

Definition get_self {A} (f : Conversation -> A) : M W A :=
  gets (fun w => f (conv w)).

Definition update_self (f : Conversation -> Conversation) : M W unit :=
  modify (fun w => set_conv (f (conv w)) w).

(** A method of the DecisionInfo run on [self.decision_info]. *)
Definition on_decision_info {A} (m : M DecisionInfo A) : M W A :=
  fun w =>
    let (r, d') := m (decision_info (conv w)) in
    (r, set_conv (set_decision_info d' (conv w)) w).

(** [time.time()] *)
Definition now : M W Q := gets (fun w => time_time C (env w)).

(** [await asyncio.sleep(s)] *)
Definition sleep (s : Q) : M W unit :=
  emit (Sleep s);;
  modify (fun w => set_env (asyncio_sleep C s (env w)) w).

(** [self.chat_observer.trigger_update()] *)
Definition do_trigger_update : M W unit :=
  emit TriggerUpdate;; call (trigger_update C).

(** [await self.llm.generate_response_async(prompt)] of the LLM_request
    created with [request_type]. *)
Definition llm (request_type prompt : string) : M W string :=
  emit (LLMCall request_type prompt);;
  call (generate_response_async C request_type prompt).

(** The loop that renders the chat history; pfc.py repeats it verbatim
    in [plan], [analyze_goal], [analyze_conversation] and [generate]. *)
Fixpoint format_history (messages : list pydict) : outcome string :=
  match messages with
  | [] => Ret ""
  | msg :: rest =>
      t ← getitem msg "time";
      time_str ← of_result (fromtimestamp_strftime C t);
      user_info ←
        of_result (UserInfo_from_dict C (dict_get msg "user_info" (PyDict [])));
      let sender :=
        if truthy (user_nickname user_info) then user_nickname user_info
        else PyStr ("用户" +:+ py_str C (user_id user_info)) in
      let sender :=
        if py_eqb sender (PyStr (BOT_NICKNAME C)) then PyStr "你说" else sender in
      let line :=
        time_str +:+ "," +:+ py_str C sender +:+ ":" +:+
        py_str C (dict_get msg "processed_plain_text" (PyStr "")) +:+ nl in
      rest_text ← format_history rest;
      Ret (line +:+ rest_text)
  end.

Definition personality_text : string :=
  "你的名字是" +:+ BOT_NICKNAME C +:+ "，" +:+ personality_info C.

(** *** ActionPlanner *)

(** The text [plan] derives from the DecisionInfo. *)
Definition decision_info_text (d : DecisionInfo) : M W string :=
  let t0 := "当前对话状态：" +:+ nl in
  let t1 :=
    if is_cold_chat d
    then t0 +:+ "对话处于冷场状态，已持续" +:+
         py_str C (PyInt (py_int (cold_chat_duration d))) +:+ "秒" +:+ nl
    else t0 in
  let t2 :=
    if (0 <? new_messages_count d)%Z
    then t1 +:+ "有" +:+ py_str C (PyInt (new_messages_count d)) +:+
         "条新消息未处理" +:+ nl
    else t1 in
  t ← now;
  user_response_time ← lift (get_user_response_time t d);
  let t3 :=
    match user_response_time with
    | PyFloat q =>
        if truthy user_response_time
        then t2 +:+ "距离用户上次发言已过去" +:+ py_str C (PyInt (py_int q)) +:+ "秒" +:+ nl
        else t2
    | _ => t2
    end in
  t' ← now;
  bot_response_time ← lift (get_bot_response_time t' d);
  let t4 :=
    match bot_response_time with
    | PyFloat q =>
        if truthy bot_response_time
        then t3 +:+ "距离你上次发言已过去" +:+ py_str C (PyInt (py_int q)) +:+ "秒" +:+ nl
        else t3
    | _ => t3
    end in
  mret
    (match active_users d with
     | [] => t4
     | _ => t4 +:+ "当前活跃用户数: " +:+
            py_str C (PyInt (Z.of_nat (length (active_users d)))) +:+ nl
     end).

(** The part of [plan] that precedes its [try]: the prompt is built
    from the observer's history, the action history and the
    DecisionInfo.  An [action_history] of [None] and an empty one are
    treated alike by the code. *)
Definition plan_prompt (goal method reasoning : string)
    (history : list ActionEntry) (d : option DecisionInfo) : M W string :=
  messages ← call (get_message_history C (Some 20%nat));
  chat_history_text ← lift (format_history messages);
  let action_history_text :=
    match last history with
    | Some e =>
        if String.eqb (entry_action e) "direct_reply"
        then "你刚刚发言回复了对方" else ""
    | None => ""
    end in
  d_text ← match d with
           | Some d => decision_info_text d
           | None => mret ""
           end;
  mret (render C "action_planning"
          [personality_text; goal; method; reasoning; d_text;
           action_history_text; chat_history_text]).

(** The [try] block of [plan] and its [except]. *)
Definition plan_decide (prompt : string) : M W (string * pyval) :=
  try_except
    (content ← llm "action_planning" prompt;
     '(success, result) ←
       lift (of_result
               (get_items_from_json C content ["action"; "reason"]
                  [("action", PyStr "direct_reply"); ("reason", PyStr "默认原因")]
                  []));
     if negb success
     then mret ("direct_reply", PyStr "JSON解析失败，选择直接回复")
     else
       action ← lift (getitem result "action");
       reason ← lift (getitem result "reason");
       match action with
       | PyStr a =>
           if bool_decide (a ∈ valid_actions) then mret (a, reason)
           else log WARNING "未知的行动类型，默认使用listening";;
                mret ("listening", reason)
       | _ =>
           log WARNING "未知的行动类型，默认使用listening";;
           mret ("listening", reason)
       end)
    (fun e =>
       log ERROR "规划行动时出错";;
       mret ("direct_reply", PyStr "发生错误，选择直接回复")).

(** [ActionPlanner.plan(goal, method, reasoning, action_history,
    decision_info)] *)
Definition plan (goal method reasoning : string)
    (history : list ActionEntry) (d : option DecisionInfo)
    : M W (string * pyval) :=
  prompt ← plan_prompt goal method reasoning history d;
  plan_decide prompt.

(** *** GoalAnalyzer *)

Fixpoint existing_goals_lines (goals : list Goal) (i : nat) : string :=
  match goals with
  | [] => ""
  | (goal, _, reasoning) :: rest =>
      py_str C (PyInt (Z.of_nat (i + 1))) +:+ ". 目标: " +:+ goal +:+
      ", 原因: " +:+ reasoning +:+ nl +:+ existing_goals_lines rest (S i)
  end.

Definition existing_goals_text (goals : list Goal) : string :=
  match goals with
  | [] => ""
  | _ => "当前已有的对话目标:" +:+ nl +:+ existing_goals_lines goals 0
  end.

(** One pass through the body of the retry loop of [analyze_goal]:
    [Some g] when the pass returns [g], [None] when it ends in
    [continue]. *)
Definition analyze_goal_attempt (retry : nat) : M W (option Goal) :=
  try_except
    (messages ← call (get_message_history C (Some 20%nat));
     chat_history_text ← lift (format_history messages);
     gs ← get_self goals;
     let prompt :=
       render C "conversation_goal"
         [personality_text; existing_goals_text gs; chat_history_text] in
     content ← llm "conversation_goal" prompt;
     '(success, result) ←
       lift (of_result
               (get_items_from_json C content ["goal"; "reasoning"] []
                  [("goal", "str"); ("reasoning", "str")]));
     if negb success
     then log ERROR "无法解析JSON";; mret None
     else
       goal ← lift (getitem result "goal" ≫= as_str);
       reasoning ← lift (getitem result "reasoning" ≫= as_str);
       let method := "以友好的态度回应" in
       update_self (fun c => set_goals (_update_goals goal method reasoning (goals c)) c);;
       gs' ← get_self goals;
       match gs' with
       | g :: _ => mret (Some g)
       | [] => mret (Some (goal, method, reasoning))
       end)
    (fun e =>
       log ERROR "分析对话目标时出错";;
       if (retry =? max_retries - 1)%nat then mret (Some default_goal)
       else mret None).

Fixpoint analyze_goal_loop (retry remaining : nat) : M W Goal :=
  match remaining with
  | O => mret default_goal
  | S remaining' =>
      r ← analyze_goal_attempt retry;
      match r with
      | Some g => mret g
      | None => analyze_goal_loop (S retry) remaining'
      end
  end.

(** [GoalAnalyzer.analyze_goal()] *)
Definition analyze_goal : M W Goal := analyze_goal_loop 0 max_retries.

Definition judge_fallback : pyval * pyval * pyval :=
  (PyBool false, PyBool false, PyStr "确保对话顺利进行").

(** [GoalAnalyzer.analyze_conversation(goal, reasoning)] *)
Definition analyze_conversation (goal reasoning : string)
    : M W (pyval * pyval * pyval) :=
  messages ← call (get_message_history C None);
  chat_history_text ← lift (format_history messages);
  let prompt :=
    render C "judge_conversation"
      [personality_text; goal; reasoning; chat_history_text] in
  try_except
    (content ← llm "conversation_goal" prompt;
     '(success, result) ←
       lift (of_result
               (get_items_from_json C content
                  ["goal_achieved"; "stop_conversation"; "reason"] []
                  [("goal_achieved", "bool"); ("stop_conversation", "bool");
                   ("reason", "str")]));
     if negb success then mret judge_fallback
     else
       achieved ← lift (getitem result "goal_achieved");
       result' ←
         (if truthy achieved
          then
            stop ← lift (getitem result "stop_conversation");
            if negb (truthy stop)
            then
              gs ← get_self goals;
              match first_equal goal gs 0 with
              | Some i =>
                  update_self (set_goals (delete i gs));;
                  gs' ← get_self goals;
                  mret (match gs' with
                        | [] => result
                        | _ => dict_set result "stop_conversation" (PyBool false)
                        end)
              | None => mret result
              end
            else mret result
          else mret result);
       a ← lift (getitem result' "goal_achieved");
       s ← lift (getitem result' "stop_conversation");
       r ← lift (getitem result' "reason");
       mret (a, s, r))
    (fun e => log ERROR "分析对话目标时出错";; mret judge_fallback).

(** *** Waiter *)

(** The [while True] loop of [wait], unrolled at most [fuel] times. *)
Fixpoint wait_loop (fuel : nat) (wait_start_time : Q) : M W bool :=
  match fuel with
  | O => out_of_fuel
  | S fuel' =>
      new_message ← call (new_message_after C wait_start_time);
      if (new_message : bool) then mret false
      else
        t ← now;
        if negb (Qle_bool (t - wait_start_time) 300)
        then mret true
        else sleep 1;; wait_loop fuel' wait_start_time
  end.

(** [Waiter.wait()] *)
Definition wait (fuel : nat) : M W bool :=
  wait_start_time ← now;
  modify (set_waiting_start_time (Some wait_start_time));;
  wait_loop fuel wait_start_time.

(** *** ReplyGenerator *)

(** [ReplyGenerator.generate(goal, chat_history, knowledge_cache,
    previous_reply)]; [genarg_str] stands for the lines the code
    renders from the values of a dict or the items of a list. *)
Definition generate (goal : string)
    (chat_history knowledge_cache previous_reply : genarg) : M W string :=
  do_trigger_update;;
  updated ← call (wait_for_update C);
  (if negb updated then log WARNING "等待消息更新超时" else mret tt);;
  messages ← call (get_message_history C (Some 20%nat));
  chat_history_text ← lift (format_history messages);
  let knowledge_text :=
    if genarg_truthy knowledge_cache
    then nl +:+ "相关知识：" +:+ genarg_str C knowledge_cache else "" in
  let previous_reply_text :=
    if genarg_truthy previous_reply
    then nl +:+ "上一次生成的回复（需要改进）：" +:+ nl +:+ genarg_str C previous_reply
    else "" in
  let prompt :=
    render C "reply_generation"
      [personality_text; goal; knowledge_text; previous_reply_text;
       chat_history_text;
       if genarg_truthy previous_reply then "5. 改进上一次回复中的问题" else ""] in
  try_except
    (llm "reply_generation" prompt)
    (fun e =>
       log ERROR "生成回复时出错";;
       mret "抱歉，我现在有点混乱，让我重新思考一下...").

(** [ReplyGenerator.check_reply(reply, goal, retry_count=0)] *)
Definition check_reply (reply goal : string) : M W (bool * string * bool) :=
  call (reply_checker_check C reply goal 0).

(** *** PFCNotificationHandler *)

(** [PFCNotificationHandler.handle_notification(notification)];
    [None] stands for a notification that is [None]. *)
Definition handle_notification (notification : option Notification)
    : M W unit :=
  try_except
    (match notification with
     | None => log ERROR "收到无效的通知：notification 或 data 为空"
     | Some n =>
         match n_data n with
         | None | Some PyNone =>
             log ERROR "收到无效的通知：notification 或 data 为空"
         | Some data =>
             match n_type n with
             | NEW_MESSAGE =>
                 match data with
                 | PyDict message =>
                     let content := dict_get message "content" (PyStr "") in
                     (* content[:30] if content else '' *)
                     (if truthy content && negb (sliceable content)
                      then raise (TypeError "object is not subscriptable")
                      else mret tt);;
                     updated ←
                       try_except
                         (on_decision_info
                            (update_from_message (UserInfo_from_dict C) message);;
                          mret true)
                         (fun e => log ERROR "更新决策信息失败";; mret false);
                     if (updated : bool) then do_trigger_update else mret tt
                 | _ => log ERROR "无效的消息格式"
                 end
             | COLD_CHAT =>
                 try_except
                   (is_cold ← lift (py_get data "is_cold" (PyBool false));
                    t ← now;
                    on_decision_info (update_cold_chat_status (truthy is_cold) t))
                   (fun e => log ERROR "处理冷场状态失败")
             | OTHER_NOTIFICATION _ => mret tt
             end
         end
     end)
    (fun e =>
       log ERROR "处理通知时出错";;
       log ERROR "通知类型";;
       log ERROR "通知数据").

(** *** DirectMessageSender *)

(** [DirectMessageSender.send_message(chat_stream, content,
    reply_to_message)] *)
Definition send_message (stream : ChatStream) (content : string)
    (reply_to_message : option Message) : M W unit :=
  emit (SendMessage content reply_to_message);;
  (* building the MessageSending object and [await message.process()] *)
  call (message_process C content);;
  try_except
    (match api_urls C (platform stream) with
     | Some end_point =>
         if String.eqb end_point ""
         then raise (ValueError "未找到平台的url配置")
         else
           emit (SendREST end_point content);;
           call (send_message_REST C end_point content);;
           emit (StoreMessage content);;
           call (store_message C content)
     | None => raise (ValueError "未找到平台的url配置")
     end)
    (fun e => log ERROR "直接发送消息失败";; raise e).

(** *** Conversation *)

(** [_convert_to_message(msg_dict)] *)
Definition _convert_to_message (msg_dict : pydict) : M W Message :=
  try_except
    (let chat_info := dict_get msg_dict "chat_info" (PyDict []) in
     stream ← lift (of_result (ChatStream_from_dict C chat_info));
     user_info ←
       lift (of_result
               (UserInfo_from_dict C (dict_get msg_dict "user_info" (PyDict []))));
     message_id ← lift (getitem msg_dict "message_id");
     time ← lift (getitem msg_dict "time");
     mret (mkMessage message_id stream time user_info
             (dict_get msg_dict "processed_plain_text" (PyStr ""))
             (dict_get msg_dict "detailed_plain_text" (PyStr ""))))
    (fun e => log WARNING "转换消息时出错";; raise e).

(** [[self._convert_to_message(msg) for msg in messages]] *)
Fixpoint convert_all (messages : list pydict) : M W (list Message) :=
  match messages with
  | [] => mret []
  | msg :: rest =>
      m ← _convert_to_message msg;
      ms ← convert_all rest;
      mret (m :: ms)
  end.

(** [_stop_conversation()] *)
Definition _stop_conversation : M W unit :=
  update_self (set_should_continue false);;
  update_self (set_state ENDED);;
  sid ← get_self stream_id;
  emit (RemoveInstance sid);;
  call (remove_instance C sid).

Definition timeout_text : string :=
  "抱歉，由于等待时间过长，我需要先去忙别的了。下次再聊吧~".

(** [_send_timeout_message()] *)
Definition _send_timeout_message : M W unit :=
  try_except
    (messages ← call (get_message_history C (Some 1%nat));
     match messages with
     | [] => mret tt
     | m :: _ =>
         latest_message ← _convert_to_message m;
         stream ← get_self chat_stream;
         send_message stream timeout_text (Some latest_message)
     end)
    (fun e => log ERROR "发送超时消息失败").

(** [_send_reply()] *)
Definition _send_reply : M W unit :=
  reply ← get_self generated_reply;
  if String.eqb reply ""
  then log WARNING "没有生成回复"
  else
    messages ← call (get_message_history C (Some 1%nat));
    match messages with
    | [] => log WARNING "没有最近的消息可以回复"
    | m :: _ =>
        latest_message ← _convert_to_message m;
        try_except
          (stream ← get_self chat_stream;
           content ← get_self generated_reply;
           send_message stream content (Some latest_message);;
           do_trigger_update;;
           updated ← call (wait_for_update C);
           (if negb updated then log WARNING "等待消息更新超时" else mret tt);;
           update_self (set_state ANALYZING))
          (fun e =>
             log ERROR "发送消息失败";;
             update_self (set_state ANALYZING))
    end.

(** The part of [_handle_action] that records the action: append an
    entry, keep the last ten. *)
Definition record_action (action : string) (reason : pyval) : M W unit :=
  stamp ← gets (fun w => now_strftime C (env w));
  update_self
    (fun c => set_action_history
                (action_history c ++ [mkActionEntry action reason stamp]) c);;
  h ← get_self action_history;
  if (10 <? length h)%nat
  then update_self (set_action_history (last_n 10 h))
  else mret tt.

(** The [direct_reply] branch up to the assignment of
    [self.generated_reply]. *)
Definition generate_candidate : M W unit :=
  update_self (set_state GENERATING);;
  messages ← call (get_message_history C (Some 30%nat));
  goal ← get_self current_goal;
  method ← get_self current_method;
  converted ← convert_all messages;
  cache ← get_self knowledge_cache;
  (* the four positional arguments land in goal, chat_history,
     knowledge_cache and previous_reply *)
  reply ← generate goal (ArgStr method) (ArgList converted) (ArgDict cache);
  update_self (set_generated_reply reply).

(** The [direct_reply] branch. *)
Definition handle_direct_reply : M W unit :=
  generate_candidate;;
  reply ← get_self generated_reply;
  goal ← get_self current_goal;
  (* is_suitable, reason, need_replan = ...: bound and not read again *)
  verdict ← check_reply reply goal;
  _send_reply.

(** The [fetch_knowledge] branch. *)
Definition handle_fetch_knowledge : M W unit :=
  update_self (set_state GENERATING);;
  messages ← call (get_message_history C (Some 30%nat));
  goal ← get_self current_goal;
  converted ← convert_all messages;
  '(knowledge, sources) ← call (knowledge_fetch C goal converted);
  if String.eqb knowledge "未找到相关知识" then mret tt
  else update_self (fun c => set_knowledge_cache (<[sources := knowledge]> (knowledge_cache c)) c).

(** The [rethink_goal] branch. *)
Definition handle_rethink_goal : M W unit :=
  update_self (set_state RETHINKING);;
  g ← analyze_goal;
  update_self (set_current_goal g).

(** The [judge_conversation] branch. *)
Definition handle_judge_conversation : M W unit :=
  update_self (set_state JUDGING);;
  goal ← get_self current_goal;
  reasoning ← get_self goal_reasoning;
  j ← analyze_conversation goal reasoning;
  update_self (set_judgement j);;
  achieved ← get_self goal_achieved;
  stop ← get_self stop_conversation;
  switched ←
    (if truthy achieved && negb (truthy stop)
     then
       gs ← get_self goals;
       match get_alternative_goals gs with
       | g :: _ => update_self (set_current_goal g);; mret true
       | [] => mret false
       end
     else mret false);
  if (switched : bool) then mret tt
  else
    stop' ← get_self stop_conversation;
    if truthy stop' then _stop_conversation else mret tt.

(** The [listening] branch and the final [else] ([wait]) differ in the
    state they set. *)
Definition handle_waiting (s : ConversationState) (fuel : nat) : M W unit :=
  update_self (set_state s);;
  timed_out ← wait fuel;
  if (timed_out : bool)
  then _send_timeout_message;; _stop_conversation
  else mret tt.

(** [_handle_action(action, reason)]; [fuel] bounds the polling of the
    Waiter. *)
Definition _handle_action (fuel : nat) (action : string) (reason : pyval)
    : M W unit :=
  record_action action reason;;
  if String.eqb action "direct_reply" then handle_direct_reply
  else if String.eqb action "fetch_knowledge" then handle_fetch_knowledge
  else if String.eqb action "rethink_goal" then handle_rethink_goal
  else if String.eqb action "judge_conversation" then handle_judge_conversation
  else if String.eqb action "listening" then handle_waiting LISTENING fuel
  else handle_waiting WAITING fuel.

(** One pass through the body of the [while self.should_continue]
    loop. *)
Definition loop_iteration (fuel : nat) : M W unit :=
  do_trigger_update;;
  updated ← call (wait_for_update C);
  (if negb updated then log WARNING "等待消息更新超时" else mret tt);;
  goal ← get_self current_goal;
  method ← get_self current_method;
  reasoning ← get_self goal_reasoning;
  history ← get_self action_history;
  d ← get_self decision_info;
  '(action, reason) ← plan goal method reasoning history (Some d);
  _handle_action fuel action reason;;
  update_self (fun c => set_decision_info (clear_unprocessed_messages (decision_info c)) c).

Fixpoint conversation_iterations (n fuel : nat) : M W unit :=
  match n with
  | O => out_of_fuel
  | S n' =>
      continue ← get_self should_continue;
      if (continue : bool)
      then loop_iteration fuel;; conversation_iterations n' fuel
      else mret tt
  end.

(** [_conversation_loop()], at most [n] iterations. *)
Definition _conversation_loop (n fuel : nat) : M W unit :=
  g ← analyze_goal;
  update_self (set_current_goal g);;
  conversation_iterations n fuel.

End Program.

(** *** Conversation.start *)

Section Startup.

Context {Env : Type} (C : Collaborators Env).

(** [start()], the loop unrolled at most [n] times. *)
Definition start (n fuel : nat) : M (World Env) unit :=
  try_except
    (update_self (set_should_continue true);;
     _conversation_loop C n fuel)
    (fun e => log ERROR "启动对话系统失败";; raise e).

End Startup.

(** ** The instance registry: [Conversation.get_instance] and
    [Conversation._initialize]

    Coroutines run one at a time and give up control only at an [await].
    A call of [get_instance] is cut at its awaits ([async with
    _instance_lock], [wait_for(event.wait(), 10)], [_instance_lock
    .acquire()]); between two cuts it runs without interruption.  A
    schedule chooses which call or initialisation task moves next, whether
    an initialisation succeeds or raises, and when a bounded wait expires.
    The schedule also says what a call of the constructor does, see
    [construction].  Object identities (instances, events) are numbers
    drawn from one counter. *)

Module Registry.

(** Where a call of [get_instance(stream_id)] stands. *)
Inductive pc : Type :=
| AtStart                    (* before the unlocked test *)
| AtLock                     (* at [async with cls._instance_lock] *)
| Waiting (ev : nat)         (* lock released, in [wait_for(event.wait(), 10)] *)
| Reacquire                  (* the event fired; at [_instance_lock.acquire()] *)
| Returned (r : option nat). (* [return instance] or [return None] *)

Inductive task_status : Type := Running | Completed | Failed.

Record state : Type := mkState {
  _instances : gmap string nat;
  _initializing : gmap string bool;
  _init_events : gmap string nat;
  (** the events on which [set()] was called *)
  events_set : gset nat;
  (** [_instance_lock.locked()] *)
  locked : bool;
  next_object : nat;
  (** the calls of [get_instance] issued so far *)
  calls : list (string * pc);
  (** the tasks made by [asyncio.create_task(instance._initialize())] *)
  tasks : list (string * nat * task_status)
}.

Definition initial : state := mkState ∅ ∅ ∅ ∅ false 0 [] [].

Definition set_locked (b : bool) (s : state) : state :=
  mkState (_instances s) (_initializing s) (_init_events s) (events_set s)
    b (next_object s) (calls s) (tasks s).

Definition set_calls (c : list (string * pc)) (s : state) : state :=
  mkState (_instances s) (_initializing s) (_init_events s) (events_set s)
    (locked s) (next_object s) c (tasks s).

(** [await lock.acquire()] goes through when the lock is free. *)
Definition acquire (s : state) : option state :=
  if locked s then None else Some (set_locked true s).

(** [lock.release()]; on a lock that is not held it raises
    RuntimeError, which [get_instance] catches. *)
Definition release (s : state) : state := set_locked false s.

(** What the call [cls(stream_id)] of line 792 does.  Class Conversation
    has no [__init__] in pfc.py: as the class stands, the call with an
    argument raises TypeError.  With a constructor in place the call
    returns the new instance, or raises what the constructor raises. *)
Inductive construction : Type :=
| Constructs    (* [cls(stream_id)] returns a fresh instance *)
| Raises.       (* [cls(stream_id)] raises *)

(** Lines 786-798: mark as initialising and make the event (lines
    788-789); then construct the instance, register it and launch
    [_initialize].  The result is the instance.  When the constructor
    raises, the flag and the event stay as lines 788-789 left them,
    nothing is registered and no task is launched; the result [None]
    stands for the exception. *)
Definition create (ctor : construction) (k : string) (s : state)
    : option nat * state :=
  let ev := next_object s in
  match ctor with
  | Constructs =>
      let inst := S (next_object s) in
      (Some inst,
       mkState (<[k := inst]> (_instances s))
         (<[k := true]> (_initializing s))
         (<[k := ev]> (_init_events s))
         (events_set s) (locked s) (S (S (next_object s))) (calls s)
         (tasks s ++ [(k, inst, Running)]))
  | Raises =>
      (None,
       mkState (_instances s)
         (<[k := true]> (_initializing s))
         (<[k := ev]> (_init_events s))
         (events_set s) (locked s) (S (next_object s)) (calls s)
         (tasks s))
  end.

(** Lines 786-802, with the lock held: [return instance], or, when the
    constructor raised, [return None] from the handler of lines 800-802.
    Either way the exit of [async with] releases the lock. *)
Definition create_and_return (ctor : construction) (k : string) (s : state)
    : pc * state :=
  let '(r, s') := create ctor k s in (Returned r, release s').

(** The body of [async with cls._instance_lock], entered with the lock
    held, up to the next await or return. *)
Definition locked_section (k : string) (ctor : construction) (s : state)
    : pc * state :=
  match _instances s !! k with
  | Some i => (Returned (Some i), release s)
  | None =>
      if default false (_initializing s !! k)
      then
        match _init_events s !! k with
        | Some ev => (Waiting ev, release s)
        | None => create_and_return ctor k s
        end
      else create_and_return ctor k s
  end.

(** [get_instance(stream_id)]: a call that stands at [p] runs to its next
    await or to its return; [ctor] is what the constructor does if the
    call comes to line 792. *)
Definition get_instance (k : string) (p : pc) (ctor : construction) (s : state)
    : option (pc * state) :=
  match p with
  | AtStart =>
      match _instances s !! k with
      | Some i => Some (Returned (Some i), s)
      | None => Some (AtLock, s)
      end
  | AtLock => s1 ← acquire s; Some (locked_section k ctor s1)
  | Waiting ev =>
      if bool_decide (ev ∈ events_set s) then Some (Reacquire, s) else None
  | Reacquire =>
      s1 ← acquire s;
      match _instances s1 !! k with
      | Some i => Some (Returned (Some i), release s1)
      | None => Some (create_and_return ctor k s1)
      end
  | Returned _ => None
  end.

(** [wait_for] raises TimeoutError: lines 778-784, then the exit of
    [async with] releases the lock. *)
Definition expire (k : string) (s : state) : pc * state :=
  (Returned None,
   release
     (mkState (_instances s) (<[k := false]> (_initializing s))
        (delete k (_init_events s)) (events_set s) (locked s)
        (next_object s) (calls s) (tasks s))).

(** Lines 824-826 and 838-840: clear the flag, fire the event. *)
Definition mark_done (k : string) (s : state) : state :=
  mkState (_instances s) (<[k := false]> (_initializing s)) (_init_events s)
    (match _init_events s !! k with
     | Some ev => {[ev]} ∪ events_set s
     | None => events_set s
     end)
    (locked s) (next_object s) (calls s) (tasks s).

(** Lines 841-842: [del _instances[stream_id]] when present. *)
Definition evict (k : string) (s : state) : state :=
  mkState (delete k (_instances s)) (_initializing s) (_init_events s)
    (events_set s) (locked s) (next_object s) (calls s) (tasks s).

Definition set_task (t : nat) (x : string * nat * task_status) (s : state) : state :=
  mkState (_instances s) (_initializing s) (_init_events s) (events_set s)
    (locked s) (next_object s) (calls s) (<[t := x]> (tasks s)).

(** [_initialize()] from the point where it succeeds or raises: lines
    822-826 on success, the [except] block (lines 835-842) on failure. *)
Definition _initialize (succeeds : bool) (k : string) (s : state) : state :=
  if succeeds then mark_done k s else evict k (mark_done k s).

(** Modelled from the spec: [remove_instance], called by
    [_stop_conversation], is not part of pfc.py; the spec says that it
    stops the observer feed and evicts the conversation from the
    registry. *)
Definition remove_instance (k : string) (s : state) : state := evict k s.

(** The choices of a schedule. *)
Inductive label : Type :=
| Call (k : string)              (* [get_instance(k)] is called *)
| Step (c : nat) (ctor : construction)
                                 (* call number [c] moves; [ctor] is what
                                    the constructor does if called *)
| Timeout (c : nat)              (* the wait of call [c] expires *)
| InitDone (k : string) (t : nat)   (* task [t], for [k], completes *)
| InitFail (k : string) (t : nat)   (* task [t], for [k], raises *)
| Remove (k : string).

Definition step (l : label) (s : state) : option state :=
  match l with
  | Call k => Some (set_calls (calls s ++ [(k, AtStart)]) s)
  | Step c ctor =>
      '(k, p) ← calls s !! c;
      '(p', s') ← get_instance k p ctor s;
      Some (set_calls (<[c := (k, p')]> (calls s')) s')
  | Timeout c =>
      '(k, p) ← calls s !! c;
      match p with
      | Waiting _ =>
          let '(p', s') := expire k s in
          Some (set_calls (<[c := (k, p')]> (calls s')) s')
      | _ => None
      end
  | InitDone k t =>
      '(k', i, st) ← tasks s !! t;
      match st with
      | Running =>
          if String.eqb k' k
          then Some (set_task t (k, i, Completed) (_initialize true k s))
          else None
      | _ => None
      end
  | InitFail k t =>
      '(k', i, st) ← tasks s !! t;
      match st with
      | Running =>
          if String.eqb k' k
          then Some (set_task t (k, i, Failed) (_initialize false k s))
          else None
      | _ => None
      end
  | Remove k => Some (remove_instance k s)
  end.

Fixpoint run (ls : list label) (s : state) : option state :=
  match ls with
  | [] => Some s
  | l :: ls' => s' ← step l s; run ls' s'
  end.

(** What call [c] returned, if it has. *)
Definition returned (s : state) (c : nat) (k : string) (r : option nat) : Prop :=
  calls s !! c = Some (k, Returned r).

(** The instances for which an initialisation task was launched under
    [k]. *)
Definition launched (k : string) (s : state) : list nat :=
  omap (fun x : string * nat * task_status =>
          if String.eqb x.1.1 k then Some x.1.2 else None) (tasks s).


(** Two calls for "s1" in flight together, with the class as it stands.
    Both pass the unlocked test; call 0 takes the lock and its
    constructor raises; call 1 then finds the flag raised and waits for an
    event that nobody fires, until its wait expires. *)
Definition two_calls_raising : list label :=
  [Call "s1"; Call "s1"; Step 0 Raises; Step 1 Raises;
   Step 0 Raises; Step 1 Raises; Timeout 1].



(** The class as it stands: every call of the constructor raises. *)
Definition constructor_raises (l : label) : Prop :=
  match l with
  | Step _ ctor => ctor = Raises
  | _ => True
  end.



(** The instances made so far, in the order of their creation. *)
Definition created (s : state) : list nat :=
  (fun x : string * nat * task_status => x.1.2) <$> tasks s.

(** A task was launched for the instance [i] under [k]. *)
Definition launched_as (s : state) (k : string) (i : nat) : Prop :=
  exists t st, tasks s !! t = Some (k, i, st).

(** What holds of the registry whatever the schedule: identities are
    drawn from the counter, no instance is made twice, and an instance
    that is registered or was returned under [k] was made for [k]. *)
Record sound (s : state) : Prop := mkSound {
  sound_fresh : Forall (fun i => i < next_object s) (created s);
  sound_nodup : NoDup (created s);
  sound_instances : forall k i, _instances s !! k = Some i -> launched_as s k i;
  sound_calls :
    forall c k i, calls s !! c = Some (k, Returned (Some i)) -> launched_as s k i
}.

(** A call for "s1", the removal of its instance while the
    initialisation is still running, and a second call for "s1", which
    is made to wait. *)
Definition removed_then_called : list label :=
  [Call "s1"; Step 0 Constructs; Step 0 Constructs; Remove "s1";
   Call "s1"; Step 1 Constructs; Step 1 Constructs].

(** The same, then the failure of the initialisation, and the second
    call going on to a constructor that raises. *)
Definition removed_while_initializing : list label :=
  removed_then_called ++ [InitFail "s1" 0; Step 1 Raises; Step 1 Raises].

End Registry.

(** ** Test doubles

    A fake clock and fake collaborators, used to run the code on concrete
    inputs. *)

Module Fake.

Record Env : Type := mkEnv {
  clock : Q;
  (** what [get_message_history] answers *)
  history : result (list pydict);
  (** what the language model answers *)
  llm_content : result string;
  (** [new_message_after] answers True once the clock has reached this
      time *)
  message_from : option Q;
  (** what the transport answers *)
  rest_answer : result unit;
  (** what the reply checker answers *)
  verdict : bool * string * bool
}.

Definition tick (s : Q) (e : Env) : Env :=
  mkEnv (Qred (clock e + s)) (history e) (llm_content e) (message_from e)
    (rest_answer e) (verdict e).

Definition show (v : pyval) : string :=
  match v with
  | PyStr s => s
  | _ => "?"
  end.

Definition user_info_from_dict (v : pyval) : result UserInfo :=
  match v with
  | PyDict d =>
      inr (mkUserInfo (dict_get d "user_id" PyNone)
             (dict_get d "user_nickname" PyNone))
  | _ => inl (AttributeError "get")
  end.

Definition chat_stream_from_dict (v : pyval) : result ChatStream :=
  match v with
  | PyDict d => inr (mkChatStream (show (dict_get d "platform" (PyStr "qq"))))
  | _ => inl (AttributeError "get")
  end.

(** Collaborators whose JSON extractor answers [json] whatever the
    content. *)
Definition collaborators (json : result (bool * pydict)) : Collaborators Env :=
  {| time_time := clock;
     asyncio_sleep := tick;
     now_strftime := fun _ => "12:00:00";
     fromtimestamp_strftime := fun v =>
       match py_num v with
       | Some t =>
           (* datetime stops at the year 9999 *)
           if Qle_bool t 253402300799 then inr "12:00:00"
           else inl (ValueError "year is out of range")
       | None => inl (TypeError "an integer is required")
       end;
     py_str := show;
     genarg_str := fun _ => "";
     render := fun name _ => name;
     BOT_NICKNAME := "bot";
     personality_info := "";
     api_urls := fun p => if String.eqb p "qq" then Some "http://127.0.0.1" else None;
     UserInfo_from_dict := user_info_from_dict;
     ChatStream_from_dict := chat_stream_from_dict;
     generate_response_async := fun _ _ e => (llm_content e, e);
     get_items_from_json := fun _ _ _ _ => json;
     get_message_history := fun _ e => (history e, e);
     trigger_update := fun e => (inr tt, e);
     wait_for_update := fun e => (inr true, e);
     new_message_after := fun _ e =>
       (inr (match message_from e with
             | Some m => Qle_bool m (clock e)
             | None => false
             end), e);
     reply_checker_check := fun _ _ _ e => (inr (verdict e), e);
     knowledge_fetch := fun _ _ e => (inr ("未找到相关知识", ""), e);
     message_process := fun _ e => (inr tt, e);
     send_message_REST := fun _ _ e => (rest_answer e, e);
     store_message := fun _ e => (inr tt, e);
     remove_instance := fun _ e => (inr tt, e) |}.

(** A message record as the observer hands it out. *)
Definition message (t : Q) (uid text : string) : pydict :=
  [("message_id", PyStr "m1"); ("time", PyFloat t);
   ("user_info", PyDict [("user_id", PyStr uid); ("user_nickname", PyStr uid)]);
   ("processed_plain_text", PyStr text)].

Definition env0 : Env :=
  mkEnv 1000 (inr [message 990 "u1" "hello"]) (inr "ok") None (inr tt)
    (true, "", false).

Definition conv0 : Conversation :=
  {| stream_id := "s1";
     chat_stream := mkChatStream "qq";
     state := INIT;
     current_goal := "A";
     current_method := "m";
     goal_reasoning := "r";
     goal_achieved := PyBool false;
     stop_conversation := PyBool false;
     reason := PyStr "";
     generated_reply := "";
     knowledge_cache := ∅;
     action_history := [];
     should_continue := true;
     goals := [("A", "m", "ra"); ("B", "m", "rb")];
     decision_info := DecisionInfo_default |}.

Definition world0 : World Env := mkWorld conv0 None [] env0.

(** The world in which a reply "hi" is ready and the transport refuses
    the connection. *)
Definition world_send_fails : World Env :=
  mkWorld (set_generated_reply "hi" conv0) None []
    (mkEnv 1000 (inr [message 990 "u1" "hello"]) (inr "ok") None
       (inl (ExternalError "connection refused")) (true, "", false)).

(** The world in which the reply checker rejects every candidate and
    asks for a new plan. *)
Definition world_rejecting : World Env :=
  mkWorld conv0 None []
    (mkEnv 1000 (inr [message 990 "u1" "hello"]) (inr "ok") None (inr tt)
       (false, "not suitable", true)).

(** The world in which the observer hands out a record without
    ["time"]. *)
Definition world_untimed_history : World Env :=
  mkWorld conv0 None []
    (mkEnv 1000 (inr [[("processed_plain_text", PyStr "hello")]]) (inr "ok")
       None (inr tt) (true, "", false)).

(** The world in which the observer hands out a record whose time stamp
    counts nanoseconds. *)
Definition world_nanosecond_history : World Env :=
  mkWorld conv0 None []
    (mkEnv 1000 (inr [message 1700000000000000000 "u1" "hello"]) (inr "ok")
       None (inr tt) (true, "", false)).

(** The world in which the observer fails. *)
Definition world_observer_fails : World Env :=
  mkWorld conv0 None []
    (mkEnv 1000 (inl (ExternalError "database is locked")) (inr "ok")
       None (inr tt) (true, "", false)).

(** The extractor finds an action that is not one of the six. *)
Definition dance_json : result (bool * pydict) :=
  inr (true, [("action", PyStr "dance"); ("reason", PyStr "because")]).

(** The world in which a message arrives at 1002.5. *)
Definition world_message_soon : World Env :=
  mkWorld conv0 None []
    (mkEnv 1000 (inr []) (inr "ok") (Some (2005 # 2)%Q) (inr tt) (true, "", false)).

(** The extractor finds the judgement "achieved, do not stop". *)
Definition achieved_json : result (bool * pydict) :=
  inr (true, [("goal_achieved", PyBool true);
              ("stop_conversation", PyBool false);
              ("reason", PyStr "answered")]).

(** The world with three goals, the first of which is the active one. *)
Definition world_three_goals : World Env :=
  mkWorld (set_goals [("A", "m", "ra"); ("B", "m", "rb"); ("C", "m", "rc")] conv0)
    None [] env0.

(** The extractor finds no JSON. *)
Definition no_json : result (bool * pydict) := inr (false, []).

(** A DecisionInfo that has seen one message, from a user, at 990. *)
Definition info0 : DecisionInfo :=
  set_last_user_speak_time (PyFloat 990)
    (set_last_message_time (PyFloat 990) DecisionInfo_default).

(** The extractor finds the action "wait". *)
Definition wait_json : result (bool * pydict) :=
  inr (true, [("action", PyStr "wait"); ("reason", PyStr "idle")]).

(** The extractor finds a goal. *)
Definition goal_json : result (bool * pydict) :=
  inr (true, [("goal", PyStr "learn Rust"); ("reasoning", PyStr "asked")]).

(** The extractor finds the judgement "not achieved, stop". *)
Definition stop_json : result (bool * pydict) :=
  inr (true, [("goal_achieved", PyBool false);
              ("stop_conversation", PyBool true);
              ("reason", PyStr "goodbye")]).

(** The world in which the language model fails. *)
Definition world_llm_fails : World Env :=
  mkWorld conv0 None []
    (mkEnv 1000 (inr [message 990 "u1" "hello"])
       (inl (ExternalError "rate limit")) None (inr tt) (true, "", false)).

(** The world whose DecisionInfo has seen one message. *)
Definition world_informed : World Env :=
  mkWorld (set_decision_info info0 conv0) None [] env0.

End Fake.

(** ** Vocabulary of the statements *)

(** [m] leaves the observation [f] of the state as it found it, however
    it ends. *)
Definition preserves {S A X} (f : S -> X) (m : M S A) : Prop :=
  forall s, f (m s).2 = f s.

(** An observation of the Conversation object alone. *)
Definition observe {Env X} (f : Conversation -> X) (w : World Env) : X :=
  f (conv w).

(** [m] never runs out of fuel: it returns or raises. *)
Definition terminates {S A} (m : M S A) : Prop :=
  forall s, (m s).1 <> OutOfFuel.

Definition is_llm_call (e : event) : bool :=
  match e with
  | LLMCall _ _ => true
  | _ => false
  end.

(** The calls to the language model made so far. *)
Definition llm_calls {Env} (w : World Env) : list event :=
  List.filter is_llm_call (trace w).

(** The notifications that [handle_notification] turns away before any
    field of the DecisionInfo is assigned: no notification, no [data]
    attribute, [data] that is [None], and for a new-message notification
    [data] that is not a dict or is a dict without the entry ["time"]. *)
Definition rejected (notification : option Notification) : Prop :=
  match notification with
  | None => True
  | Some n =>
      match n_data n with
      | None | Some PyNone => True
      | Some (PyDict message) =>
          n_type n = NEW_MESSAGE /\ dict_lookup message "time" = None
      | Some _ => n_type n = NEW_MESSAGE
      end
  end.

Definition is_error_log (e : event) : Prop :=
  exists msg, e = Log ERROR msg.

Definition plan_fallback_error : string * pyval :=
  ("direct_reply", PyStr "发生错误，选择直接回复").

Definition plan_fallback_json : string * pyval :=
  ("direct_reply", PyStr "JSON解析失败，选择直接回复").

(** The action [plan] settles on for a parsed field [action]. *)
Definition normalize_action (v : pyval) : string :=
  match v with
  | PyStr a => if bool_decide (a ∈ valid_actions) then a else "listening"
  | _ => "listening"
  end.

(** The active goal triple of a Conversation. *)
Definition current_triple (c : Conversation) : Goal :=
  (current_goal c, current_method c, goal_reasoning c).

(** The goal list once [analyze_conversation] has removed the first
    goal whose text is [goal]. *)
Definition without_goal (goal : string) (gs : list Goal) : list Goal :=
  match first_equal goal gs 0 with
  | Some i => delete i gs
  | None => gs
  end.

Section Vocabulary.

Context {Env : Type} (C : Collaborators Env).

Definition plan_items (content : string) : result (bool * pydict) :=
  get_items_from_json C content ["action"; "reason"]
    [("action", PyStr "direct_reply"); ("reason", PyStr "默认原因")] [].

(** The decision table of [plan], to be compared with the [try] block
    and the [except] of the code: a failing call or extractor gives the
    error fallback, an extraction without success the JSON fallback, and
    a parsed action is kept when it is one of the six tags and replaced
    by "listening" otherwise. *)
Definition plan_decision (answer : result string) : string * pyval :=
  match answer with
  | inl _ => plan_fallback_error
  | inr content =>
      match plan_items content with
      | inl _ => plan_fallback_error
      | inr (false, _) => plan_fallback_json
      | inr (true, result) =>
          match dict_lookup result "action", dict_lookup result "reason" with
          | Some action, Some reason => (normalize_action action, reason)
          | _, _ => plan_fallback_error
          end
      end
  end.

(** The world after a poll that found nothing ([e'] is the outside world
    as the observer left it) and the sleep that follows it. *)
Definition after_idle_poll (e' : Env) (w : World Env) : World Env :=
  (sleep C 1 (set_env e' w)).2.

(** One round of the loop that neither returns nor raises: the observer
    reports no new message, no more than 300 have elapsed since
    [wait_start_time], and the Waiter sleeps for 1. *)
Inductive idle_poll (wait_start_time : Q) : World Env -> World Env -> Prop :=
| idle_poll_intro (w : World Env) (e' : Env) :
    new_message_after C wait_start_time (env w) = (inr false, e') ->
    (time_time C e' - wait_start_time <= 300)%Q ->
    idle_poll wait_start_time w (after_idle_poll e' w).

(** Sleeping for [s] moves the clock on by at least [s]. *)
Definition sleep_advances_clock : Prop :=
  forall s e, (time_time C e + s <= time_time C (asyncio_sleep C s e))%Q.

(** Asking the observer does not move the clock back. *)
Definition observer_keeps_clock : Prop :=
  forall t e, (time_time C e <= time_time C (new_message_after C t e).2)%Q.

(** The observer answers, it does not raise. *)
Definition observer_answers : Prop :=
  forall t e, exists b, (new_message_after C t e).1 = inr b.

(** The extraction asked for by [analyze_conversation]. *)
Definition judge_items (content : string) : result (bool * pydict) :=
  get_items_from_json C content
    ["goal_achieved"; "stop_conversation"; "reason"] []
    [("goal_achieved", "bool"); ("stop_conversation", "bool"); ("reason", "str")].

(** The prompt of [analyze_conversation]. *)
Definition judge_prompt (goal reasoning text : string) : string :=
  render C "judge_conversation" [personality_text C; goal; reasoning; text].

End Vocabulary.

(** ** Vocabulary of the further properties *)

(** The DecisionInfo of the Conversation of a world. *)
Definition info_of {Env} (w : World Env) : DecisionInfo := decision_info (conv w).

(** The counter of new messages agrees with the list of unprocessed
    messages. *)
Definition counts_agree (d : DecisionInfo) : Prop :=
  new_messages_count d = Z.of_nat (length (unprocessed_messages d)).

(** The bot itself is not among the active users. *)
Definition bot_inactive (d : DecisionInfo) : Prop :=
  Forall (fun u => py_eqb u (PyStr (bot_id d)) = false) (active_users d).

(** [m] keeps the property [P] of the state, however it ends. *)
Definition maintains {S A} (P : S -> Prop) (m : M S A) : Prop :=
  forall s, P s -> P (m s).2.

(** The events of the trace that [p] selects. *)
Definition seen {Env} (p : event -> bool) (w : World Env) : list event :=
  List.filter p (trace w).

(** A message handed to the sender whose text is not [text]. *)
Definition foreign_send (text : string) (e : event) : bool :=
  match e with
  | SendMessage content _ => negb (String.eqb content text)
  | _ => false
  end.

(** What reaches beyond the observer and the log: calls to the language
    model, messages, storage, removals, sleeps. *)
Definition outward (e : event) : bool :=
  match e with
  | Log _ _ | TriggerUpdate => false
  | _ => true
  end.

Definition is_removal (e : event) : bool :=
  match e with
  | RemoveInstance _ => true
  | _ => false
  end.

(** The requests to remove the instance from the registry made so far. *)
Definition removals {Env} (w : World Env) : list event :=
  List.filter is_removal (trace w).

(** What the loop and the registry see of a Conversation: whether it is
    to continue, its stream id, and the removals it has asked for. *)
Definition standing {Env} (w : World Env) : bool * string * list event :=
  (should_continue (conv w), stream_id (conv w), removals w).

(** The Conversation has been stopped from [w]: it is not to continue,
    its state is ENDED, and one removal of its instance has been asked
    for. *)
Definition stopped_from {Env} (w w' : World Env) : Prop :=
  should_continue (conv w') = false /\
  state (conv w') = ENDED /\
  stream_id (conv w') = stream_id (conv w) /\
  removals w' = removals w ++ [RemoveInstance (stream_id (conv w))].

(** [m] either leaves the standing of the Conversation as it is or
    stops the Conversation. *)
Definition stops_or_keeps {Env A} (m : M (World Env) A) : Prop :=
  forall w, standing (m w).2 = standing w \/ stopped_from w (m w).2.

(** The method [analyze_goal] attaches to every goal it finds. *)
Definition friendly_method : string := "以友好的态度回应".

(** [m] calls the language model at most [n] times. *)
Definition llm_bound {Env A} (n : nat) (m : M (World Env) A) : Prop :=
  forall w, exists calls,
    llm_calls (m w).2 = llm_calls w ++ calls /\ length calls <= n.

(** The number of calls to the language model an action may cost. *)
Definition llm_budget (action : string) : nat :=
  if String.eqb action "rethink_goal" then 3
  else if String.eqb action "direct_reply" then 1
  else if String.eqb action "judge_conversation" then 1
  else 0.

(** The text that [handle_fetch_knowledge] takes to mean that nothing
    was found. *)
Definition nothing_found : string := "未找到相关知识".

(** The reply [generate] falls back to when the language model fails. *)
Definition apology : string := "抱歉，我现在有点混乱，让我重新思考一下...".

Section FurtherVocabulary.

Context {Env : Type} (C : Collaborators Env).

(** A history record that [format_history] can render: it has a time
    stamp that [strftime] accepts and a [user_info] that
    [UserInfo.from_dict] accepts. *)
Definition renders (msg : pydict) : Prop :=
  exists t s ui,
    dict_lookup msg "time" = Some t /\
    fromtimestamp_strftime C t = inr s /\
    UserInfo_from_dict C (dict_get msg "user_info" (PyDict [])) = inr ui.

(** The prompt of [generate]. *)
Definition reply_prompt (goal : string) (knowledge_cache previous_reply : genarg)
    (chat_history_text : string) : string :=
  let knowledge_text :=
    if genarg_truthy knowledge_cache
    then nl +:+ "相关知识：" +:+ genarg_str C knowledge_cache else "" in
  let previous_reply_text :=
    if genarg_truthy previous_reply
    then nl +:+ "上一次生成的回复（需要改进）：" +:+ nl +:+ genarg_str C previous_reply
    else "" in
  render C "reply_generation"
    [personality_text C; goal; knowledge_text; previous_reply_text;
     chat_history_text;
     if genarg_truthy previous_reply then "5. 改进上一次回复中的问题" else ""].

End FurtherVocabulary.

(** * Properties *)

(** ** DecisionInfo queries *)

Lemma float_sub_num (now t : Q) (v : pyval) :
  py_num v = Some t -> float_sub now v = Ret (now - t)%Q.
Proof. intros H. unfold float_sub. now rewrite H. Qed.

(** C8 (as amended).  Each derived query returns the current time minus
    the relevant timestamp when that timestamp is a non-zero number.  When
    the timestamp is unset ([None]), the user and bot response times are
    [None], whereas the active duration is the number 0.0. *)
Theorem derived_queries_spec (now : Q) (d : DecisionInfo) :
  (forall t, py_num (last_message_time d) = Some t ->
             truthy (last_message_time d) = true ->
             get_active_duration now d = Ret (PyFloat (now - t))) /\
  (forall t, py_num (last_user_speak_time d) = Some t ->
             truthy (last_user_speak_time d) = true ->
             get_user_response_time now d = Ret (PyFloat (now - t))) /\
  (forall t, py_num (last_bot_speak_time d) = Some t ->
             truthy (last_bot_speak_time d) = true ->
             get_bot_response_time now d = Ret (PyFloat (now - t))) /\
  (last_message_time d = PyNone -> get_active_duration now d = Ret (PyFloat 0)) /\
  (last_user_speak_time d = PyNone -> get_user_response_time now d = Ret PyNone) /\
  (last_bot_speak_time d = PyNone -> get_bot_response_time now d = Ret PyNone).
Proof.
  unfold get_active_duration, get_user_response_time, get_bot_response_time.
  repeat split.
  - intros t Hn Ht. rewrite Ht. simpl. now rewrite (float_sub_num _ _ _ Hn).
  - intros t Hn Ht. rewrite Ht. simpl. now rewrite (float_sub_num _ _ _ Hn).
  - intros t Hn Ht. rewrite Ht. simpl. now rewrite (float_sub_num _ _ _ Hn).
  - intros ->. reflexivity.
  - intros ->. reflexivity.
  - intros ->. reflexivity.
Qed.

(** The queries on a DecisionInfo whose last message, from a user, came
    at time 990, read at time 1000. *)
Lemma derived_queries_spec_witness :
  get_active_duration 1000 Fake.info0 = Ret (PyFloat (1000 - 990)) /\
  get_user_response_time 1000 Fake.info0 = Ret (PyFloat (1000 - 990)) /\
  get_bot_response_time 1000 Fake.info0 = Ret PyNone.
Proof.
  destruct (derived_queries_spec 1000 Fake.info0) as (Ha & Hu & _ & _ & _ & Hb).
  split; [| split].
  - apply (Ha 990%Q); reflexivity.
  - apply (Hu 990%Q); reflexivity.
  - apply Hb; reflexivity.
Defined.

(** C8, as stated, fails for the active duration: with no message seen
    the query answers the number 0.0, not "unknown". *)
Lemma active_duration_unset_counterexample :
  last_message_time DecisionInfo_default = PyNone /\
  get_active_duration 1000 DecisionInfo_default = Ret (PyFloat 0) /\
  get_active_duration 1000 DecisionInfo_default <> Ret PyNone.
Proof. repeat split. discriminate. Qed.

(** ** Goal store *)

Lemma similar_true (a b : string) :
  similar a b = true <-> (7 # 10 < _calculate_similarity a b)%Q.
Proof.
  unfold similar. rewrite negb_true_iff.
  split.
  - intros H. apply Qnot_le_lt. intros Hle.
    apply Qle_bool_iff in Hle. congruence.
  - intros H. destruct (Qle_bool _ _) eqn:E; [| reflexivity].
    apply Qle_bool_iff in E. exfalso. exact (Qlt_not_le _ _ H E).
Qed.

Lemma similar_false (a b : string) :
  similar a b = false <-> (_calculate_similarity a b <= 7 # 10)%Q.
Proof.
  unfold similar. rewrite negb_false_iff. apply Qle_bool_iff.
Qed.

Lemma first_similar_found (new_goal : string) (gs : list Goal) (k i : nat) (g : Goal) :
  gs !! i = Some g ->
  similar new_goal (goal_text g) = true ->
  (forall j h, j < i -> gs !! j = Some h -> similar new_goal (goal_text h) = false) ->
  first_similar new_goal gs k = Some (k + i).
Proof.
  revert k i. induction gs as [| x gs IH]; intros k i Hi Hs Hbefore.
  - discriminate.
  - destruct i as [| i]; simpl in *.
    + injection Hi as ->. rewrite Hs. f_equal. lia.
    + rewrite (Hbefore 0 x) by (lia || reflexivity).
      rewrite (IH (S k) i Hi Hs).
      * f_equal. lia.
      * intros j h Hj Hh. apply (Hbefore (S j) h); [lia | exact Hh].
Qed.

Lemma first_similar_none (new_goal : string) (gs : list Goal) (k : nat) :
  (forall g, g ∈ gs -> similar new_goal (goal_text g) = false) ->
  first_similar new_goal gs k = None.
Proof.
  revert k. induction gs as [| x gs IH]; intros k H; simpl.
  - reflexivity.
  - rewrite (H x) by (left; reflexivity).
    apply IH. intros g Hg. apply H. now right.
Qed.

Lemma first_similar_bound (new_goal : string) (gs : list Goal) (k i : nat) :
  first_similar new_goal gs k = Some i -> k <= i < k + length gs.
Proof.
  revert k. induction gs as [| x gs IH]; intros k; simpl.
  - discriminate.
  - destruct (similar _ _).
    + intros [= <-]. lia.
    + intros H. apply IH in H. lia.
Qed.

Lemma delete_insert_same {A} (l : list A) (i : nat) (x : A) :
  delete i (<[i := x]> l) = delete i l.
Proof.
  revert i. induction l as [| y l IH]; intros [| i]; simpl; try reflexivity.
  f_equal. apply IH.
Qed.

Lemma length_delete_lt {A} (l : list A) (i : nat) :
  i < length l -> S (length (delete i l)) = length l.
Proof.
  revert i. induction l as [| y l IH]; intros [| i]; simpl; intros H; try lia.
  rewrite IH; lia.
Qed.

Lemma length_removelast {A} (l : list A) :
  length (removelast l) = length l - 1.
Proof.
  induction l as [| x [| y l] IH]; simpl in *; try reflexivity.
  rewrite IH. lia.
Qed.

(** What [_update_goals] returns when the scan stops at index [i]. *)
Lemma update_goals_merge (new_goal method reasoning : string) (gs : list Goal) (i : nat) :
  first_similar new_goal gs 0 = Some i ->
  _update_goals new_goal method reasoning gs =
    (new_goal, method, reasoning) :: delete i gs.
Proof.
  intros H. unfold _update_goals. rewrite H.
  apply first_similar_bound in H.
  rewrite list_lookup_insert_eq by lia.
  now rewrite delete_insert_same.
Qed.

(** What [_update_goals] returns when the scan finds nothing. *)
Lemma update_goals_insert (new_goal method reasoning : string) (gs : list Goal) :
  first_similar new_goal gs 0 = None ->
  _update_goals new_goal method reasoning gs =
    if (length gs <? max_goals)%nat
    then (new_goal, method, reasoning) :: gs
    else (new_goal, method, reasoning) :: removelast gs.
Proof.
  intros H. unfold _update_goals, pop_last. rewrite H.
  cbn [length]. unfold max_goals.
  destruct (Nat.ltb_spec 3 (S (length gs))) as [Hlt | Hge];
    destruct (Nat.ltb_spec (length gs) 3) as [Hlt' | Hge']; try lia; try reflexivity.
  destruct gs as [| g gs]; [simpl in *; lia | reflexivity].
Qed.

(** C2 (as amended).  On a list of at most 3 goals, [_update_goals]
    leaves at most 3 goals.  If some existing goal has a character-set
    Jaccard similarity to the new goal strictly above 0.7, the first such
    entry is replaced by the new triple and moved to the front, and the
    list does not grow.  Otherwise the new triple is put at the front and,
    when that makes 4 goals, the last one is dropped. *)
Theorem update_goals_spec (new_goal method reasoning : string) (gs : list Goal) :
  length gs <= max_goals ->
  length (_update_goals new_goal method reasoning gs) <= max_goals /\
  (forall i g,
      gs !! i = Some g ->
      (7 # 10 < _calculate_similarity new_goal (goal_text g))%Q ->
      (forall j h, j < i -> gs !! j = Some h ->
                   (_calculate_similarity new_goal (goal_text h) <= 7 # 10)%Q) ->
      _update_goals new_goal method reasoning gs =
        (new_goal, method, reasoning) :: delete i gs /\
      length (_update_goals new_goal method reasoning gs) = length gs) /\
  ((forall g, g ∈ gs ->
              (_calculate_similarity new_goal (goal_text g) <= 7 # 10)%Q) ->
   _update_goals new_goal method reasoning gs =
     if (length gs <? max_goals)%nat
     then (new_goal, method, reasoning) :: gs
     else (new_goal, method, reasoning) :: removelast gs).
Proof.
  intros Hlen. split; [| split].
  - destruct (first_similar new_goal gs 0) as [i |] eqn:E.
    + rewrite (update_goals_merge _ _ _ _ _ E).
      apply first_similar_bound in E. cbn [length].
      rewrite length_delete_lt; lia.
    + rewrite (update_goals_insert _ _ _ _ E).
      unfold max_goals in *.
      destruct (Nat.ltb_spec (length gs) 3); cbn [length];
        [lia | rewrite length_removelast; lia].
  - intros i g Hi Hsim Hbefore.
    assert (E : first_similar new_goal gs 0 = Some i).
    { apply (first_similar_found new_goal gs 0 i g Hi).
      - now apply similar_true.
      - intros j h Hj Hh. apply similar_false. eauto. }
    rewrite (update_goals_merge _ _ _ _ _ E). split; [reflexivity |].
    apply first_similar_bound in E. cbn [length].
    apply length_delete_lt. lia.
  - intros Hnone. apply update_goals_insert, first_similar_none.
    intros g Hg. apply similar_false. auto.
Qed.

(** Merging "help with X please" into a list that holds "help with X":
    the list keeps its length. *)
Lemma update_goals_spec_witness :
  _update_goals "help with X please" "m" "r" [("help with X", "m0", "r0")] =
    [("help with X please", "m", "r")].
Proof.
  destruct (update_goals_spec "help with X please" "m" "r"
              [("help with X", "m0", "r0")]) as (_ & Hmerge & _).
  - unfold max_goals. simpl. lia.
  - destruct (Hmerge 0%nat ("help with X", "m0", "r0")) as [Heq _].
    + reflexivity.
    + vm_compute. reflexivity.
    + intros j h Hj. lia.
    + exact Heq.
Defined.

(** C2, as stated, fails at a similarity of exactly 0.7: the two goals
    share 7 of 10 characters, and the new goal is added in front of the
    existing one instead of replacing it. *)
Lemma update_goals_threshold_counterexample :
  (_calculate_similarity "abcdefgh" "abcdefgij" == 7 # 10)%Q /\
  _update_goals "abcdefgh" "m" "r" [("abcdefgij", "m0", "r0")] =
    [("abcdefgh", "m", "r"); ("abcdefgij", "m0", "r0")].
Proof. split; vm_compute; reflexivity. Qed.

(** ** Reasoning about stateful code *)

Lemma bind_unfold {S A B} (m : M S A) (f : A -> M S B) (s : S) :
  (m ≫= f) s =
    match m s with
    | (Ret a, s') => f a s'
    | (Raise e, s') => (Raise e, s')
    | (OutOfFuel, s') => (OutOfFuel, s')
    end.
Proof. reflexivity. Qed.

Lemma bind_ret {S A B} (m : M S A) (f : A -> M S B) (s s' : S) (a : A) :
  m s = (Ret a, s') -> (m ≫= f) s = f a s'.
Proof. intros H. rewrite bind_unfold, H. reflexivity. Qed.

Lemma bind_raise {S A B} (m : M S A) (f : A -> M S B) (s s' : S) (e : exn) :
  m s = (Raise e, s') -> (m ≫= f) s = (Raise e, s').
Proof. intros H. rewrite bind_unfold, H. reflexivity. Qed.

Section Preserves.

Context {S X : Type} (f : S -> X).

Lemma preserves_ret {A} (a : A) : preserves f (mret a : M S A).
Proof. intros s. reflexivity. Qed.

Lemma preserves_bind {A B} (m : M S A) (k : A -> M S B) :
  preserves f m -> (forall a, preserves f (k a)) -> preserves f (m ≫= k).
Proof.
  intros Hm Hk s. rewrite bind_unfold. specialize (Hm s).
  destruct (m s) as [[a | e |] s']; simpl in *; try exact Hm.
  rewrite Hk. exact Hm.
Qed.

Lemma preserves_try {A} (m : M S A) (h : exn -> M S A) :
  preserves f m -> (forall e, preserves f (h e)) -> preserves f (try_except m h).
Proof.
  intros Hm Hh s. unfold try_except. specialize (Hm s).
  destruct (m s) as [[a | e |] s']; simpl in *; try exact Hm.
  rewrite Hh. exact Hm.
Qed.

Lemma preserves_lift {A} (o : outcome A) : preserves f (lift o : M S A).
Proof. intros s. reflexivity. Qed.

Lemma preserves_raise {A} (e : exn) : preserves f (raise e : M S A).
Proof. intros s. reflexivity. Qed.

Lemma preserves_out_of_fuel {A} : preserves f (out_of_fuel : M S A).
Proof. intros s. reflexivity. Qed.

Lemma preserves_gets {A} (g : S -> A) : preserves f (gets g).
Proof. intros s. reflexivity. Qed.

Lemma preserves_modify (g : S -> S) :
  (forall s, f (g s) = f s) -> preserves f (modify g).
Proof. intros H s. apply H. Qed.

End Preserves.

(** Breaks a goal [preserves f m] along the structure of [m]. *)
Ltac preserves_step :=
  lazymatch goal with
  | |- preserves _ (mret _) => apply preserves_ret
  | |- preserves _ (mbind _ _) => apply preserves_bind; [| intros ?]
  | |- preserves _ (try_except _ _) => apply preserves_try; [| intros ?]
  | |- preserves _ (lift _) => apply preserves_lift
  | |- preserves _ (raise _) => apply preserves_raise
  | |- preserves _ out_of_fuel => apply preserves_out_of_fuel
  | |- preserves _ (gets _) => apply preserves_gets
  | |- preserves _ (match ?x with _ => _ end) => destruct x
  | |- preserves _ (let '(_, _) := ?x in _) => destruct x
  end.

Create HintDb keeps discriminated.

Ltac preserves_tac :=
  repeat first [ solve [auto with keeps] | preserves_step ].

Section Frame.

Context {Env : Type} (C : Collaborators Env) {X : Type} (f : Conversation -> X).

Lemma keeps_emit (e : event) : preserves (observe f) (emit (Env := Env) e).
Proof. intros w. reflexivity. Qed.

Lemma keeps_log (l : level) (m : string) :
  preserves (observe f) (log (Env := Env) l m).
Proof. intros w. reflexivity. Qed.

Lemma keeps_call {A} (g : Env -> result A * Env) : preserves (observe f) (call g).
Proof. intros w. unfold call. destruct (g (env w)). reflexivity. Qed.

Lemma keeps_get_self {A} (g : Conversation -> A) :
  preserves (observe f) (get_self (Env := Env) g).
Proof. intros w. reflexivity. Qed.

Lemma keeps_update_self (g : Conversation -> Conversation) :
  (forall c, f (g c) = f c) -> preserves (observe f) (update_self (Env := Env) g).
Proof. intros H w. apply H. Qed.

Lemma keeps_now : preserves (observe f) (now C).
Proof. intros w. reflexivity. Qed.

Lemma keeps_sleep (s : Q) : preserves (observe f) (sleep C s).
Proof. intros w. reflexivity. Qed.

Lemma keeps_modify_world (g : World Env -> World Env) :
  (forall w, conv (g w) = conv w) -> preserves (observe f) (modify g).
Proof. intros H w. unfold observe. simpl. now rewrite H. Qed.

End Frame.

#[export] Hint Resolve keeps_emit keeps_log keeps_call keeps_get_self
  keeps_now keeps_sleep : keeps.

(** The code that only talks to collaborators leaves the whole
    Conversation object as it is. *)
Section FrameOfIO.

Context {Env : Type} (C : Collaborators Env) {X : Type} (f : Conversation -> X).

Lemma keeps_do_trigger_update : preserves (observe f) (do_trigger_update C).
Proof. unfold do_trigger_update. preserves_tac. Qed.

Lemma keeps_llm (rt p : string) : preserves (observe f) (llm C rt p).
Proof. unfold llm. preserves_tac. Qed.

Hint Resolve keeps_do_trigger_update keeps_llm : keeps.

Lemma keeps_send_message stream content r :
  preserves (observe f) (send_message C stream content r).
Proof. unfold send_message. preserves_tac. Qed.

Lemma keeps_convert_to_message m : preserves (observe f) (_convert_to_message C m).
Proof. unfold _convert_to_message. preserves_tac. Qed.

Hint Resolve keeps_send_message keeps_convert_to_message : keeps.

Lemma keeps_convert_all ms : preserves (observe f) (convert_all C ms).
Proof. induction ms; simpl; preserves_tac. Qed.

Lemma keeps_send_timeout_message : preserves (observe f) (_send_timeout_message C).
Proof. unfold _send_timeout_message. preserves_tac. Qed.

Lemma keeps_generate g a b c : preserves (observe f) (generate C g a b c).
Proof. unfold generate. preserves_tac. Qed.

Lemma keeps_check_reply r g : preserves (observe f) (check_reply C r g).
Proof. unfold check_reply. preserves_tac. Qed.

Lemma keeps_wait_loop fuel t : preserves (observe f) (wait_loop C fuel t).
Proof. induction fuel; simpl; preserves_tac. Qed.

Hint Resolve keeps_wait_loop : keeps.

Lemma keeps_wait fuel : preserves (observe f) (wait C fuel).
Proof.
  unfold wait. preserves_tac.
  apply keeps_modify_world. reflexivity.
Qed.

End FrameOfIO.

#[export] Hint Resolve keeps_do_trigger_update keeps_llm keeps_send_message
  keeps_convert_to_message keeps_convert_all keeps_send_timeout_message
  keeps_generate keeps_check_reply keeps_wait_loop keeps_wait : keeps.

(** The setters other than [set_action_history] leave the history
    alone. *)
Ltac setter_frame := intros c; destruct c; reflexivity.

Ltac keeps_history :=
  preserves_tac; try (apply keeps_update_self; setter_frame).

Section HistoryOfHandlers.

Context {Env : Type} (C : Collaborators Env).

Lemma keeps_on_decision_info {A} (m : M DecisionInfo A) :
  preserves (observe action_history) (on_decision_info (Env := Env) m).
Proof.
  intros w. unfold on_decision_info.
  destruct (m (decision_info (conv w))) as [r d]. simpl.
  unfold observe. simpl. now destruct (conv w).
Qed.

Lemma keeps_stop_conversation :
  preserves (observe action_history) (_stop_conversation C).
Proof. unfold _stop_conversation. keeps_history. Qed.

Lemma keeps_send_reply : preserves (observe action_history) (_send_reply C).
Proof. unfold _send_reply. keeps_history. Qed.

Hint Resolve keeps_stop_conversation keeps_send_reply : keeps.

Lemma keeps_analyze_goal_attempt n :
  preserves (observe action_history) (analyze_goal_attempt C n).
Proof. unfold analyze_goal_attempt. keeps_history. Qed.

Hint Resolve keeps_analyze_goal_attempt : keeps.

Lemma keeps_analyze_goal_loop n k :
  preserves (observe action_history) (analyze_goal_loop C n k).
Proof. revert n. induction k; intros n; simpl; keeps_history. Qed.

Hint Resolve keeps_analyze_goal_loop : keeps.

Lemma keeps_analyze_goal : preserves (observe action_history) (analyze_goal C).
Proof. unfold analyze_goal. keeps_history. Qed.

Lemma keeps_analyze_conversation g r :
  preserves (observe action_history) (analyze_conversation C g r).
Proof. unfold analyze_conversation. keeps_history. Qed.

Hint Resolve keeps_analyze_goal keeps_analyze_conversation : keeps.

Lemma keeps_handle_direct_reply :
  preserves (observe action_history) (handle_direct_reply C).
Proof. unfold handle_direct_reply, generate_candidate. keeps_history. Qed.

Lemma keeps_handle_fetch_knowledge :
  preserves (observe action_history) (handle_fetch_knowledge C).
Proof. unfold handle_fetch_knowledge. keeps_history. Qed.

Lemma keeps_handle_rethink_goal :
  preserves (observe action_history) (handle_rethink_goal C).
Proof. unfold handle_rethink_goal. keeps_history. Qed.

Lemma keeps_handle_judge_conversation :
  preserves (observe action_history) (handle_judge_conversation C).
Proof. unfold handle_judge_conversation. keeps_history. Qed.

Lemma keeps_handle_waiting s fuel :
  preserves (observe action_history) (handle_waiting C s fuel).
Proof. unfold handle_waiting. keeps_history. Qed.

(** What [record_action] does. *)
Lemma record_action_result (action : string) (reason : pyval) (w : World Env) :
  record_action C action reason w =
    (Ret tt,
     set_conv
       (set_action_history
          (last_n 10
             (action_history (conv w) ++
              [mkActionEntry action reason (now_strftime C (env w))]))
          (conv w)) w).
Proof.
  unfold record_action. destruct w as [c ws tr e]. destruct c.
  cbv [mbind M_bind gets update_self get_self modify mret M_ret].
  cbn -[Nat.ltb last_n].
  match goal with
  | |- context [(10 <? length ?l)%nat] =>
      destruct (Nat.ltb_spec 10 (length l)) as [Hlt | Hge]
  end; cbn -[last_n].
  - reflexivity.
  - unfold last_n. replace (length _ - 10)%nat with 0%nat by lia. reflexivity.
Qed.

Lemma length_last_n {A} (n : nat) (l : list A) : length (last_n n l) <= n.
Proof. unfold last_n. rewrite length_drop. lia. Qed.

(** C9.  After [_handle_action], however the action ends, the history
    holds at most 10 entries.  It is the previous history followed by the
    entry of this action, less its oldest entries when that makes more
    than 10: what is kept are the most recent entries, in their order and
    with the entry of this action last, and what is dropped are the
    oldest entries, no more of them than the bound asks for. *)
Theorem action_history_bounded (fuel : nat) (action : string) (reason : pyval)
    (w : World Env) :
  let w' := (_handle_action C fuel action reason w).2 in
  let entry := mkActionEntry action reason (now_strftime C (env w)) in
  let old := action_history (conv w) in
  let new := action_history (conv w') in
  length new <= 10 /\
  length new = Nat.min 10 (S (length old)) /\
  new = drop (S (length old) - 10) (old ++ [entry]) /\
  take (S (length old) - 10) (old ++ [entry]) ++ new = old ++ [entry] /\
  last new = Some entry.
Proof.
  intros w' entry old new.
  assert (H : new = drop (S (length old) - 10) (old ++ [entry])).
  { subst w' entry old new. unfold _handle_action.
    rewrite bind_unfold, record_action_result.
    match goal with
    | |- action_history (conv (?m ?w1).2) = _ =>
        assert (K : preserves (observe action_history) m)
    end.
    { repeat match goal with
             | |- preserves _ (if ?b then _ else _) => destruct b
             end;
        auto using keeps_handle_direct_reply, keeps_handle_fetch_knowledge,
          keeps_handle_rethink_goal, keeps_handle_judge_conversation,
          keeps_handle_waiting. }
    specialize (K (set_conv
       (set_action_history
          (last_n 10
             (action_history (conv w) ++
              [mkActionEntry action reason (now_strftime C (env w))]))
          (conv w)) w)).
    unfold observe in K. rewrite K. simpl.
    unfold last_n. rewrite length_app. cbn [length].
    replace (length (action_history (conv w)) + 1)%nat
      with (S (length (action_history (conv w)))) by lia.
    now destruct (conv w). }
  clearbody new. subst new.
  assert (Hle : (S (length old) - 10 <= length old)%nat) by lia.
  split; [| split; [| split; [| split]]].
  - rewrite length_drop, length_app. cbn [length]. lia.
  - rewrite length_drop, length_app. cbn [length]. lia.
  - reflexivity.
  - apply take_drop.
  - rewrite drop_app_le by exact Hle. apply last_snoc.
Qed.

End HistoryOfHandlers.

(** Keeping the last 10 after every append is keeping the last 10 of
    everything appended. *)
Lemma last_n_app_last_n {A} (n : nat) (l : list A) (x : A) :
  0 < n -> last_n n (last_n n l ++ [x]) = last_n n (l ++ [x]).
Proof.
  intros Hn. unfold last_n. rewrite !length_app, length_drop. cbn [length].
  destruct (Nat.le_gt_cases (length l) n) as [Hle | Hgt].
  - replace (length l - n)%nat with 0%nat by lia. rewrite drop_0.
    now replace (length l - 0)%nat with (length l) by lia.
  - replace (length l - (length l - n) + 1 - n)%nat with 1%nat by lia.
    rewrite drop_app_le by (rewrite length_drop; lia).
    rewrite drop_drop.
    replace (length l + 1 - n)%nat with (length l - n + 1)%nat by lia.
    now rewrite drop_app_le by lia.
Qed.

(** ** The send path *)

Ltac unfold_monad :=
  cbv [mbind M_bind mret M_ret gets modify get_self update_self lift raise
       emit log].

Section SendPath.

Context {Env : Type} (C : Collaborators Env).

Lemma call_eq {A} (g : Env -> result A * Env) (w : World Env) r e' :
  g (env w) = (r, e') -> call g w = (of_result r, set_env e' w).
Proof. intros H. unfold call. now rewrite H. Qed.

(** C5.  [_send_reply] with an empty reply, or with no prior message,
    returns after logging a warning: nothing is sent and the Conversation
    object is as before.  A message is handed to the sender only when
    the reply is non-empty and the observer has a prior message.  When
    the sender raises, [_send_reply] still returns normally, with the
    state set to ANALYZING and [should_continue] as it was. *)
Theorem send_reply_spec (w : World Env) :
  (generated_reply (conv w) = "" ->
   _send_reply C w =
     (Ret tt, set_trace (trace w ++ [Log WARNING "没有生成回复"]) w)) /\
  (forall e',
      generated_reply (conv w) <> "" ->
      get_message_history C (Some 1%nat) (env w) = (inr [], e') ->
      _send_reply C w =
        (Ret tt,
         set_trace (trace w ++ [Log WARNING "没有最近的消息可以回复"])
           (set_env e' w))) /\
  (forall content r,
      SendMessage content r ∈ trace (_send_reply C w).2 ->
      SendMessage content r ∈ trace w \/
      (generated_reply (conv w) <> "" /\
       exists m ms e',
         get_message_history C (Some 1%nat) (env w) = (inr (m :: ms), e'))) /\
  (forall e' m ms latest w1 ex w2,
      generated_reply (conv w) <> "" ->
      get_message_history C (Some 1%nat) (env w) = (inr (m :: ms), e') ->
      _convert_to_message C m (set_env e' w) = (Ret latest, w1) ->
      send_message C (chat_stream (conv w1)) (generated_reply (conv w1))
        (Some latest) w1 = (Raise ex, w2) ->
      exists w3,
        _send_reply C w = (Ret tt, w3) /\
        conv w3 = set_state ANALYZING (conv w) /\
        state (conv w3) = ANALYZING /\
        should_continue (conv w3) = should_continue (conv w)).
Proof.
  split; [| split; [| split]].
  - intros Hempty. unfold _send_reply. unfold_monad. cbn.
    rewrite Hempty. reflexivity.
  - intros e' Hne Hhist. apply String.eqb_neq in Hne.
    unfold _send_reply. unfold_monad. cbn. rewrite Hne.
    rewrite (call_eq _ _ _ _ Hhist). reflexivity.
  - intros content r Hin.
    destruct (String.eqb_spec (generated_reply (conv w)) "") as [Hempty | Hne].
    + left. revert Hin. unfold _send_reply. unfold_monad. cbn.
      apply String.eqb_eq in Hempty. rewrite Hempty. cbn.
      rewrite elem_of_app, list_elem_of_singleton. intros [H | H]; [exact H | discriminate].
    + destruct (get_message_history C (Some 1%nat) (env w)) as [[e | [| m ms]] e'] eqn:Hhist.
      * left. revert Hin. unfold _send_reply. unfold_monad. cbn.
        apply String.eqb_neq in Hne. rewrite Hne.
        rewrite (call_eq _ _ _ _ Hhist). cbn. tauto.
      * left. revert Hin. unfold _send_reply. unfold_monad. cbn.
        apply String.eqb_neq in Hne. rewrite Hne.
        rewrite (call_eq _ _ _ _ Hhist). cbn.
        rewrite elem_of_app, list_elem_of_singleton. intros [H | H]; [exact H | discriminate].
      * right. split; [exact Hne | eauto].
  - intros e' m ms latest w1 ex w2 Hne Hhist Hconv Hsend.
    apply String.eqb_neq in Hne.
    assert (Hc1 : conv w1 = conv w).
    { pose proof (keeps_convert_to_message C (fun c => c) m (set_env e' w)) as K.
      unfold observe in K. rewrite Hconv in K. exact K. }
    assert (Hc2 : conv w2 = conv w1).
    { pose proof (keeps_send_message C (fun c => c) (chat_stream (conv w1))
                    (generated_reply (conv w1)) (Some latest) w1) as K.
      unfold observe in K. rewrite Hsend in K. exact K. }
    eexists. split.
    + unfold _send_reply. unfold_monad. cbn. rewrite Hne.
      rewrite (call_eq _ _ _ _ Hhist). cbn. rewrite Hconv.
      unfold try_except. cbn. rewrite Hsend. cbn. reflexivity.
    + cbn. rewrite Hc2, Hc1. repeat split; now destruct (conv w).
Qed.

End SendPath.

(** At the fake world with no reply ready, and at the one where the
    transport refuses the connection. *)
Lemma send_reply_spec_witness :
  (_send_reply (Fake.collaborators Fake.no_json) Fake.world0).1 = Ret tt /\
  conv (_send_reply (Fake.collaborators Fake.no_json) Fake.world0).2 =
    conv Fake.world0 /\
  (_send_reply (Fake.collaborators Fake.no_json) Fake.world_send_fails).1 = Ret tt /\
  state (conv (_send_reply (Fake.collaborators Fake.no_json)
                 Fake.world_send_fails).2) = ANALYZING.
Proof.
  destruct (send_reply_spec (Fake.collaborators Fake.no_json) Fake.world0)
    as (H0 & _).
  destruct (send_reply_spec (Fake.collaborators Fake.no_json) Fake.world_send_fails)
    as (_ & _ & _ & H1).
  rewrite H0 by reflexivity.
  edestruct H1 as (w3 & Heq & _ & Hst & _).
  - discriminate.
  - reflexivity.
  - vm_compute. reflexivity.
  - vm_compute. reflexivity.
  - rewrite Heq. repeat split. exact Hst.
Defined.

(** ** The direct_reply branch *)

Section DirectReply.

Context {Env : Type} (C : Collaborators Env).

Lemma quiet_emit (e : event) :
  is_llm_call e = false -> preserves llm_calls (emit (Env := Env) e).
Proof.
  intros H w. unfold llm_calls. cbn. rewrite List.filter_app. cbn.
  rewrite H. apply app_nil_r.
Qed.

Lemma quiet_log (l : level) (m : string) : preserves llm_calls (log (Env := Env) l m).
Proof. apply quiet_emit. reflexivity. Qed.

Lemma quiet_call {A} (g : Env -> result A * Env) : preserves llm_calls (call g).
Proof. intros w. unfold call. destruct (g (env w)). reflexivity. Qed.

Lemma quiet_get_self {A} (g : Conversation -> A) :
  preserves llm_calls (get_self (Env := Env) g).
Proof. intros w. reflexivity. Qed.

Lemma quiet_update_self (g : Conversation -> Conversation) :
  preserves llm_calls (update_self (Env := Env) g).
Proof. intros w. reflexivity. Qed.

Hint Resolve quiet_log quiet_call quiet_get_self quiet_update_self : keeps.

Lemma quiet_do_trigger_update : preserves llm_calls (do_trigger_update C).
Proof. unfold do_trigger_update. preserves_tac. now apply quiet_emit. Qed.

Lemma quiet_convert_to_message m : preserves llm_calls (_convert_to_message C m).
Proof. unfold _convert_to_message. preserves_tac. Qed.

Lemma quiet_send_message stream content r :
  preserves llm_calls (send_message C stream content r).
Proof. unfold send_message. preserves_tac; now apply quiet_emit. Qed.

Hint Resolve quiet_do_trigger_update quiet_convert_to_message
  quiet_send_message : keeps.

(** The send path never calls the language model. *)
Lemma quiet_send_reply : preserves llm_calls (_send_reply C).
Proof. unfold _send_reply. preserves_tac. Qed.

(** C6.  Once the candidate reply is generated and stored, and the
    acceptability check has returned a verdict, the direct_reply branch
    is the send path run on that candidate: the verdict, whatever it is,
    plays no part, and the language model is not called again. *)
Theorem direct_reply_ignores_verdict (w w1 : World Env)
    (verdict : bool * string * bool) (e2 : Env) :
  generate_candidate C w = (Ret tt, w1) ->
  reply_checker_check C (generated_reply (conv w1)) (current_goal (conv w1)) 0
    (env w1) = (inr verdict, e2) ->
  handle_direct_reply C w = _send_reply C (set_env e2 w1) /\
  generated_reply (conv (set_env e2 w1)) = generated_reply (conv w1) /\
  llm_calls (handle_direct_reply C w).2 = llm_calls w1.
Proof.
  intros Hgen Hcheck.
  assert (E : handle_direct_reply C w = _send_reply C (set_env e2 w1)).
  { unfold handle_direct_reply.
    rewrite (bind_ret _ _ _ _ _ Hgen).
    unfold check_reply. unfold_monad. cbn.
    now rewrite (call_eq _ _ _ _ Hcheck). }
  split; [exact E | split; [reflexivity |]].
  rewrite E. apply (quiet_send_reply (set_env e2 w1)).
Qed.

End DirectReply.

(** The fake checker rejects the candidate and asks for a new plan; the
    candidate is sent all the same. *)
Lemma direct_reply_ignores_verdict_witness :
  SendMessage "ok" (Some (mkMessage (PyStr "m1") (mkChatStream "qq")
                            (PyFloat 990)
                            (mkUserInfo (PyStr "u1") (PyStr "u1"))
                            (PyStr "hello") (PyStr "")))
    ∈ trace (handle_direct_reply (Fake.collaborators Fake.no_json)
               Fake.world_rejecting).2.
Proof.
  edestruct (direct_reply_ignores_verdict (Fake.collaborators Fake.no_json)
               Fake.world_rejecting) as (E & _).
  - vm_compute. reflexivity.
  - vm_compute. reflexivity.
  - rewrite E. vm_compute. apply list_elem_of_In. right. right. left. reflexivity.
Defined.

(** ** Code that always comes to an end *)

Section Terminates.

Context {S : Type}.

Lemma terminates_ret {A} (a : A) : terminates (mret a : M S A).
Proof. intros s. discriminate. Qed.

Lemma terminates_bind {A B} (m : M S A) (k : A -> M S B) :
  terminates m -> (forall a, terminates (k a)) -> terminates (m ≫= k).
Proof.
  intros Hm Hk s. rewrite bind_unfold. specialize (Hm s).
  destruct (m s) as [[a | e |] s']; simpl in *;
    [apply Hk | discriminate | congruence].
Qed.

Lemma terminates_try {A} (m : M S A) (h : exn -> M S A) :
  terminates m -> (forall e, terminates (h e)) -> terminates (try_except m h).
Proof.
  intros Hm Hh s. unfold try_except. specialize (Hm s).
  destruct (m s) as [[a | e |] s']; simpl in *;
    [discriminate | apply Hh | congruence].
Qed.

Lemma terminates_lift {A} (o : outcome A) :
  o <> OutOfFuel -> terminates (lift o : M S A).
Proof. intros H s. exact H. Qed.

Lemma terminates_raise {A} (e : exn) : terminates (raise e : M S A).
Proof. intros s. discriminate. Qed.

Lemma terminates_gets {A} (g : S -> A) : terminates (gets g).
Proof. intros s. discriminate. Qed.

Lemma terminates_modify (g : S -> S) : terminates (modify g).
Proof. intros s. discriminate. Qed.

End Terminates.

Lemma getitem_ends d k : getitem d k <> OutOfFuel.
Proof. unfold getitem. destruct (dict_lookup d k); discriminate. Qed.

Lemma of_result_ends {A} (r : result A) : of_result r <> OutOfFuel.
Proof. destruct r; discriminate. Qed.

Lemma py_get_ends v k d : py_get v k d <> OutOfFuel.
Proof. destruct v; discriminate. Qed.

Lemma float_sub_ends q v : float_sub q v <> OutOfFuel.
Proof. unfold float_sub. destruct (py_num v); discriminate. Qed.

Lemma set_add_ends x s : set_add x s <> OutOfFuel.
Proof. unfold set_add. destruct (hashable x); discriminate. Qed.

Lemma as_str_ends v : as_str v <> OutOfFuel.
Proof. destruct v; discriminate. Qed.

Lemma outcome_bind_ends {A B} (o : outcome A) (k : A -> outcome B) :
  o <> OutOfFuel -> (forall a, k a <> OutOfFuel) -> (o ≫= k) <> OutOfFuel.
Proof. destruct o; simpl; auto; discriminate. Qed.

Create HintDb ends discriminated.

#[export] Hint Resolve getitem_ends of_result_ends py_get_ends float_sub_ends
  set_add_ends as_str_ends : ends.

Ltac terminates_step :=
  lazymatch goal with
  | |- terminates (mret _) => apply terminates_ret
  | |- terminates (mbind _ _) => apply terminates_bind; [| intros ?]
  | |- terminates (try_except _ _) => apply terminates_try; [| intros ?]
  | |- terminates (lift _) => apply terminates_lift; auto with ends
  | |- terminates (raise _) => apply terminates_raise
  | |- terminates (gets _) => apply terminates_gets
  | |- terminates (modify _) => apply terminates_modify
  | |- terminates (match ?x with _ => _ end) => destruct x
  | |- terminates (let '(_, _) := ?x in _) => destruct x
  end.

Ltac terminates_tac :=
  repeat first [ solve [auto with ends] | terminates_step ].

Section TerminatesWorld.

Context {Env : Type} (C : Collaborators Env).

Lemma terminates_emit (e : event) : terminates (emit (Env := Env) e).
Proof. intros w. discriminate. Qed.

Lemma terminates_log l m : terminates (log (Env := Env) l m).
Proof. intros w. discriminate. Qed.

Lemma terminates_call {A} (g : Env -> result A * Env) : terminates (call g).
Proof.
  intros w. unfold call. destruct (g (env w)) as [r e]. apply of_result_ends.
Qed.

Lemma terminates_get_self {A} (g : Conversation -> A) :
  terminates (get_self (Env := Env) g).
Proof. intros w. discriminate. Qed.

Lemma terminates_update_self g : terminates (update_self (Env := Env) g).
Proof. intros w. discriminate. Qed.

Lemma terminates_now : terminates (now C).
Proof. intros w. discriminate. Qed.

Lemma terminates_on_decision_info {A} (m : M DecisionInfo A) :
  terminates m -> terminates (on_decision_info (Env := Env) m).
Proof.
  intros H w. unfold on_decision_info. specialize (H (decision_info (conv w))).
  now destruct (m (decision_info (conv w))).
Qed.

Hint Resolve terminates_emit terminates_log terminates_call terminates_get_self
  terminates_update_self terminates_now : ends.

Lemma terminates_do_trigger_update : terminates (do_trigger_update C).
Proof. unfold do_trigger_update. terminates_tac. Qed.

Lemma terminates_llm rt p : terminates (llm C rt p).
Proof. unfold llm. terminates_tac. Qed.

Lemma terminates_update_from_message fd message :
  terminates (update_from_message fd message).
Proof. unfold update_from_message. terminates_tac. Qed.

Lemma terminates_update_cold_chat_status b t :
  terminates (update_cold_chat_status b t).
Proof. unfold update_cold_chat_status. terminates_tac. Qed.

Lemma format_history_ends ms : format_history C ms <> OutOfFuel.
Proof.
  induction ms as [| m ms IH]; simpl; [discriminate |].
  repeat (apply outcome_bind_ends; [auto with ends | intros ?]).
  discriminate.
Qed.

Lemma get_user_response_time_ends t d : get_user_response_time t d <> OutOfFuel.
Proof.
  unfold get_user_response_time. destruct (negb _); [discriminate |].
  apply outcome_bind_ends; [auto with ends | discriminate].
Qed.

Lemma get_bot_response_time_ends t d : get_bot_response_time t d <> OutOfFuel.
Proof.
  unfold get_bot_response_time. destruct (negb _); [discriminate |].
  apply outcome_bind_ends; [auto with ends | discriminate].
Qed.

End TerminatesWorld.

#[export] Hint Resolve terminates_emit terminates_log terminates_call
  terminates_get_self terminates_update_self terminates_now
  terminates_do_trigger_update terminates_llm format_history_ends
  get_user_response_time_ends get_bot_response_time_ends : ends.

(** ** The notification handler *)

Section NotificationHandler.

Context {Env : Type} (C : Collaborators Env).

Lemma set_decision_info_same (c : Conversation) :
  set_decision_info (decision_info c) c = c.
Proof. now destruct c. Qed.

Lemma try_except_returns {S} (m : M S unit) (h : exn -> M S unit) :
  terminates m -> (forall e s, (h e s).1 = Ret tt) ->
  forall s, (try_except m h s).1 = Ret tt.
Proof.
  intros Hm Hh s. unfold try_except. specialize (Hm s).
  destruct (m s) as [[[] | e |] s']; simpl in *;
    [reflexivity | apply Hh | congruence].
Qed.

Lemma handle_notification_returns (notification : option Notification)
    (w : World Env) :
  (handle_notification C notification w).1 = Ret tt.
Proof.
  unfold handle_notification. apply try_except_returns.
  - terminates_tac;
      try (apply terminates_on_decision_info;
           first [apply terminates_update_from_message
                 | apply terminates_update_cold_chat_status]).
  - reflexivity.
Qed.

(** What a failing [update_from_message] leaves behind: the message is
    not counted, and the fields assigned before the failure keep their
    new values. *)
Lemma update_from_message_failure (fd : pyval -> result UserInfo)
    (message : pydict) (d d' : DecisionInfo) (e : exn) :
  update_from_message fd message d = (Raise e, d') ->
  (new_messages_count d' = new_messages_count d /\
   unprocessed_messages d' = unprocessed_messages d /\
   active_users d' = active_users d /\
   last_bot_speak_time d' = last_bot_speak_time d /\
   is_cold_chat d' = is_cold_chat d /\
   cold_chat_duration d' = cold_chat_duration d /\
   bot_id d' = bot_id d) /\
  (dict_lookup message "time" = None -> d' = d) /\
  (forall t, dict_lookup message "time" = Some t ->
             last_message_time d' = t /\
             last_message_content d' =
               dict_get message "processed_plain_text" (PyStr "")).
Proof.
  destruct d as [lmt lmc lms nmc um icc ccd lbst lust au bid].
  unfold update_from_message, getitem. unfold_monad.
  destruct (dict_lookup message "time") as [t |]; cbn.
  2:{ intros [= _ <-]. split; [repeat split | split; [reflexivity | discriminate]]. }
  destruct (fd (dict_get message "user_info" (PyDict []))) as [ex | ui]; cbn.
  { intros [= _ <-].
    split; [repeat split | split; [discriminate | intros t' [= <-]; split; reflexivity]]. }
  destruct (py_eqb (user_id ui) (PyStr bid)); cbn; [discriminate |].
  destruct (set_add (user_id ui) au) as [au' | ex |]; cbn; try discriminate.
  intros [= _ <-].
  split; [repeat split | split; [discriminate | intros t' [= <-]; split; reflexivity]].
Qed.

(** C7 (as amended).  [handle_notification] always returns normally,
    whatever the notification and whatever the collaborators do, a
    failing update of the DecisionInfo included.  For a notification
    that is turned away before the update starts (see [rejected]: no
    notification, no data, data that is [None], new-message data that is
    not a dict or is a dict without ["time"]) it leaves the Conversation,
    its DecisionInfo included, and the outside world untouched and adds
    error entries to the log, at least one.  For a new-message dict on
    which the update raises, it leaves the outside world untouched, adds
    error entries to the log and nothing else (no refresh of the observer
    is requested), and the message is not counted: the counter, the
    unprocessed messages, the active users, the bot's speaking time, the
    cold-chat fields and the bot id are as before.  But the DecisionInfo
    is left as the update left it: when the dict has ["time"] and its
    content can be sliced for the log, [last_message_time] and
    [last_message_content] hold the values of the message. *)
Theorem handle_notification_spec (notification : option Notification)
    (w : World Env) :
  (handle_notification C notification w).1 = Ret tt /\
  (rejected notification ->
   conv (handle_notification C notification w).2 = conv w /\
   env (handle_notification C notification w).2 = env w /\
   exists logs,
     trace (handle_notification C notification w).2 = trace w ++ logs /\
     logs <> [] /\ Forall is_error_log logs) /\
  (forall message e d',
      notification = Some (mkNotification NEW_MESSAGE (Some (PyDict message))) ->
      update_from_message (UserInfo_from_dict C) message (decision_info (conv w))
        = (Raise e, d') ->
      let content := dict_get message "content" (PyStr "") in
      let w' := (handle_notification C notification w).2 in
      env w' = env w /\
      (exists logs,
          trace w' = trace w ++ logs /\ logs <> [] /\ Forall is_error_log logs) /\
      conv w' = (if truthy content && negb (sliceable content)
                 then conv w
                 else set_decision_info d' (conv w)) /\
      (new_messages_count d' = new_messages_count (decision_info (conv w)) /\
       unprocessed_messages d' = unprocessed_messages (decision_info (conv w)) /\
       active_users d' = active_users (decision_info (conv w)) /\
       last_bot_speak_time d' = last_bot_speak_time (decision_info (conv w)) /\
       is_cold_chat d' = is_cold_chat (decision_info (conv w)) /\
       cold_chat_duration d' = cold_chat_duration (decision_info (conv w)) /\
       bot_id d' = bot_id (decision_info (conv w))) /\
      (forall t, dict_lookup message "time" = Some t ->
                 last_message_time d' = t /\
                 last_message_content d' =
                   dict_get message "processed_plain_text" (PyStr ""))).
Proof.
  split; [apply handle_notification_returns |].
  assert (L1 : forall m, exists logs,
             trace w ++ [Log ERROR m] = trace w ++ logs /\
             logs <> [] /\ Forall is_error_log logs).
  { intros m. exists [Log ERROR m]. repeat split; [discriminate |].
    repeat constructor. now exists m. }
  split.
  - unfold rejected, handle_notification.
    destruct notification as [[ty data] |]; cbn [n_data n_type];
      [| intros _; cbn; auto].
    destruct data as [[| b | z | q | s | l | message] |];
      try (intros _; cbn; now auto);
      try (intros ->; cbn; now auto).
    intros [-> Htime].
    unfold try_except at 1. unfold_monad.
    destruct (truthy (dict_get message "content" (PyStr "")) &&
              negb (sliceable (dict_get message "content" (PyStr "")))).
    + cbn. repeat split.
      eexists [_; _; _]. rewrite <- !app_assoc. cbn. split; [reflexivity |].
      split; [discriminate |]. repeat constructor; eexists; reflexivity.
    + unfold try_except, on_decision_info, update_from_message, getitem.
      unfold_monad. rewrite Htime. cbn.
      rewrite set_decision_info_same. auto.
  - intros message e d' -> Hu content w'.
    destruct (update_from_message_failure _ _ _ _ _ Hu) as (Hsame & _ & Hnew).
    split; [| split; [| split; [| split]]]; try assumption; subst w' content;
      unfold handle_notification; cbn [n_data n_type];
      unfold try_except at 1; unfold_monad;
      destruct (truthy (dict_get message "content" (PyStr "")) &&
                negb (sliceable (dict_get message "content" (PyStr ""))));
      cbn; try reflexivity;
      try (eexists [_; _; _]; rewrite <- !app_assoc; cbn; split; [reflexivity |];
           split; [discriminate |]; repeat constructor; eexists; reflexivity);
      unfold try_except, on_decision_info; unfold_monad; rewrite Hu; cbn;
      auto.
Qed.

End NotificationHandler.

(** At the fake world.  The notification whose [data] is [None]: the
    DecisionInfo is as before.  The new-message dict whose [user_info] is
    not a dict, on which the update raises: the message is not
    counted. *)
Lemma handle_notification_spec_witness :
  decision_info
    (conv (handle_notification (Fake.collaborators Fake.no_json)
             (Some (mkNotification NEW_MESSAGE (Some PyNone))) Fake.world0).2) =
    decision_info (conv Fake.world0) /\
  new_messages_count
    (decision_info
       (conv (handle_notification (Fake.collaborators Fake.no_json)
                (Some (mkNotification NEW_MESSAGE
                         (Some (PyDict [("time", PyFloat 3);
                                        ("user_info", PyStr "x")]))))
                Fake.world0).2)) =
    new_messages_count (decision_info (conv Fake.world0)).
Proof.
  split.
  - destruct (handle_notification_spec (Fake.collaborators Fake.no_json)
                (Some (mkNotification NEW_MESSAGE (Some PyNone))) Fake.world0)
      as (_ & H & _).
    destruct H as (Hconv & _).
    + exact I.
    + now rewrite Hconv.
  - destruct (handle_notification_spec (Fake.collaborators Fake.no_json)
                (Some (mkNotification NEW_MESSAGE
                         (Some (PyDict [("time", PyFloat 3);
                                        ("user_info", PyStr "x")]))))
                Fake.world0)
      as (_ & _ & H).
    edestruct H as (_ & _ & Hconv & (Hcount & _) & _).
    + reflexivity.
    + reflexivity.
    + rewrite Hconv. exact Hcount.
Defined.

(** C7, as stated, fails for new-message data that is a dict with the
    entry ["time"] but not a well-formed message.  Here [user_info] is
    not a dict: [UserInfo.from_dict] refuses it and the update raises.
    The handler logs the failure and returns normally, but the
    assignments made before the failure stay: [last_message_time], which
    was [None], is now 3, and [last_message_content] has changed from
    [None] to the empty string. *)
Lemma failing_update_is_partial :
  let message := [("time", PyFloat 3); ("user_info", PyStr "x")] in
  let r := handle_notification (Fake.collaborators Fake.no_json)
             (Some (mkNotification NEW_MESSAGE (Some (PyDict message))))
             Fake.world0 in
  (exists e d,
      update_from_message (UserInfo_from_dict (Fake.collaborators Fake.no_json))
        message (decision_info (conv Fake.world0)) = (Raise e, d)) /\
  r.1 = Ret tt /\
  trace r.2 = trace Fake.world0 ++ [Log ERROR "更新决策信息失败"] /\
  last_message_time (decision_info (conv Fake.world0)) = PyNone /\
  last_message_time (decision_info (conv r.2)) = PyFloat 3 /\
  last_message_content (decision_info (conv Fake.world0)) = PyNone /\
  last_message_content (decision_info (conv r.2)) = PyStr "" /\
  decision_info (conv r.2) <> decision_info (conv Fake.world0).
Proof.
  repeat split; try discriminate. eexists _, _. reflexivity.
Qed.

(** ** The action planner *)

Lemma normalize_action_valid (v : pyval) : normalize_action v ∈ valid_actions.
Proof.
  unfold normalize_action. destruct v; try (vm_compute; set_solver).
  destruct (bool_decide (s ∈ valid_actions)) eqn:E.
  - now apply bool_decide_eq_true in E.
  - unfold valid_actions. set_solver.
Qed.

Section Planner.

Context {Env : Type} (C : Collaborators Env).

Lemma plan_decision_valid (answer : result string) :
  (plan_decision C answer).1 ∈ valid_actions.
Proof.
  unfold plan_decision, plan_fallback_error, plan_fallback_json.
  assert (Hd : "direct_reply" ∈ valid_actions) by (unfold valid_actions; set_solver).
  destruct answer as [e | content]; [exact Hd |].
  destruct (plan_items C content) as [e | [[] result]]; try exact Hd.
  destruct (dict_lookup result "action"), (dict_lookup result "reason");
    try exact Hd.
  apply normalize_action_valid.
Qed.

Lemma plan_decide_result (prompt : string) (w : World Env) :
  (plan_decide C prompt w).1 =
    Ret (plan_decision C
           (generate_response_async C "action_planning" prompt (env w)).1).
Proof.
  unfold plan_decide, try_except, llm, call, plan_decision. unfold_monad. cbn.
  destruct (generate_response_async C "action_planning" prompt (env w))
    as [[e | content] env']; cbn; [reflexivity |].
  fold (plan_items C content).
  destruct (plan_items C content) as [e | [[] result]]; cbn; try reflexivity.
  unfold getitem.
  destruct (dict_lookup result "action") as [action |]; cbn; [| reflexivity].
  destruct (dict_lookup result "reason") as [reason |]; cbn; [| reflexivity].
  unfold normalize_action.
  destruct action; cbn; try reflexivity.
  destruct (bool_decide (s ∈ valid_actions)); reflexivity.
Qed.

(** C10 (as amended).  [plan] builds its prompt before entering its
    [try] block, and an exception raised there (the observer failing, a
    history record without ["time"], a timestamp that is not a number)
    leaves [plan].  Once the prompt is built, [plan] returns: the action
    tag is one of the six known tags; a failing language-model call or a
    raising extractor gives [("direct_reply", "发生错误，选择直接回复")], an
    extraction without success gives [("direct_reply",
    "JSON解析失败，选择直接回复")], and a parsed action outside the six tags
    is replaced by "listening". *)
Theorem plan_spec (goal method reasoning : string) (history : list ActionEntry)
    (d : option DecisionInfo) (w : World Env) :
  (plan_prompt C goal method reasoning history d w).1 <> OutOfFuel /\
  (forall e w1,
      plan_prompt C goal method reasoning history d w = (Raise e, w1) ->
      plan C goal method reasoning history d w = (Raise e, w1)) /\
  (forall prompt w1,
      plan_prompt C goal method reasoning history d w = (Ret prompt, w1) ->
      let answer := (generate_response_async C "action_planning" prompt (env w1)).1 in
      let out := (plan C goal method reasoning history d w).1 in
      (exists action reason, out = Ret (action, reason) /\ action ∈ valid_actions) /\
      (forall e, answer = inl e -> out = Ret plan_fallback_error) /\
      (forall content e,
          answer = inr content -> plan_items C content = inl e ->
          out = Ret plan_fallback_error) /\
      (forall content result,
          answer = inr content -> plan_items C content = inr (false, result) ->
          out = Ret plan_fallback_json) /\
      (forall content result a reason,
          answer = inr content -> plan_items C content = inr (true, result) ->
          dict_lookup result "action" = Some (PyStr a) ->
          dict_lookup result "reason" = Some reason ->
          (a ∈ valid_actions -> out = Ret (a, reason)) /\
          (a ∉ valid_actions -> out = Ret ("listening", reason)))).
Proof.
  split; [| split].
  - revert w. change (terminates (plan_prompt C goal method reasoning history d)).
    unfold plan_prompt, decision_info_text. terminates_tac.
  - intros e w1 H. unfold plan. now rewrite (bind_raise _ _ _ _ _ H).
  - intros prompt w1 H answer out.
    assert (E : out = Ret (plan_decision C answer)).
    { subst out answer. unfold plan. rewrite (bind_ret _ _ _ _ _ H).
      apply plan_decide_result. }
    rewrite E. clearbody answer. clear E out.
    split; [| split; [| split; [| split]]].
    + eexists _, _. split.
      * rewrite (surjective_pairing (plan_decision C _)). reflexivity.
      * apply plan_decision_valid.
    + intros e ->. reflexivity.
    + intros content e -> Hi. cbn. now rewrite Hi.
    + intros content result -> Hi. cbn. now rewrite Hi.
    + intros content result a reason0 -> Hi Ha Hr. cbn. rewrite Hi, Ha, Hr. cbn.
      split; intros Hin.
      * now rewrite bool_decide_eq_true_2.
      * now rewrite bool_decide_eq_false_2.
Qed.

End Planner.

(** The fake language model answers with an action "dance": the planner
    settles on "listening". *)
Lemma plan_spec_witness :
  (plan (Fake.collaborators Fake.dance_json) "g" "m" "r" [] None Fake.world0).1 =
    Ret ("listening", PyStr "because").
Proof.
  destruct (plan_spec (Fake.collaborators Fake.dance_json) "g" "m" "r" [] None
              Fake.world0) as (_ & _ & H).
  edestruct H as (_ & _ & _ & _ & Hparsed).
  - vm_compute. reflexivity.
  - edestruct Hparsed as [_ Hout].
    + reflexivity.
    + reflexivity.
    + reflexivity.
    + reflexivity.
    + apply Hout.
      exact (bool_decide_eq_false_1 ("dance" ∈ valid_actions) eq_refl).
Defined.

(** C10, as stated, fails: an exception raised while the prompt is built
    leaves [plan].  Here the observer hands out a record without
    ["time"], then a record whose time stamp is out of the range of
    [datetime], and then the observer itself fails. *)
Lemma plan_raises_counterexample :
  (plan (Fake.collaborators Fake.dance_json) "g" "m" "r" [] None
     Fake.world_untimed_history).1 = Raise (KeyError "time") /\
  (plan (Fake.collaborators Fake.dance_json) "g" "m" "r" [] None
     Fake.world_nanosecond_history).1 = Raise (ValueError "year is out of range") /\
  (plan (Fake.collaborators Fake.dance_json) "g" "m" "r" [] None
     Fake.world_observer_fails).1 = Raise (ExternalError "database is locked").
Proof. repeat split; reflexivity. Qed.

(** ** The Waiter *)

Section Waiter.

Context {Env : Type} (C : Collaborators Env).

Lemma elapsed_test (t t0 : Q) :
  negb (Qle_bool (t - t0) 300) = true <-> (300 < t - t0)%Q.
Proof.
  rewrite negb_true_iff. split.
  - intros H. apply Qnot_le_lt. intros Hle. apply Qle_bool_iff in Hle. congruence.
  - intros H. destruct (Qle_bool _ _) eqn:E; [| reflexivity].
    apply Qle_bool_iff in E. exfalso. exact (Qlt_not_le _ _ H E).
Qed.

Lemma wait_loop_new_message (fuel : nat) (t0 : Q) (w : World Env) (e' : Env) :
  new_message_after C t0 (env w) = (inr true, e') ->
  wait_loop C (S fuel) t0 w = (Ret false, set_env e' w).
Proof.
  intros H. cbn [wait_loop]. rewrite bind_unfold, (call_eq _ _ _ _ H). reflexivity.
Qed.

Lemma wait_loop_timeout (fuel : nat) (t0 : Q) (w : World Env) (e' : Env) :
  new_message_after C t0 (env w) = (inr false, e') ->
  (300 < time_time C e' - t0)%Q ->
  wait_loop C (S fuel) t0 w = (Ret true, set_env e' w).
Proof.
  intros H Ht. cbn [wait_loop]. rewrite bind_unfold, (call_eq _ _ _ _ H).
  cbn. apply elapsed_test in Ht. unfold now. unfold_monad. cbn.
  now rewrite Ht.
Qed.

Lemma wait_loop_idle (fuel : nat) (t0 : Q) (w : World Env) (e' : Env) :
  new_message_after C t0 (env w) = (inr false, e') ->
  (time_time C e' - t0 <= 300)%Q ->
  wait_loop C (S fuel) t0 w = wait_loop C fuel t0 (after_idle_poll C e' w).
Proof.
  intros H Ht. cbn [wait_loop]. rewrite bind_unfold, (call_eq _ _ _ _ H).
  cbn. apply Qle_bool_iff in Ht. unfold now. unfold_monad. cbn.
  rewrite Ht. reflexivity.
Qed.

Lemma wait_loop_raise (fuel : nat) (t0 : Q) (w : World Env) (e' : Env) (ex : exn) :
  new_message_after C t0 (env w) = (inl ex, e') ->
  wait_loop C (S fuel) t0 w = (Raise ex, set_env e' w).
Proof.
  intros H. cbn [wait_loop]. rewrite bind_unfold, (call_eq _ _ _ _ H). reflexivity.
Qed.

(** The four ways a round of the loop can go. *)
Lemma wait_loop_cases (t0 : Q) (w : World Env) :
  (exists e', new_message_after C t0 (env w) = (inr true, e')) \/
  (exists e', new_message_after C t0 (env w) = (inr false, e') /\
              (300 < time_time C e' - t0)%Q) \/
  (exists e', new_message_after C t0 (env w) = (inr false, e') /\
              (time_time C e' - t0 <= 300)%Q) \/
  (exists ex e', new_message_after C t0 (env w) = (inl ex, e')).
Proof.
  destruct (new_message_after C t0 (env w)) as [[ex | []] e'] eqn:E; eauto 6.
  destruct (Qlt_le_dec 300 (time_time C e' - t0)); eauto 8.
Qed.

(** A return of the loop comes after some idle rounds and one last poll:
    [false] when that poll reports a new message, [true] when it reports
    none and more than 300 have elapsed. *)
Lemma wait_loop_returns (fuel : nat) (t0 : Q) (w w' : World Env) (r : bool) :
  wait_loop C fuel t0 w = (Ret r, w') ->
  exists k wk e',
    nsteps (idle_poll C t0) k w wk /\
    w' = set_env e' wk /\
    ((r = false /\ new_message_after C t0 (env wk) = (inr true, e')) \/
     (r = true /\ new_message_after C t0 (env wk) = (inr false, e') /\
      (300 < time_time C e' - t0)%Q)).
Proof.
  revert w. induction fuel as [| fuel IH]; intros w H; [discriminate |].
  destruct (wait_loop_cases t0 w)
    as [(e' & E) | [(e' & E & Ht) | [(e' & E & Ht) | (ex & e' & E)]]].
  - rewrite (wait_loop_new_message _ _ _ _ E) in H. injection H as <- <-.
    exists 0%nat, w, e'. split; [constructor | auto].
  - rewrite (wait_loop_timeout _ _ _ _ E Ht) in H. injection H as <- <-.
    exists 0%nat, w, e'. split; [constructor | auto].
  - rewrite (wait_loop_idle _ _ _ _ E Ht) in H.
    destruct (IH _ H) as (k & wk & e2 & Hsteps & Hw & Hr).
    exists (S k), wk, e2. split; [| auto].
    eapply nsteps_l; [| exact Hsteps]. now constructor.
  - rewrite (wait_loop_raise _ _ _ _ _ E) in H. discriminate.
Qed.

Lemma wait_loop_keeps_start (fuel : nat) (t0 : Q) (w : World Env) :
  waiting_start_time (wait_loop C fuel t0 w).2 = waiting_start_time w.
Proof.
  revert w. induction fuel as [| fuel IH]; intros w; [reflexivity |].
  destruct (wait_loop_cases t0 w)
    as [(e' & E) | [(e' & E & Ht) | [(e' & E & Ht) | (ex & e' & E)]]].
  - now rewrite (wait_loop_new_message _ _ _ _ E).
  - now rewrite (wait_loop_timeout _ _ _ _ E Ht).
  - rewrite (wait_loop_idle _ _ _ _ E Ht), IH. reflexivity.
  - now rewrite (wait_loop_raise _ _ _ _ _ E).
Qed.

Lemma wait_loop_enough_fuel (n : nat) (t0 : Q) (w : World Env) :
  sleep_advances_clock C -> observer_keeps_clock C ->
  (301 - inject_Z (Z.of_nat n) <= time_time C (env w) - t0)%Q ->
  (wait_loop C (S n) t0 w).1 <> OutOfFuel.
Proof.
  intros Hsleep Hobs. revert w. induction n as [| n IH]; intros w Hn;
    destruct (wait_loop_cases t0 w)
      as [(e' & E) | [(e' & E & Ht) | [(e' & E & Ht) | (ex & e' & E)]]];
    try (rewrite (wait_loop_new_message _ _ _ _ E); discriminate);
    try (rewrite (wait_loop_timeout _ _ _ _ E Ht); discriminate);
    try (rewrite (wait_loop_raise _ _ _ _ _ E); discriminate);
    pose proof (Hobs t0 (env w)) as Hk; rewrite E in Hk; cbn in Hk.
  - exfalso. change (inject_Z (Z.of_nat 0)) with 0%Q in Hn. lra.
  - rewrite (wait_loop_idle _ _ _ _ E Ht). apply IH.
    unfold after_idle_poll.
    change (env (sleep C 1 (set_env e' w)).2) with (asyncio_sleep C 1 e').
    pose proof (Hsleep 1%Q e') as Hs.
    rewrite Nat2Z.inj_succ, <- Z.add_1_r, inject_Z_plus in Hn.
    change (inject_Z 1) with 1%Q in Hn. lra.
Qed.

Lemma wait_loop_after_idle_polls (fuel k : nat) (t0 : Q) (w wk : World Env) :
  nsteps (idle_poll C t0) k w wk ->
  wait_loop C (k + fuel) t0 w = wait_loop C fuel t0 wk.
Proof.
  induction 1 as [| k w w1 wk Hstep Hsteps IH]; [reflexivity |].
  destruct Hstep as [w e' E Ht]. cbn [Nat.add].
  rewrite (wait_loop_idle _ _ _ _ E Ht). exact IH.
Qed.

(** C3.  [wait] records the reading of the clock at its start in
    [chat_observer.waiting_start_time] and passes it to every poll of the
    observer.  Between two polls it sleeps for 1.  It returns [false] at
    the first poll at which the observer reports a new message after the
    start, and [true] at the first poll at which the observer reports
    none and more than 300 have elapsed since the start; it returns in no
    other way.  With a clock that sleeping moves on and an observer that
    answers, it does return, within 302 polls. *)
Theorem wait_spec (w : World Env) :
  let t0 := time_time C (env w) in
  let w0 := set_waiting_start_time (Some t0) w in
  (forall fuel, waiting_start_time (wait C fuel w).2 = Some t0) /\
  (forall fuel k wk e',
      nsteps (idle_poll C t0) k w0 wk ->
      (k < fuel)%nat ->
      (new_message_after C t0 (env wk) = (inr true, e') ->
       wait C fuel w = (Ret false, set_env e' wk)) /\
      (new_message_after C t0 (env wk) = (inr false, e') ->
       (300 < time_time C e' - t0)%Q ->
       wait C fuel w = (Ret true, set_env e' wk))) /\
  (forall fuel r w',
      wait C fuel w = (Ret r, w') ->
      exists k wk e',
        nsteps (idle_poll C t0) k w0 wk /\
        w' = set_env e' wk /\
        ((r = false /\ new_message_after C t0 (env wk) = (inr true, e')) \/
         (r = true /\ new_message_after C t0 (env wk) = (inr false, e') /\
          (300 < time_time C e' - t0)%Q))) /\
  (sleep_advances_clock C -> observer_keeps_clock C -> observer_answers C ->
   exists r w', wait C 302 w = (Ret r, w')).
Proof.
  intros t0 w0.
  assert (Hwait : forall fuel, wait C fuel w = wait_loop C fuel t0 w0) by reflexivity.
  split; [| split; [| split]].
  - intros fuel. rewrite Hwait, wait_loop_keeps_start. reflexivity.
  - intros fuel k wk e' Hsteps Hk. rewrite Hwait.
    replace fuel with (k + S (fuel - k - 1))%nat by lia.
    rewrite (wait_loop_after_idle_polls (S (fuel - k - 1)) _ _ _ _ Hsteps). split.
    + apply wait_loop_new_message.
    + apply wait_loop_timeout.
  - intros fuel r w' H. rewrite Hwait in H.
    exact (wait_loop_returns _ _ _ _ _ H).
  - intros Hsleep Hobs Hans. rewrite Hwait.
    assert (Hend : (wait_loop C 302 t0 w0).1 <> OutOfFuel).
    { apply wait_loop_enough_fuel; try assumption. subst t0 w0.
      change (inject_Z (Z.of_nat 301)) with 301%Q. cbn [env set_waiting_start_time].
      lra. }
    assert (Hnoraise : forall fuel w1 ex, (wait_loop C fuel t0 w1).1 <> Raise ex).
    { intros fuel. induction fuel as [| fuel IH]; intros w1 ex; [discriminate |].
      destruct (wait_loop_cases t0 w1)
        as [(e' & E) | [(e' & E & Ht) | [(e' & E & Ht) | (ex' & e' & E)]]].
      - rewrite (wait_loop_new_message _ _ _ _ E). discriminate.
      - rewrite (wait_loop_timeout _ _ _ _ E Ht). discriminate.
      - rewrite (wait_loop_idle _ _ _ _ E Ht). apply IH.
      - destruct (Hans t0 (env w1)) as [b Hb]. rewrite E in Hb. discriminate. }
    specialize (Hnoraise 302%nat w0).
    destruct (wait_loop C 302 t0 w0) as [[r | ex |] w'] eqn:E; cbn in *.
    + eauto.
    + exfalso. now apply (Hnoraise ex).
    + congruence.
Qed.

End Waiter.

Lemma fake_sleep_advances_clock json : sleep_advances_clock (Fake.collaborators json).
Proof.
  intros s e. cbn. unfold Fake.tick. cbn. rewrite Qred_correct. apply Qle_refl.
Qed.

Lemma fake_observer_keeps_clock json : observer_keeps_clock (Fake.collaborators json).
Proof. intros t e. cbn. apply Qle_refl. Qed.

Lemma fake_observer_answers json : observer_answers (Fake.collaborators json).
Proof. intros t e. cbn. eauto. Qed.

(** With the fake clock and a silent observer the Waiter returns. *)
Lemma wait_spec_witness :
  exists r w', wait (Fake.collaborators Fake.no_json) 302 Fake.world0 = (Ret r, w').
Proof.
  destruct (wait_spec (Fake.collaborators Fake.no_json) Fake.world0)
    as (_ & _ & _ & H).
  apply H.
  - apply fake_sleep_advances_clock.
  - apply fake_observer_keeps_clock.
  - apply fake_observer_answers.
Defined.

(** The fake clock starts at 1000.  A silent observer: time-out at the
    302nd poll, at 1301.  A message at 1002.5: [false] at the poll at
    1003, after three sleeps. *)
Example wait_runs :
  (wait (Fake.collaborators Fake.no_json) 302 Fake.world0).1 = Ret true /\
  Fake.clock (env (wait (Fake.collaborators Fake.no_json) 302 Fake.world0).2)
    = 1301%Q /\
  (wait (Fake.collaborators Fake.no_json) 302 Fake.world_message_soon).1
    = Ret false /\
  trace (wait (Fake.collaborators Fake.no_json) 302 Fake.world_message_soon).2
    = [Sleep 1; Sleep 1; Sleep 1].
Proof. repeat split; vm_compute; reflexivity. Qed.

(** ** The judge_conversation branch *)

Lemma dict_lookup_set_eq d k v : dict_lookup (dict_set d k v) k = Some v.
Proof.
  induction d as [| [k' v'] d IH]; cbn.
  - now rewrite String.eqb_refl.
  - destruct (String.eqb_spec k' k); cbn.
    + now rewrite String.eqb_refl.
    + destruct (String.eqb_spec k' k); [contradiction | exact IH].
Qed.

Lemma dict_lookup_set_ne d k k' v : k' <> k -> dict_lookup (dict_set d k v) k' = dict_lookup d k'.
Proof.
  intros Hne. induction d as [| [k0 v0] d IH]; cbn.
  - destruct (String.eqb_spec k k'); [congruence | reflexivity].
  - destruct (String.eqb_spec k0 k); cbn.
    + subst. destruct (String.eqb_spec k k'); [congruence | reflexivity].
    + now rewrite IH.
Qed.

Section Judge.

Context {Env : Type} (C : Collaborators Env).

Lemma analyze_conversation_achieved (goal reasoning : string) (w : World Env)
    msgs e1 text content e2 result a st r :
  get_message_history C None (env w) = (inr msgs, e1) ->
  format_history C msgs = Ret text ->
  generate_response_async C "conversation_goal" (judge_prompt C goal reasoning text) e1
    = (inr content, e2) ->
  judge_items C content = inr (true, result) ->
  dict_lookup result "goal_achieved" = Some a -> truthy a = true ->
  dict_lookup result "stop_conversation" = Some st -> truthy st = false ->
  dict_lookup result "reason" = Some r ->
  exists st' w',
    analyze_conversation C goal reasoning w = (Ret (a, st', r), w') /\
    truthy st' = false /\
    conv w' = set_goals (without_goal goal (goals (conv w))) (conv w) /\
    trace w' = trace w ++ [LLMCall "conversation_goal" (judge_prompt C goal reasoning text)].
Proof.
  intros Hh Hf Hl Hj Ha Hat Hs Hst Hr.
  unfold analyze_conversation.
  rewrite bind_unfold, (call_eq _ _ _ _ Hh). cbn [of_result].
  rewrite bind_unfold. unfold lift at 1. rewrite Hf.
  fold (judge_prompt C goal reasoning text).
  unfold try_except, llm. unfold_monad. cbn [trace set_env set_trace env conv waiting_start_time].
  erewrite call_eq by exact Hl.
  cbn. 
  fold (judge_items C content). rewrite Hj. cbn.
  unfold getitem. rewrite Ha. cbn. rewrite Hat. rewrite Hs. cbn. rewrite Hst. cbn.
  unfold without_goal.
  assert (G : forall x c, goals (set_goals x c) = x) by (intros x c; now destruct c).
  destruct (first_equal goal (goals (conv w)) 0) as [i |] eqn:Ef; cbn.
  - rewrite G.
    destruct (delete i (goals (conv w))) as [| g gs'] eqn:Ed.
    + rewrite Ha, Hs, Hr. cbn. eexists _, _. split; [reflexivity |].
      repeat split; try reflexivity; exact Hst.
    + rewrite (dict_lookup_set_ne result "stop_conversation" "goal_achieved")
        by discriminate.
      rewrite (dict_lookup_set_ne result "stop_conversation" "reason")
        by discriminate.
      rewrite dict_lookup_set_eq, Ha, Hr. cbn.
      eexists _, _. split; [reflexivity |].
      repeat split; reflexivity.
  - rewrite Ha, Hs, Hr. cbn. eexists _, _. split; [reflexivity |].
    repeat split; [exact Hst |]. cbn. now destruct (conv w).
Qed.

(** What the judge_conversation branch does with a judgement "achieved,
    do not stop". *)
Theorem judge_conversation_achieved (w : World Env)
    msgs e1 text content e2 result a st r :
  let goal := current_goal (conv w) in
  let reasoning := goal_reasoning (conv w) in
  get_message_history C None (env w) = (inr msgs, e1) ->
  format_history C msgs = Ret text ->
  generate_response_async C "conversation_goal" (judge_prompt C goal reasoning text) e1
    = (inr content, e2) ->
  judge_items C content = inr (true, result) ->
  dict_lookup result "goal_achieved" = Some a -> truthy a = true ->
  dict_lookup result "stop_conversation" = Some st -> truthy st = false ->
  dict_lookup result "reason" = Some r ->
  let remaining := without_goal goal (goals (conv w)) in
  let w' := (handle_judge_conversation C w).2 in
  (handle_judge_conversation C w).1 = Ret tt /\
  goals (conv w') = remaining /\
  current_triple (conv w') =
    match get_alternative_goals remaining with
    | g :: _ => g
    | [] => current_triple (conv w)
    end /\
  state (conv w') = JUDGING /\
  should_continue (conv w') = should_continue (conv w) /\
  trace w' = trace w ++ [LLMCall "conversation_goal" (judge_prompt C goal reasoning text)].
Proof.
  intros goal reasoning Hh Hf Hl Hj Ha Hat Hs Hst Hr remaining w'.
  assert (E : exists st' w1,
             analyze_conversation C goal reasoning (set_conv (set_state JUDGING (conv w)) w)
               = (Ret (a, st', r), w1) /\
             truthy st' = false /\
             conv w1 = set_goals remaining (set_state JUDGING (conv w)) /\
             trace w1 = trace w ++ [LLMCall "conversation_goal" (judge_prompt C goal reasoning text)]).
  { destruct (analyze_conversation_achieved goal reasoning
                (set_conv (set_state JUDGING (conv w)) w)
                msgs e1 text content e2 result a st r) as (st' & w1 & H1 & H2 & H3 & H4);
      try assumption.
    exists st', w1. repeat split; try assumption.
    rewrite H3. subst remaining. cbn. now destruct (conv w). }
  destruct E as (st' & w1 & Han & Hst' & Hconv & Htr).
  subst w'. unfold handle_judge_conversation.
  unfold_monad. cbn [conv set_conv].
  assert (Hg : current_goal (set_state JUDGING (conv w)) = goal) by now destruct (conv w).
  assert (Hre : goal_reasoning (set_state JUDGING (conv w)) = reasoning) by now destruct (conv w).
  rewrite Hg, Hre, Han. cbn [conv set_conv].
  assert (J : goal_achieved (set_judgement (a, st', r) (conv w1)) = a) by now destruct (conv w1).
  assert (J' : stop_conversation (set_judgement (a, st', r) (conv w1)) = st') by now destruct (conv w1).
  assert (Jg : goals (set_judgement (a, st', r) (conv w1)) = remaining).
  { rewrite Hconv. now destruct (conv w). }
  rewrite J, J', Hat, Hst'. cbn [andb negb conv set_conv]. rewrite Jg.
  destruct (get_alternative_goals remaining) as [| g alt] eqn:Ealt; cbn.
  - rewrite J', Hst'. cbn. rewrite Hconv. rewrite Htr.
    repeat split; now destruct (conv w).
  - rewrite Hconv, Htr. destruct g as [[g1 g2] g3].
    repeat split; now destruct (conv w).
Qed.
End Judge.

(** C4.  The code at the input of the spec's scenario: the goals are A
    (active) and B, and the judgement is "achieved, do not stop".  The
    judged goal A is removed from the list and the stop path is not
    taken, but the active goal is not switched to B: it stays A, since
    [get_alternative_goals] skips the first of the goals that remain. *)
Theorem judge_keeps_achieved_goal :
  let r := _handle_action (Fake.collaborators Fake.achieved_json) 0
             "judge_conversation" (PyStr "check") Fake.world0 in
  goals (conv Fake.world0) = [("A", "m", "ra"); ("B", "m", "rb")] /\
  current_goal (conv Fake.world0) = "A" /\
  r.1 = Ret tt /\
  goal_achieved (conv r.2) = PyBool true /\
  stop_conversation (conv r.2) = PyBool false /\
  goals (conv r.2) = [("B", "m", "rb")] /\
  get_alternative_goals (goals (conv r.2)) = [] /\
  current_goal (conv r.2) = "A" /\
  should_continue (conv r.2) = true /\
  state (conv r.2) = JUDGING.
Proof. repeat split. Qed.

(** With three goals A (active), B and C, the branch switches to C: B,
    the first of the goals that remain, is passed over. *)
Example judge_skips_next_goal :
  let r := _handle_action (Fake.collaborators Fake.achieved_json) 0
             "judge_conversation" (PyStr "check") Fake.world_three_goals in
  goals (conv r.2) = [("B", "m", "rb"); ("C", "m", "rc")] /\
  current_goal (conv r.2) = "C".
Proof. repeat split. Qed.

(** ** The instance registry *)

Module RegistryFacts.

Import Registry.


Lemma launched_app (k : string) (s : state) (x : string * nat * task_status) ts :
  tasks s = ts ++ [x] ->
  launched k s =
    omap (fun x : string * nat * task_status =>
            if String.eqb x.1.1 k then Some x.1.2 else None) ts ++
    (if String.eqb x.1.1 k then [x.1.2] else []).
Proof.
  intros H. unfold launched. rewrite H, omap_app. cbn.
  destruct (String.eqb x.1.1 k); reflexivity.
Qed.




Lemma lookup_set_call (cs : list (string * pc)) (c c' : nat) (x y : string * pc) :
  <[c := x]> cs !! c' = Some y ->
  (c' = c /\ y = x) \/ cs !! c' = Some y.
Proof.
  intros H. destruct (decide (c' = c)) as [-> | Hne].
  - destruct (decide (c < length cs)%nat).
    + rewrite list_lookup_insert_eq in H by assumption. injection H as <-. auto.
    + rewrite list_insert_ge in H by lia. auto.
  - rewrite list_lookup_insert_ne in H by congruence. auto.
Qed.




Lemma release_locked (s : state) :
  locked s = false -> release (set_locked true s) = s.
Proof. intros H. destruct s. cbn in *. now subst. Qed.







End RegistryFacts.

(** * Further properties

    Properties of the code that the statements above leave out. *)

(** ** The similarity of goals and the goal list *)

Lemma jaccard_range (o t : nat) :
  o <= t ->
  (0 <= (if (0 <? t)%nat then inject_Z (Z.of_nat o) / inject_Z (Z.of_nat t) else 0) <= 1)%Q.
Proof.
  intros H. destruct t as [| t]; cbn [Nat.ltb Nat.leb].
  - split; [apply Qle_refl | discriminate].
  - split.
    + apply Qle_shift_div_l.
      * change 0%Q with (inject_Z 0). rewrite <- Zlt_Qlt. lia.
      * rewrite Qmult_0_l. change 0%Q with (inject_Z 0). rewrite <- Zle_Qle. lia.
    + apply Qle_shift_div_r.
      * change 0%Q with (inject_Z 0). rewrite <- Zlt_Qlt. lia.
      * rewrite Qmult_1_l. rewrite <- Zle_Qle. lia.
Qed.

Lemma overlap_le_total (a b : gset N) : size (a ∩ b) <= size (a ∪ b).
Proof.
  apply subseteq_size. intros x Hx. apply elem_of_intersection in Hx.
  apply elem_of_union. tauto.
Qed.

(** X1.  The similarity of two goals does not depend on their order, lies
    between 0 and 1, and so the test "more similar than 0.7" is
    symmetric as well. *)
Theorem similarity_symmetric_bounded (a b : string) :
  _calculate_similarity a b = _calculate_similarity b a /\
  (0 <= _calculate_similarity a b <= 1)%Q /\
  similar a b = similar b a.
Proof.
  assert (E : _calculate_similarity a b = _calculate_similarity b a).
  { unfold _calculate_similarity.
    assert (Hi : char_set a ∩ char_set b = char_set b ∩ char_set a)
      by apply intersection_comm_L.
    assert (Hu : char_set a ∪ char_set b = char_set b ∪ char_set a)
      by apply union_comm_L.
    now rewrite Hi, Hu. }
  split; [exact E | split].
  - unfold _calculate_similarity. apply jaccard_range, overlap_le_total.
  - unfold similar. now rewrite E.
Qed.

Lemma similarity_self (a : string) :
  char_set a <> ∅ -> (_calculate_similarity a a == 1)%Q.
Proof.
  intros H. unfold _calculate_similarity.
  assert (Hi : char_set a ∩ char_set a = char_set a) by apply intersection_idemp_L.
  assert (Hu : char_set a ∪ char_set a = char_set a) by apply union_idemp_L.
  rewrite Hi, Hu.
  assert (Hs : size (char_set a) <> 0%nat).
  { intros E. apply size_empty_iff in E. apply H. now apply leibniz_equiv. }
  destruct (size (char_set a)) as [| n]; [congruence |].
  cbn [Nat.ltb Nat.leb]. apply Qmult_inv_r.
  change 0%Q with (inject_Z 0). rewrite inject_Z_injective. lia.
Qed.

Lemma similar_self (a : string) : char_set a <> ∅ -> similar a a = true.
Proof.
  intros H. apply similar_true. rewrite (similarity_self a H). reflexivity.
Qed.

Lemma first_similar_exists (new_goal : string) (gs : list Goal) (k : nat) (g : Goal) :
  g ∈ gs -> similar new_goal (goal_text g) = true ->
  exists i, first_similar new_goal gs k = Some i.
Proof.
  revert k. induction gs as [| x gs IH]; intros k Hin Hs.
  - inversion Hin.
  - cbn. destruct (similar new_goal (goal_text x)) eqn:E; [eauto |].
    apply IH; [| exact Hs].
    apply elem_of_cons in Hin as [-> | Hin]; [congruence | exact Hin].
Qed.

(** X2.  When the goal list already holds a goal with the text of the new
    goal, and that text has at least one character, [_update_goals]
    does not make the list longer: the new triple replaces one entry and
    stands at the front. *)
Theorem update_goals_same_text (new_goal method reasoning : string)
    (gs : list Goal) (g : Goal) :
  g ∈ gs -> goal_text g = new_goal -> char_set new_goal <> ∅ ->
  length (_update_goals new_goal method reasoning gs) = length gs /\
  exists i, (i < length gs)%nat /\
    _update_goals new_goal method reasoning gs =
      (new_goal, method, reasoning) :: delete i gs.
Proof.
  intros Hin Ht Hne.
  destruct (first_similar_exists new_goal gs 0 g Hin) as [i Hi].
  { rewrite Ht. now apply similar_self. }
  rewrite (update_goals_merge _ _ _ _ _ Hi).
  apply first_similar_bound in Hi.
  split.
  - cbn [length]. apply length_delete_lt. lia.
  - exists i. split; [lia | reflexivity].
Qed.

(** The list holds "learn Rust" already: it keeps its two entries. *)
Lemma update_goals_same_text_witness :
  length (_update_goals "learn Rust" "m" "r"
            [("cook", "m0", "r0"); ("learn Rust", "m1", "r1")]) = 2%nat.
Proof.
  apply (update_goals_same_text "learn Rust" "m" "r"
           [("cook", "m0", "r0"); ("learn Rust", "m1", "r1")]
           ("learn Rust", "m1", "r1")).
  - apply elem_of_cons. right. apply elem_of_cons. now left.
  - reflexivity.
  - vm_compute. discriminate.
Defined.

Lemma removelast_sublist {A} (l : list A) : removelast l `sublist_of` l.
Proof.
  induction l as [| x [| y l] IH]; cbn.
  - constructor.
  - apply sublist_nil_l.
  - apply sublist_skip. exact IH.
Qed.

(** X3.  Whatever the goal list, after [_update_goals] the new triple is
    its first entry; the entries behind it are goals of the old list in
    their old order, and at most one goal of the old list is gone. *)
Theorem update_goals_front (new_goal method reasoning : string) (gs : list Goal) :
  exists rest,
    _update_goals new_goal method reasoning gs =
      (new_goal, method, reasoning) :: rest /\
    rest `sublist_of` gs /\
    (length gs <= S (length rest))%nat.
Proof.
  destruct (first_similar new_goal gs 0) as [i |] eqn:E.
  - rewrite (update_goals_merge _ _ _ _ _ E). eexists. split; [reflexivity |].
    apply first_similar_bound in E. split.
    + apply sublist_delete.
    + rewrite length_delete_lt; lia.
  - rewrite (update_goals_insert _ _ _ _ E).
    destruct (length gs <? max_goals)%nat; eexists; (split; [reflexivity |]).
    + split; [reflexivity | lia].
    + split; [apply removelast_sublist |].
      rewrite length_removelast. lia.
Qed.

(** ** The DecisionInfo under notifications *)

Lemma py_eqb_refl (v : pyval) : hashable v = true -> py_eqb v v = true.
Proof.
  destruct v as [| b | z | q | s | l | d]; cbn; try discriminate; intros _;
    try reflexivity; try apply Qeq_bool_refl.
  apply String.eqb_refl.
Qed.

Ltac split_matches :=
  repeat match goal with
         | |- context [match ?x with _ => _ end] => destruct x eqn:?; cbn
         end.

Lemma update_from_message_counts fd message :
  maintains counts_agree (update_from_message fd message).
Proof.
  intros d H. unfold update_from_message, counts_agree in *. unfold_monad.
  destruct d; cbn in *.
  destruct (getitem message "time"); cbn; try exact H.
  destruct (fd _); cbn; try exact H.
  destruct (py_eqb _ _); cbn.
  - rewrite length_app. cbn. lia.
  - destruct (set_add _ _); cbn; try exact H.
    rewrite length_app. cbn. lia.
Qed.

Lemma update_from_message_bot fd message d :
  bot_id (update_from_message fd message d).2 = bot_id d.
Proof.
  unfold update_from_message. unfold_monad.
  destruct d; cbn in *.
  destruct (getitem message "time"); cbn; try reflexivity.
  destruct (fd _); cbn; try reflexivity.
  destruct (py_eqb _ _); cbn; try reflexivity.
  destruct (set_add _ _); cbn; reflexivity.
Qed.

Lemma update_from_message_bot_inactive fd message :
  maintains bot_inactive (update_from_message fd message).
Proof.
  intros d H. unfold update_from_message, bot_inactive in *. unfold_monad.
  destruct d as [lmt lmc lms nmc um icc ccd lbst lust au bid]; cbn in *.
  destruct (getitem message "time"); cbn; try exact H.
  destruct (fd _) as [e | ui]; cbn; try exact H.
  destruct (py_eqb (user_id ui) (PyStr bid)) eqn:E; cbn; try exact H.
  unfold set_add. destruct (hashable (user_id ui)); cbn; try exact H.
  destruct (existsb _ _); [exact H |].
  apply Forall_app. split; [exact H |]. now constructor.
Qed.

Lemma update_cold_chat_status_frame b t d :
  let d' := (update_cold_chat_status b t d).2 in
  d' = set_cold_chat_duration (cold_chat_duration d') (set_is_cold_chat (is_cold_chat d') d) /\
  is_cold_chat d' = b.
Proof.
  unfold update_cold_chat_status. unfold_monad. destruct d as [lmt lmc lms nmc um icc ccd lbst lust au bid]; cbn.
  destruct (b && truthy lmt); cbn; [| auto].
  destruct (float_sub t lmt); cbn; auto.
Qed.

Lemma update_cold_chat_status_counts b t :
  maintains counts_agree (update_cold_chat_status b t).
Proof.
  intros d H. destruct (update_cold_chat_status_frame b t d) as [E _].
  rewrite E. destruct d; exact H.
Qed.

Lemma update_cold_chat_status_bot_inactive b t :
  maintains bot_inactive (update_cold_chat_status b t).
Proof.
  intros d H. destruct (update_cold_chat_status_frame b t d) as [E _].
  rewrite E. destruct d; exact H.
Qed.

Lemma update_cold_chat_status_bot b t d :
  bot_id (update_cold_chat_status b t d).2 = bot_id d.
Proof.
  destruct (update_cold_chat_status_frame b t d) as [E _].
  rewrite E. now destruct d.
Qed.

Section Maintains.

Context {S : Type} (P : S -> Prop).

Lemma maintains_ret {A} (a : A) : maintains P (mret a : M S A).
Proof. intros s H. exact H. Qed.

Lemma maintains_bind {A B} (m : M S A) (k : A -> M S B) :
  maintains P m -> (forall a, maintains P (k a)) -> maintains P (m ≫= k).
Proof.
  intros Hm Hk s H. rewrite bind_unfold. specialize (Hm s H).
  destruct (m s) as [[a | e |] s']; simpl in *; try exact Hm.
  now apply Hk.
Qed.

Lemma maintains_try {A} (m : M S A) (h : exn -> M S A) :
  maintains P m -> (forall e, maintains P (h e)) -> maintains P (try_except m h).
Proof.
  intros Hm Hh s H. unfold try_except. specialize (Hm s H).
  destruct (m s) as [[a | e |] s']; simpl in *; try exact Hm.
  now apply Hh.
Qed.

Lemma maintains_lift {A} (o : outcome A) : maintains P (lift o : M S A).
Proof. intros s H. exact H. Qed.

Lemma maintains_raise {A} (e : exn) : maintains P (raise e : M S A).
Proof. intros s H. exact H. Qed.

Lemma maintains_gets {A} (g : S -> A) : maintains P (gets g).
Proof. intros s H. exact H. Qed.

End Maintains.

Lemma maintains_of_preserves {S A X} (f : S -> X) (P : X -> Prop) (m : M S A) :
  preserves f m -> maintains (fun s => P (f s)) m.
Proof. intros H s Hs. now rewrite H. Qed.

Ltac maintains_step :=
  lazymatch goal with
  | |- maintains _ (mret _) => apply maintains_ret
  | |- maintains _ (mbind _ _) => apply maintains_bind; [| intros ?]
  | |- maintains _ (try_except _ _) => apply maintains_try; [| intros ?]
  | |- maintains _ (lift _) => apply maintains_lift
  | |- maintains _ (raise _) => apply maintains_raise
  | |- maintains _ (gets _) => apply maintains_gets
  | |- maintains _ (match ?x with _ => _ end) => destruct x
  | |- maintains _ (let '(_, _) := ?x in _) => destruct x
  end.

Section InfoInvariants.

Context {Env : Type} (C : Collaborators Env) (P : DecisionInfo -> Prop).

Lemma maintains_untouched {A} (m : M (World Env) A) :
  preserves (observe decision_info) m -> maintains (fun w => P (info_of w)) m.
Proof. apply (maintains_of_preserves (observe decision_info) P). Qed.

Lemma maintains_on_decision_info {A} (m : M DecisionInfo A) :
  maintains P m ->
  maintains (fun w : World Env => P (info_of w)) (on_decision_info m).
Proof.
  intros H w Hw. unfold on_decision_info, info_of in *.
  specialize (H _ Hw). destruct (m (decision_info (conv w))) as [r d'].
  cbn in *. now destruct (conv w).
Qed.

Lemma handle_notification_maintains (notification : option Notification) :
  (forall fd m, maintains P (update_from_message fd m)) ->
  (forall b t, maintains P (update_cold_chat_status b t)) ->
  maintains (fun w => P (info_of w)) (handle_notification C notification).
Proof.
  intros Hu Hc. unfold handle_notification.
  repeat first
    [ solve [apply maintains_untouched; auto with keeps]
    | solve [apply maintains_on_decision_info; auto]
    | maintains_step ].
Qed.

End InfoInvariants.

Section NotificationInvariants.

Context {Env : Type} (C : Collaborators Env).

Lemma handle_notification_touches_info (notification : option Notification) :
  preserves (observe (set_decision_info DecisionInfo_default))
    (handle_notification C notification).
Proof.
  unfold handle_notification.
  assert (K : forall A (m : M DecisionInfo A),
             preserves (observe (set_decision_info DecisionInfo_default))
               (on_decision_info (Env := Env) m)).
  { intros A m w. unfold on_decision_info, observe.
    destruct (m (decision_info (conv w))). cbn. now destruct (conv w). }
  preserves_tac.
Qed.

(** X4.  Whatever the notification and however the handler ends, of the
    Conversation only its DecisionInfo may have changed; the bot id is
    the same, the counter of new messages still agrees with the list of
    unprocessed messages, and the bot is still not among the active
    users. *)
Theorem handle_notification_invariants (notification : option Notification)
    (w : World Env) :
  let w' := (handle_notification C notification w).2 in
  conv w' = set_decision_info (info_of w') (conv w) /\
  bot_id (info_of w') = bot_id (info_of w) /\
  (counts_agree (info_of w) -> counts_agree (info_of w')) /\
  (bot_inactive (info_of w) -> bot_inactive (info_of w')).
Proof.
  intros w'. split; [| split; [| split]].
  - pose proof (handle_notification_touches_info notification w) as H.
    unfold observe in H. fold w' in H. clearbody w'. unfold info_of.
    destruct (conv w'), (conv w). cbn in *.
    injection H; intros; subst; reflexivity.
  - apply (handle_notification_maintains C
             (fun d => bot_id d = bot_id (info_of w)) notification).
    + intros fd m d H. now rewrite update_from_message_bot.
    + intros b t d H. now rewrite update_cold_chat_status_bot.
    + reflexivity.
  - apply (handle_notification_maintains C counts_agree notification).
    + apply update_from_message_counts.
    + apply update_cold_chat_status_counts.
  - apply (handle_notification_maintains C bot_inactive notification).
    + apply update_from_message_bot_inactive.
    + apply update_cold_chat_status_bot_inactive.
Qed.

End NotificationInvariants.

(** A new message from "u2" at the fake world: it is counted, and "u2" is the one active user. *)
Lemma handle_notification_invariants_witness :
  let w' := (handle_notification (Fake.collaborators Fake.no_json)
               (Some (mkNotification NEW_MESSAGE (Some (PyDict (Fake.message 995 "u2" "hi")))))
               Fake.world0).2 in
  counts_agree (info_of w') /\ bot_inactive (info_of w') /\
  new_messages_count (info_of w') = 1%Z /\
  active_users (info_of w') = [PyStr "u2"].
Proof.
  intros w'.
  destruct (handle_notification_invariants (Fake.collaborators Fake.no_json)
              (Some (mkNotification NEW_MESSAGE (Some (PyDict (Fake.message 995 "u2" "hi")))))
              Fake.world0) as (_ & _ & Hc & Hb).
  split; [| split; [| split]].
  - apply Hc. reflexivity.
  - apply Hb. constructor.
  - reflexivity.
  - reflexivity.
Defined.

Lemma existsb_app_last {A} (f : A -> bool) (l : list A) (x : A) :
  f x = true -> existsb f (l ++ [x]) = true.
Proof. intros H. rewrite existsb_app. cbn. rewrite H. now destruct (existsb f l). Qed.

(** X5.  A message with a time stamp and an accepted [user_info].  From the
    bot itself it sets the bot's speaking time and leaves the user's
    speaking time and the active users alone.  From anyone else (with a
    hashable id) it sets the user's speaking time, leaves the bot's
    alone, and the sender is among the active users afterwards, added
    only if not yet there.  In both cases the update returns, and then
    the message is the last unprocessed one and has been counted
    once. *)
Theorem update_from_message_by_sender (fd : pyval -> result UserInfo)
    (message : pydict) (d : DecisionInfo) (t : pyval) (ui : UserInfo) :
  dict_lookup message "time" = Some t ->
  fd (dict_get message "user_info" (PyDict [])) = inr ui ->
  let r := update_from_message fd message d in
  (py_eqb (user_id ui) (PyStr (bot_id d)) = true ->
   r.1 = Ret tt /\
   last_bot_speak_time r.2 = t /\
   last_user_speak_time r.2 = last_user_speak_time d /\
   active_users r.2 = active_users d) /\
  (py_eqb (user_id ui) (PyStr (bot_id d)) = false ->
   hashable (user_id ui) = true ->
   r.1 = Ret tt /\
   last_user_speak_time r.2 = t /\
   last_bot_speak_time r.2 = last_bot_speak_time d /\
   existsb (py_eqb (user_id ui)) (active_users r.2) = true /\
   (existsb (py_eqb (user_id ui)) (active_users d) = true ->
    active_users r.2 = active_users d)) /\
  (r.1 = Ret tt ->
   last_message_time r.2 = t /\
   last_message_sender r.2 = user_id ui /\
   new_messages_count r.2 = (new_messages_count d + 1)%Z /\
   unprocessed_messages r.2 = unprocessed_messages d ++ [message]).
Proof.
  intros Ht Hfd r. subst r.
  unfold update_from_message, getitem. unfold_monad. rewrite Ht.
  destruct d as [lmt lmc lms nmc um icc ccd lbst lust au bid]; cbn. rewrite Hfd. cbn.
  split; [| split].
  - intros ->. cbn. auto.
  - intros -> Hh. unfold set_add. rewrite Hh. cbn.
    destruct (existsb (py_eqb (user_id ui)) au) eqn:E; cbn.
    + auto.
    + repeat split; try discriminate.
      apply existsb_app_last. now apply py_eqb_refl.
  - destruct (py_eqb _ _); cbn; [auto |].
    destruct (set_add _ _); cbn; try discriminate. auto.
Qed.

(** A message from the user "u2" at 995. *)
Lemma update_from_message_by_sender_witness :
  let r := update_from_message Fake.user_info_from_dict
             (Fake.message 995 "u2" "hi") Fake.info0 in
  r.1 = Ret tt /\ last_user_speak_time r.2 = PyFloat 995 /\
  last_bot_speak_time r.2 = PyNone /\
  existsb (py_eqb (PyStr "u2")) (active_users r.2) = true.
Proof.
  destruct (update_from_message_by_sender Fake.user_info_from_dict
              (Fake.message 995 "u2" "hi") Fake.info0 (PyFloat 995)
              (mkUserInfo (PyStr "u2") (PyStr "u2")) eq_refl eq_refl)
    as (_ & H & _).
  destruct (H eq_refl eq_refl) as (H1 & H2 & H3 & H4 & _).
  repeat split; assumption.
Defined.

Section ColdChat.

Context {Env : Type} (C : Collaborators Env).

(** X6.  A cold-chat notification whose data is a dict sets the cold-chat
    flag to the truth value of its entry ["is_cold"] (false when there is
    none) and leaves the outside world alone.  The duration is assigned
    only when the chat is reported cold and a last message is known:
    it is then the current time minus the time of that message;
    otherwise, and in particular when the chat is reported active
    again, the duration keeps its old value. *)
Theorem cold_chat_notification (data : pydict) (w : World Env) :
  let w' := (handle_notification C
               (Some (mkNotification COLD_CHAT (Some (PyDict data)))) w).2 in
  let cold := truthy (dict_get data "is_cold" (PyBool false)) in
  is_cold_chat (info_of w') = cold /\
  env w' = env w /\
  (cold = false \/ truthy (last_message_time (info_of w)) = false ->
   info_of w' = set_is_cold_chat cold (info_of w) /\ trace w' = trace w) /\
  (forall t,
      cold = true ->
      truthy (last_message_time (info_of w)) = true ->
      py_num (last_message_time (info_of w)) = Some t ->
      info_of w' =
        set_cold_chat_duration (time_time C (env w) - t)
          (set_is_cold_chat true (info_of w)) /\
      trace w' = trace w).
Proof.
  intros w' cold. subst w'.
  unfold handle_notification, try_except, on_decision_info, now,
    update_cold_chat_status, info_of, float_sub.
  unfold_monad. cbn. fold cold.
  destruct w as [c ws tr e].
  destruct c as [? ? ? ? ? ? ? ? ? ? ? ? ? ? d].
  destruct d as [lmt lmc lms nmc um icc ccd lbst lust au bid]. cbn.
  split; [| split; [| split]].
  - destruct (cold && truthy lmt); cbn; [| reflexivity].
    destruct (py_num lmt); reflexivity.
  - destruct (cold && truthy lmt); cbn; [| reflexivity].
    destruct (py_num lmt); reflexivity.
  - intros [-> | ->]; [| rewrite andb_false_r]; cbn; auto.
  - intros t -> -> ->. cbn. auto.
Qed.

End ColdChat.

(** The chat is reported cold at 1000, ten seconds after the last message. *)
Lemma cold_chat_notification_witness :
  let w' := (handle_notification (Fake.collaborators Fake.no_json)
               (Some (mkNotification COLD_CHAT (Some (PyDict [("is_cold", PyBool true)]))))
               (set_conv (set_decision_info Fake.info0 Fake.conv0) Fake.world0)).2 in
  is_cold_chat (info_of w') = true /\
  (cold_chat_duration (info_of w') == 10)%Q.
Proof.
  intros w'.
  destruct (cold_chat_notification (Fake.collaborators Fake.no_json)
              [("is_cold", PyBool true)]
              (set_conv (set_decision_info Fake.info0 Fake.conv0) Fake.world0))
    as (H1 & _ & _ & H4).
  split; [exact H1 |].
  destruct (H4 990%Q eq_refl eq_refl eq_refl) as [E _].
  fold w' in E. rewrite E. reflexivity.
Defined.

(** ** The rendering of the history *)

Section History.

Context {Env : Type} (C : Collaborators Env).

Lemma format_history_cons_ret (m : pydict) (ms : list pydict) (text : string) :
  format_history C (m :: ms) = Ret text ->
  renders C m /\ exists rest, format_history C ms = Ret rest.
Proof.
  cbn. unfold getitem.
  destruct (dict_lookup m "time") as [t |] eqn:Et; [| discriminate]. cbn.
  destruct (fromtimestamp_strftime C t) as [e | s] eqn:Es; [discriminate |]. cbn.
  destruct (UserInfo_from_dict C _) as [e | ui] eqn:Eu; [discriminate |]. cbn.
  destruct (format_history C ms) as [rest | e |] eqn:Er; try discriminate.
  intros _. split; [| eauto]. now exists t, s, ui.
Qed.

Lemma format_history_cons_renders (m : pydict) (ms : list pydict) (rest : string) :
  renders C m -> format_history C ms = Ret rest ->
  exists text, format_history C (m :: ms) = Ret text.
Proof.
  intros (t & s & ui & Et & Es & Eu) Er. cbn. unfold getitem.
  rewrite Et. cbn. rewrite Es. cbn. rewrite Eu. cbn. rewrite Er. cbn. eauto.
Qed.

Lemma format_history_skip (m : pydict) (ms : list pydict) (e : exn) :
  renders C m -> format_history C ms = Raise e ->
  format_history C (m :: ms) = Raise e.
Proof.
  intros (t & s & ui & Et & Es & Eu) Er. cbn. unfold getitem.
  rewrite Et. cbn. rewrite Es. cbn. rewrite Eu. cbn. rewrite Er. reflexivity.
Qed.

(** X7.  The rendering of the history, which [plan], [analyze_goal],
    [analyze_conversation] and [generate] repeat, succeeds exactly when
    every record has a time stamp and that time stamp and the
    [user_info] are accepted; it raises KeyError("time") at the first
    record without a time stamp when the records before it are in
    order. *)
Theorem format_history_renders (ms : list pydict) :
  ((exists text, format_history C ms = Ret text) <-> Forall (renders C) ms) /\
  (forall ms1 m ms2,
      ms = ms1 ++ m :: ms2 ->
      Forall (renders C) ms1 ->
      dict_lookup m "time" = None ->
      format_history C ms = Raise (KeyError "time")).
Proof.
  split.
  - induction ms as [| m ms IH].
    + split; [constructor | now exists ""].
    + split.
      * intros [text H]. apply format_history_cons_ret in H as [Hm Hrest].
        constructor; [exact Hm | now apply IH].
      * intros H. inversion H as [| ? ? Hm Hms]; subst.
        apply IH in Hms as [rest Hrest].
        exact (format_history_cons_renders _ _ _ Hm Hrest).
  - intros ms1 m ms2 -> H Hm. induction H as [| x ms1 Hx Hms1 IH].
    + cbn. unfold getitem. now rewrite Hm.
    + cbn [app]. apply format_history_skip; assumption.
Qed.

End History.

(** A record in order followed by one without a time stamp. *)
Lemma format_history_renders_witness :
  format_history (Fake.collaborators Fake.no_json)
    ([Fake.message 990 "u1" "hello"] ++ [("processed_plain_text", PyStr "x")] :: [])
  = Raise (KeyError "time").
Proof.
  destruct (format_history_renders (Fake.collaborators Fake.no_json)
              ([Fake.message 990 "u1" "hello"] ++ [("processed_plain_text", PyStr "x")] :: []))
    as [_ H].
  apply (H [Fake.message 990 "u1" "hello"] [("processed_plain_text", PyStr "x")] []).
  - reflexivity.
  - constructor; [| constructor].
    exists (PyFloat 990), "12:00:00", (mkUserInfo (PyStr "u1") (PyStr "u1")).
    repeat split.
  - reflexivity.
Defined.

(** ** The sender and the conversion of messages *)

Section Sender.

Context {Env : Type} (C : Collaborators Env).

Ltac run_send :=
  unfold send_message, try_except, call; unfold_monad;
  cbn;
  repeat match goal with
         | H : ?x = _ |- context [?x] => rewrite H; cbn
         end.

Ltac stored :=
  let H := fresh in
  intros H; rewrite ?elem_of_app, ?elem_of_cons, ?elem_of_nil in H;
  intuition (try discriminate); right; eauto 10.

(** X8.  [send_message] (the serialisation of the message taken not to
    fail) returns normally exactly when processing the message, the
    lookup of the endpoint, the REST call and the storing all succeed.
    Without an endpoint for the platform, or with an empty one, it logs
    an error and raises ValueError, and nothing goes to the transport.
    When the transport raises, it logs an error and raises the same
    exception, and the message is not stored: a message is stored only
    after the REST call has succeeded. *)
Theorem send_message_outcomes (stream : ChatStream) (content : string)
    (reply : option Message) (w : World Env) :
  let r := send_message C stream content reply w in
  (r.1 = Ret tt <->
   exists e1 ep e2 e3,
     message_process C content (env w) = (inr tt, e1) /\
     api_urls C (platform stream) = Some ep /\ ep <> "" /\
     send_message_REST C ep content e1 = (inr tt, e2) /\
     store_message C content e2 = (inr tt, e3)) /\
  (forall e1,
      message_process C content (env w) = (inr tt, e1) ->
      api_urls C (platform stream) = None \/ api_urls C (platform stream) = Some "" ->
      r = (Raise (ValueError "未找到平台的url配置"),
           mkWorld (conv w) (waiting_start_time w)
             (trace w ++ [SendMessage content reply; Log ERROR "直接发送消息失败"]) e1)) /\
  (forall e1 ep ex e2,
      message_process C content (env w) = (inr tt, e1) ->
      api_urls C (platform stream) = Some ep -> ep <> "" ->
      send_message_REST C ep content e1 = (inl ex, e2) ->
      r = (Raise ex,
           mkWorld (conv w) (waiting_start_time w)
             (trace w ++ [SendMessage content reply; SendREST ep content;
                          Log ERROR "直接发送消息失败"]) e2)) /\
  (StoreMessage content ∈ trace r.2 ->
   StoreMessage content ∈ trace w \/
   exists e1 ep e2,
     message_process C content (env w) = (inr tt, e1) /\
     api_urls C (platform stream) = Some ep /\ ep <> "" /\
     send_message_REST C ep content e1 = (inr tt, e2)) /\
  r.1 <> OutOfFuel.
Proof.
  intros r. subst r.
  destruct (message_process C content (env w)) as [[ex | []] e1] eqn:Hp.
  { run_send.
    split; [| split; [| split; [| split]]]; try discriminate; try stored.
    split; [discriminate | ]. intros (? & ? & ? & ? & ? & _). discriminate. }
  destruct (api_urls C (platform stream)) as [ep |] eqn:Ha.
  2:{ run_send. rewrite <- app_assoc.
      split; [| split; [| split; [| split]]]; try discriminate; try stored.
      - split; [discriminate |]. intros (? & ? & ? & ? & ? & ? & _). discriminate.
      - intros ? [= <-] _. reflexivity. }
  destruct (String.eqb_spec ep "") as [-> | Hne].
  { run_send. rewrite <- app_assoc.
    split; [| split; [| split; [| split]]]; try discriminate; try stored.
    - split; [discriminate |]. intros (? & ? & ? & ? & ? & [= <-] & ? & _). congruence.
    - intros ? [= <-] _. reflexivity.
    - intros ? ? ? ? _ [= <-]. congruence. }
  assert (Hneb : String.eqb ep "" = false) by now apply String.eqb_neq.
  destruct (send_message_REST C ep content e1) as [[ex | []] e2] eqn:Hr.
  { run_send. rewrite <- !app_assoc.
    split; [| split; [| split; [| split]]]; try discriminate; try stored.
    - split; [discriminate |].
      intros (? & ? & ? & ? & [= <-] & [= <-] & ? & ? & _). congruence.
    - intros ? _ [? | ?]; congruence.
    - intros ? ? ? ? [= <-] [= <-] _ H. rewrite Hr in H.
      injection H as <- <-. reflexivity. }
  destruct (store_message C content e2) as [[ex | []] e3] eqn:Hs.
  { run_send.
    split; [| split; [| split; [| split]]]; try discriminate; try stored.
    - split; [discriminate |].
      intros (? & ? & ? & ? & [= <-] & [= <-] & ? & ? & ?). congruence.
    - intros ? _ [? | ?]; congruence.
    - intros ? ? ? ? [= <-] [= <-] _ ?. congruence. }
  run_send.
  split; [| split; [| split; [| split]]]; try discriminate; try stored.
  - split; [| reflexivity]. intros _. exists e1, ep, e2, e3. auto.
  - intros ? _ [? | ?]; congruence.
  - intros ? ? ? ? [= <-] [= <-] _ ?. congruence.
Qed.

End Sender.

(** The fake transport knows the platform "qq" only. *)
Lemma send_message_outcomes_witness :
  (send_message (Fake.collaborators Fake.no_json) (mkChatStream "qq") "hi" None
     Fake.world0).1 = Ret tt /\
  (send_message (Fake.collaborators Fake.no_json) (mkChatStream "wechat") "hi" None
     Fake.world0).1 = Raise (ValueError "未找到平台的url配置").
Proof.
  split.
  - apply (send_message_outcomes (Fake.collaborators Fake.no_json)
             (mkChatStream "qq") "hi" None Fake.world0).
    exists Fake.env0, "http://127.0.0.1", Fake.env0, Fake.env0.
    repeat split. discriminate.
  - destruct (send_message_outcomes (Fake.collaborators Fake.no_json)
                (mkChatStream "wechat") "hi" None Fake.world0) as (_ & H & _).
    rewrite (H Fake.env0 eq_refl (or_introl eq_refl)). reflexivity.
Defined.

Section Convert.

Context {Env : Type} (C : Collaborators Env).

(** X9.  [_convert_to_message] never changes the Conversation or the
    outside world.  When it returns, nothing at all has changed and the
    id, time, chat stream and user of the Message are those of the
    record.  When it raises, exactly one warning has been logged; with
    an accepted [chat_info] and [user_info] it raises
    KeyError("message_id") for a record without id and KeyError("time")
    for a record with an id and without time stamp. *)
Theorem convert_to_message_spec (msg : pydict) (w : World Env) :
  let r := _convert_to_message C msg w in
  conv r.2 = conv w /\ env r.2 = env w /\
  (forall m,
      r.1 = Ret m ->
      r.2 = w /\
      dict_lookup msg "message_id" = Some (msg_message_id m) /\
      dict_lookup msg "time" = Some (msg_time m) /\
      ChatStream_from_dict C (dict_get msg "chat_info" (PyDict [])) =
        inr (msg_chat_stream m) /\
      UserInfo_from_dict C (dict_get msg "user_info" (PyDict [])) =
        inr (msg_user_info m)) /\
  (forall e,
      r.1 = Raise e ->
      trace r.2 = trace w ++ [Log WARNING "转换消息时出错"]) /\
  (forall cs ui,
      ChatStream_from_dict C (dict_get msg "chat_info" (PyDict [])) = inr cs ->
      UserInfo_from_dict C (dict_get msg "user_info" (PyDict [])) = inr ui ->
      (dict_lookup msg "message_id" = None -> r.1 = Raise (KeyError "message_id")) /\
      (forall i, dict_lookup msg "message_id" = Some i ->
                 dict_lookup msg "time" = None -> r.1 = Raise (KeyError "time"))) /\
  r.1 <> OutOfFuel.
Proof.
  intros r. subst r.
  unfold _convert_to_message, try_except, getitem. unfold_monad.
  destruct w as [c ws tr e]. cbn.
  destruct (ChatStream_from_dict C _) as [ex | cs]; cbn.
  { repeat split; try discriminate. }
  destruct (UserInfo_from_dict C _) as [ex | ui]; cbn.
  { repeat split; try discriminate. }
  destruct (dict_lookup msg "message_id") as [i |]; cbn.
  2:{ repeat split; try discriminate. }
  destruct (dict_lookup msg "time") as [t |]; cbn.
  2:{ repeat split; try discriminate. }
  repeat split; try discriminate;
    match goal with H : Ret _ = Ret _ |- _ => injection H as <- end; reflexivity.
Qed.

End Convert.

(** The conversion of a record of the fake observer changes nothing. *)
Lemma convert_to_message_spec_witness :
  (_convert_to_message (Fake.collaborators Fake.no_json)
     (Fake.message 990 "u1" "hello") Fake.world0).2 = Fake.world0.
Proof.
  destruct (convert_to_message_spec (Fake.collaborators Fake.no_json)
              (Fake.message 990 "u1" "hello") Fake.world0) as (_ & _ & H & _).
  destruct (H (mkMessage (PyStr "m1") (mkChatStream "qq") (PyFloat 990)
                 (mkUserInfo (PyStr "u1") (PyStr "u1")) (PyStr "hello") (PyStr "")))
    as [E _]; [reflexivity | exact E].
Defined.

(** ** Stopping the Conversation *)

Section Standing.

Context {Env : Type} (C : Collaborators Env).

Lemma stand_emit (e : event) :
  is_removal e = false -> preserves standing (emit (Env := Env) e).
Proof.
  intros H w. unfold standing, removals. cbn. rewrite List.filter_app. cbn.
  rewrite H. now rewrite app_nil_r.
Qed.

Lemma stand_log l m : preserves standing (log (Env := Env) l m).
Proof. now apply stand_emit. Qed.

Lemma stand_call {A} (g : Env -> result A * Env) : preserves standing (call g).
Proof. intros w. unfold call. destruct (g (env w)). reflexivity. Qed.

Lemma stand_get_self {A} (g : Conversation -> A) :
  preserves standing (get_self (Env := Env) g).
Proof. intros w. reflexivity. Qed.

Lemma stand_update_self (g : Conversation -> Conversation) :
  (forall c, should_continue (g c) = should_continue c /\
             stream_id (g c) = stream_id c) ->
  preserves standing (update_self (Env := Env) g).
Proof.
  intros H w. unfold standing. cbn. destruct (H (conv w)) as [-> ->]. reflexivity.
Qed.

Lemma stand_now : preserves standing (now C).
Proof. intros w. reflexivity. Qed.

Lemma stand_sleep s : preserves standing (sleep C s).
Proof.
  unfold sleep. apply preserves_bind; [now apply stand_emit |].
  intros _ w. reflexivity.
Qed.

End Standing.

#[export] Hint Resolve stand_log stand_call stand_get_self stand_now
  stand_sleep : keeps.
#[export] Hint Extern 1 (preserves standing (emit _)) =>
  apply stand_emit; reflexivity : keeps.
#[export] Hint Extern 1 (preserves standing (update_self _)) =>
  apply stand_update_self; intros []; split; reflexivity : keeps.

Section StandingOfParts.

Context {Env : Type} (C : Collaborators Env).

Lemma stand_do_trigger_update : preserves standing (do_trigger_update C).
Proof. unfold do_trigger_update. preserves_tac. Qed.

Lemma stand_llm rt p : preserves standing (llm C rt p).
Proof. unfold llm. preserves_tac. Qed.

Hint Resolve stand_do_trigger_update stand_llm : keeps.

Lemma stand_send_message stream content r :
  preserves standing (send_message C stream content r).
Proof. unfold send_message. preserves_tac. Qed.

Lemma stand_convert_to_message m : preserves standing (_convert_to_message C m).
Proof. unfold _convert_to_message. preserves_tac. Qed.

Hint Resolve stand_send_message stand_convert_to_message : keeps.

Lemma stand_convert_all ms : preserves standing (convert_all C ms).
Proof. induction ms; simpl; preserves_tac. Qed.

Lemma stand_send_timeout_message : preserves standing (_send_timeout_message C).
Proof. unfold _send_timeout_message. preserves_tac. Qed.

Lemma stand_generate g a b c : preserves standing (generate C g a b c).
Proof. unfold generate. preserves_tac. Qed.

Lemma stand_check_reply r g : preserves standing (check_reply C r g).
Proof. unfold check_reply. preserves_tac. Qed.

Lemma stand_wait_loop fuel t : preserves standing (wait_loop C fuel t).
Proof. induction fuel; simpl; preserves_tac. Qed.

Hint Resolve stand_wait_loop stand_convert_all stand_send_timeout_message
  stand_generate stand_check_reply : keeps.

Lemma stand_wait fuel : preserves standing (wait C fuel).
Proof.
  unfold wait. preserves_tac. intros w. reflexivity.
Qed.

Lemma stand_send_reply : preserves standing (_send_reply C).
Proof. unfold _send_reply. preserves_tac. Qed.

Lemma stand_plan g m r h d : preserves standing (plan C g m r h d).
Proof. unfold plan, plan_prompt, plan_decide, decision_info_text. preserves_tac. Qed.

Lemma stand_analyze_goal_attempt n : preserves standing (analyze_goal_attempt C n).
Proof. unfold analyze_goal_attempt. preserves_tac. Qed.

Hint Resolve stand_wait stand_send_reply stand_plan stand_analyze_goal_attempt : keeps.

Lemma stand_analyze_goal_loop n k : preserves standing (analyze_goal_loop C n k).
Proof. revert n. induction k; intros n; simpl; preserves_tac. Qed.

Hint Resolve stand_analyze_goal_loop : keeps.

Lemma stand_analyze_goal : preserves standing (analyze_goal C).
Proof. unfold analyze_goal. preserves_tac. Qed.

Lemma stand_analyze_conversation g r : preserves standing (analyze_conversation C g r).
Proof. unfold analyze_conversation. preserves_tac. Qed.

Lemma stand_record_action a r : preserves standing (record_action C a r).
Proof. unfold record_action. preserves_tac. Qed.

Hint Resolve stand_analyze_goal stand_analyze_conversation stand_record_action : keeps.

Lemma stand_handle_direct_reply : preserves standing (handle_direct_reply C).
Proof. unfold handle_direct_reply, generate_candidate. preserves_tac. Qed.

Lemma stand_handle_fetch_knowledge : preserves standing (handle_fetch_knowledge C).
Proof. unfold handle_fetch_knowledge. preserves_tac. Qed.

Lemma stand_handle_rethink_goal : preserves standing (handle_rethink_goal C).
Proof. unfold handle_rethink_goal. preserves_tac. Qed.

Lemma keeps_standing {A} (m : M (World Env) A) :
  preserves standing m -> stops_or_keeps m.
Proof. intros H w. left. apply H. Qed.

Lemma stops_or_keeps_bind {A B} (m : M (World Env) A) (k : A -> M (World Env) B) :
  preserves standing m -> (forall a, stops_or_keeps (k a)) ->
  stops_or_keeps (m ≫= k).
Proof.
  intros Hm Hk w. rewrite bind_unfold. specialize (Hm w).
  destruct (m w) as [[a | e |] w1]; cbn in *; try (now left).
  destruct (Hk a w1) as [H | (H1 & H2 & H3 & H4)].
  - left. congruence.
  - right. unfold standing in Hm. injection Hm as Hc Hi Hr.
    unfold stopped_from. rewrite <- Hi, <- Hr. auto.
Qed.

Lemma stop_conversation_stops (w : World Env) :
  stopped_from w (_stop_conversation C w).2.
Proof.
  unfold _stop_conversation, stopped_from, removals, call. unfold_monad. cbn.
  destruct (remove_instance C _ _). cbn.
  rewrite List.filter_app. cbn. now destruct (conv w).
Qed.

Ltac stops_tac :=
  repeat first
    [ solve [apply keeps_standing; preserves_tac]
    | solve [intros ?; right; apply stop_conversation_stops]
    | apply stops_or_keeps_bind; [solve [preserves_tac] | intros ?]
    | match goal with
      | |- stops_or_keeps (match ?x with _ => _ end) => destruct x
      end ].

Lemma handle_judge_conversation_stops : stops_or_keeps (handle_judge_conversation C).
Proof. unfold handle_judge_conversation. stops_tac. Qed.

Lemma handle_waiting_stops s fuel : stops_or_keeps (handle_waiting C s fuel).
Proof. unfold handle_waiting. stops_tac. Qed.

Lemma handle_action_stops fuel action reason :
  stops_or_keeps (_handle_action C fuel action reason).
Proof.
  unfold _handle_action.
  apply stops_or_keeps_bind; [apply stand_record_action | intros _].
  repeat match goal with
         | |- stops_or_keeps (if ?b then _ else _) => destruct b
         end;
    auto using keeps_standing, stand_handle_direct_reply,
      stand_handle_fetch_knowledge, stand_handle_rethink_goal,
      handle_judge_conversation_stops, handle_waiting_stops.
Qed.

(** X10.  Whatever the action and however the dispatch ends, it either
    leaves [should_continue], the stream id and the removal requests as
    they were, or it has stopped the Conversation: [should_continue] is
    false, the state is ENDED and exactly one removal of this instance
    has been asked for. *)
Theorem handle_action_stops_or_keeps (fuel : nat) (action : string)
    (reason : pyval) (w : World Env) :
  let w' := (_handle_action C fuel action reason w).2 in
  (should_continue (conv w') = should_continue (conv w) /\
   stream_id (conv w') = stream_id (conv w) /\
   removals w' = removals w) \/
  (should_continue (conv w') = false /\
   state (conv w') = ENDED /\
   stream_id (conv w') = stream_id (conv w) /\
   removals w' = removals w ++ [RemoveInstance (stream_id (conv w))]).
Proof.
  intros w'. destruct (handle_action_stops fuel action reason w) as [H | H].
  - left. unfold standing in H. fold w' in H. injection H as -> -> ->. auto.
  - right. exact H.
Qed.


Lemma stops_or_keeps_then {A B} (m : M (World Env) A) (k : A -> M (World Env) B) :
  stops_or_keeps m ->
  (forall a, preserves standing (k a)) ->
  (forall a, preserves (observe state) (k a)) ->
  stops_or_keeps (m ≫= k).
Proof.
  intros Hm Hk Hs w. rewrite bind_unfold. specialize (Hm w).
  destruct (m w) as [[a | e |] w1]; cbn in *; try exact Hm.
  specialize (Hk a w1). specialize (Hs a w1). unfold observe in Hs.
  destruct Hm as [H | (H1 & H2 & H3 & H4)].
  - left. congruence.
  - right. unfold standing in Hk. injection Hk as Hc Hi Hr.
    unfold stopped_from. rewrite Hc, Hs, Hi, Hr. auto.
Qed.

Lemma loop_iteration_stops fuel : stops_or_keeps (loop_iteration C fuel).
Proof.
  unfold loop_iteration.
  repeat (apply stops_or_keeps_bind; [solve [preserves_tac] | intros ?]).
  match goal with |- stops_or_keeps (let '(_, _) := ?x in _) => destruct x end.
  apply stops_or_keeps_then.
  - apply handle_action_stops.
  - intros _. preserves_tac.
  - intros _. apply keeps_update_self. now intros [].
Qed.

Lemma bind_ret_inv {S A B} (m : M S A) (k : A -> M S B) (s s' : S) (b : B) :
  (m ≫= k) s = (Ret b, s') ->
  exists a s1, m s = (Ret a, s1) /\ k a s1 = (Ret b, s').
Proof.
  rewrite bind_unfold. destruct (m s) as [[a | e |] s1]; try discriminate. eauto.
Qed.

Lemma loop_iteration_clears fuel (w w1 : World Env) :
  loop_iteration C fuel w = (Ret tt, w1) ->
  unprocessed_messages (info_of w1) = [] /\ new_messages_count (info_of w1) = 0%Z.
Proof.
  unfold loop_iteration. intros H.
  repeat (apply bind_ret_inv in H as (? & ? & _ & H)).
  match type of H with (let '(_, _) := ?x in _) _ = _ => destruct x end.
  apply bind_ret_inv in H as (? & ? & _ & H).
  injection H as <-. unfold info_of. cbn.
  match goal with |- context [conv ?x] => now destruct (conv x) as [? ? ? ? ? ? ? ? ? ? ? ? ? ? []] end.
Qed.

Lemma conversation_iterations_exit (n fuel : nat) (w w' : World Env) :
  conversation_iterations C n fuel w = (Ret tt, w') ->
  (should_continue (conv w) = false -> w' = w) /\
  (should_continue (conv w) = true ->
   stopped_from w w' /\
   unprocessed_messages (info_of w') = [] /\
   new_messages_count (info_of w') = 0%Z).
Proof.
  revert w. induction n as [| n IH]; intros w H; [discriminate |].
  cbn [conversation_iterations] in H. unfold get_self in H.
  rewrite bind_unfold in H. cbn in H.
  destruct (should_continue (conv w)) eqn:Hc.
  - split; [discriminate | intros _].
    apply bind_ret_inv in H as ([] & w1 & Hi & Hrest).
    destruct (IH _ Hrest) as [Hfalse Htrue].
    pose proof (loop_iteration_clears _ _ _ Hi) as Hclear.
    destruct (loop_iteration_stops fuel w) as [Hk | Hs]; rewrite Hi in *; cbn in *.
    + unfold standing in Hk. injection Hk as Hc1 Hi1 Hr1.
      rewrite Hc in Hc1. destruct (Htrue Hc1) as ((S1 & S2 & S3 & S4) & Hcl).
      split; [| exact Hcl]. unfold stopped_from. rewrite <- Hi1, <- Hr1. auto.
    + destruct Hs as (S1 & S2 & S3 & S4). rewrite (Hfalse S1).
      split; [| exact Hclear]. unfold stopped_from. auto.
  - split; [intros _ | discriminate]. now injection H as <-.
Qed.

Lemma conversation_loop_enters (n fuel : nat) (w w' : World Env) :
  _conversation_loop C n fuel w = (Ret tt, w') ->
  exists w2,
    standing w2 = standing w /\
    conversation_iterations C n fuel w2 = (Ret tt, w').
Proof.
  unfold _conversation_loop. intros H.
  apply bind_ret_inv in H as (g & w1 & Hg & H).
  apply bind_ret_inv in H as ([] & w2 & Hu & H).
  exists w2. split; [| exact H].
  pose proof (stand_analyze_goal w) as K1. rewrite Hg in K1. cbn in K1.
  injection Hu as <-. rewrite <- K1. unfold standing. cbn.
  now destruct (conv w1).
Qed.

(** X11.  When the conversation loop returns, the Conversation is not to
    continue.  If it was to continue when the loop was entered, the loop
    has run at least once and the Conversation has been stopped: the
    state is ENDED, exactly one removal of this instance has been asked
    for, and no unprocessed message is left. *)
Theorem conversation_loop_exit (n fuel : nat) (w w' : World Env) :
  _conversation_loop C n fuel w = (Ret tt, w') ->
  should_continue (conv w') = false /\
  (should_continue (conv w) = true ->
   state (conv w') = ENDED /\
   removals w' = removals w ++ [RemoveInstance (stream_id (conv w))] /\
   unprocessed_messages (info_of w') = [] /\
   new_messages_count (info_of w') = 0%Z).
Proof.
  intros H. apply conversation_loop_enters in H as (w2 & Hst & H).
  unfold standing in Hst. injection Hst as Hc Hi Hr.
  destruct (conversation_iterations_exit _ _ _ _ H) as [Hfalse Htrue].
  split.
  - destruct (should_continue (conv w2)) eqn:E.
    + now destruct (Htrue eq_refl) as ((? & _) & _).
    + now rewrite (Hfalse eq_refl).
  - intros Hw. rewrite Hw in Hc.
    destruct (Htrue Hc) as ((S1 & S2 & S3 & S4) & Hcl1 & Hcl2).
    rewrite <- Hi, <- Hr. auto.
Qed.

Lemma start_unfold (n fuel : nat) (w : World Env) :
  start C n fuel w =
    match _conversation_loop C n fuel
            (set_conv (set_should_continue true (conv w)) w) with
    | (Raise e, w1) =>
        (Raise e, set_trace (trace w1 ++ [Log ERROR "启动对话系统失败"]) w1)
    | r => r
    end.
Proof.
  unfold start, try_except. rewrite bind_unfold.
  change (update_self (set_should_continue true) w)
    with (Ret tt, set_conv (set_should_continue true (conv w)) w).
  cbv beta iota.
  now destruct (_conversation_loop C n fuel _) as [[[] | e |] w1].
Qed.

(** X12.  [start] sets [should_continue] and runs the loop, whatever
    [should_continue] was before.  When it returns, the Conversation has
    been stopped: [should_continue] is false, the state is ENDED and
    exactly one removal of this instance has been asked for.  When the
    loop raises, [start] logs an error and raises the same exception. *)
Theorem start_spec (n fuel : nat) (w : World Env) :
  (forall w',
      start C n fuel w = (Ret tt, w') ->
      should_continue (conv w') = false /\
      state (conv w') = ENDED /\
      removals w' = removals w ++ [RemoveInstance (stream_id (conv w))]) /\
  (forall e w',
      start C n fuel w = (Raise e, w') ->
      exists w1,
        _conversation_loop C n fuel
          (set_conv (set_should_continue true (conv w)) w) = (Raise e, w1) /\
        w' = set_trace (trace w1 ++ [Log ERROR "启动对话系统失败"]) w1) /\
  (forall b,
      start C n fuel (set_conv (set_should_continue b (conv w)) w) =
      start C n fuel w).
Proof.
  split; [| split].
  - intros w' H. rewrite start_unfold in H.
    destruct (_conversation_loop C n fuel _) as [[[] | e |] w1] eqn:E;
      try discriminate.
    injection H as <-.
    apply conversation_loop_enters in E as (w2 & Hst & E).
    unfold standing in Hst. cbn in Hst. injection Hst as Hc Hi Hr.
    destruct (conversation_iterations_exit _ _ _ _ E) as [_ Htrue].
    destruct Htrue as ((S1 & S2 & S3 & S4) & _).
    { rewrite Hc. now destruct (conv w). }
    split; [exact S1 | split; [exact S2 |]].
    rewrite S4, Hi, Hr. unfold removals. cbn. now destruct (conv w).
  - intros e w' H. rewrite start_unfold in H.
    destruct (_conversation_loop C n fuel _) as [[[] | e1 |] w1] eqn:E;
      try discriminate.
    injection H as <- <-. eauto.
  - intros b. rewrite !start_unfold. cbn [conv set_conv].
    now destruct (conv w).
Qed.

End StandingOfParts.

(** The planner settles on "wait" and nobody writes: the Waiter times out and the loop ends. *)
Lemma conversation_loop_exit_witness :
  let w' := (_conversation_loop (Fake.collaborators Fake.wait_json) 2 302
               Fake.world0).2 in
  should_continue (conv w') = false /\
  state (conv w') = ENDED /\
  removals w' = [RemoveInstance "s1"].
Proof.
  intros w'.
  destruct (conversation_loop_exit (Fake.collaborators Fake.wait_json) 2 302
              Fake.world0 w') as [H1 H2].
  - vm_compute. reflexivity.
  - destruct (H2 eq_refl) as (S2 & S4 & _). auto.
Defined.

(** The same run, entered through [start]. *)
Lemma start_spec_witness :
  let w' := (start (Fake.collaborators Fake.wait_json) 2 302 Fake.world0).2 in
  should_continue (conv w') = false /\ state (conv w') = ENDED.
Proof.
  intros w'.
  destruct (start_spec (Fake.collaborators Fake.wait_json) 2 302 Fake.world0)
    as (H & _).
  destruct (H w') as (S1 & S2 & _).
  - vm_compute. reflexivity.
  - auto.
Defined.

(** ** The analysis of the goal *)

Section LLMBound.

Context {Env : Type}.

Lemma llm_bound_quiet {A} (m : M (World Env) A) (n : nat) :
  preserves llm_calls m -> llm_bound n m.
Proof.
  intros H w. exists []. rewrite H, app_nil_r. split; [reflexivity | cbn; lia].
Qed.

Lemma llm_bound_bind {A B} (a b : nat) (m : M (World Env) A)
    (k : A -> M (World Env) B) :
  llm_bound a m -> (forall x, llm_bound b (k x)) -> llm_bound (a + b) (m ≫= k).
Proof.
  intros Hm Hk w. rewrite bind_unfold. destruct (Hm w) as (c1 & E1 & L1).
  destruct (m w) as [[x | e |] w1]; cbn in *;
    try (exists c1; split; [exact E1 | lia]).
  destruct (Hk x w1) as (c2 & E2 & L2).
  exists (c1 ++ c2). rewrite E2, E1, <- app_assoc, length_app.
  split; [reflexivity | lia].
Qed.

Lemma llm_bound_try {A} (a b : nat) (m : M (World Env) A)
    (h : exn -> M (World Env) A) :
  llm_bound a m -> (forall e, llm_bound b (h e)) -> llm_bound (a + b) (try_except m h).
Proof.
  intros Hm Hh w. unfold try_except. destruct (Hm w) as (c1 & E1 & L1).
  destruct (m w) as [[x | e |] w1]; cbn in *;
    try (exists c1; split; [exact E1 | lia]).
  destruct (Hh e w1) as (c2 & E2 & L2).
  exists (c1 ++ c2). rewrite E2, E1, <- app_assoc, length_app.
  split; [reflexivity | lia].
Qed.

Lemma llm_bound_weaken {A} (a b : nat) (m : M (World Env) A) :
  a <= b -> llm_bound a m -> llm_bound b m.
Proof. intros Hab H w. destruct (H w) as (c & E & L). exists c. split; [exact E | lia]. Qed.

End LLMBound.

Section GoalAnalysis.

Context {Env : Type} (C : Collaborators Env).

Lemma quiet_lift {A} (o : outcome A) : preserves llm_calls (lift (S := World Env) o).
Proof. intros w. reflexivity. Qed.

Lemma llm_bound_llm rt p : llm_bound 1 (llm C rt p).
Proof.
  intros w. exists [LLMCall rt p]. split; [| cbn; lia].
  unfold llm, call, llm_calls. unfold_monad. cbn.
  destruct (generate_response_async C rt p (env w)). cbn.
  now rewrite List.filter_app.
Qed.

Lemma update_goals_head (g m r : string) (gs : list Goal) :
  exists rest, _update_goals g m r gs = (g, m, r) :: rest.
Proof.
  destruct (first_similar g gs 0) as [i |] eqn:E.
  - rewrite (update_goals_merge _ _ _ _ _ E). eauto.
  - rewrite (update_goals_insert _ _ _ _ E).
    destruct (length gs <? max_goals)%nat; eauto.
Qed.

Lemma goals_set_goals (gs : list Goal) (c : Conversation) : goals (set_goals gs c) = gs.
Proof. now destruct c. Qed.

Ltac caught :=
  match goal with
  | |- context [(?a =? ?b)%nat] => destruct (a =? b)%nat
  end;
  eexists _, _; (split; [reflexivity | left; auto]).

(** One pass of the retry loop returns; it leaves the Conversation as
    it is and ends in [continue] or in the default goal, or it stores
    the goal it found and returns it. *)
Lemma analyze_goal_attempt_cases (retry : nat) (w : World Env) :
  exists r w',
    analyze_goal_attempt C retry w = (Ret r, w') /\
    ((conv w' = conv w /\ (r = None \/ r = Some default_goal)) \/
     (exists goal reasoning,
         conv w' =
           set_goals (_update_goals goal friendly_method reasoning (goals (conv w)))
             (conv w) /\
         r = Some (goal, friendly_method, reasoning))).
Proof.
  unfold analyze_goal_attempt, try_except, llm, call. unfold_monad.
  destruct w as [c ws tr e]. cbn.
  destruct (get_message_history C (Some 20%nat) e) as [[ex | msgs] e1]; cbn.
  { caught. }
  destruct (format_history C msgs) as [text | ex |] eqn:Ef; cbn.
  2:{ caught. }
  2:{ now destruct (format_history_ends C msgs). }
  destruct (generate_response_async C _ _ e1) as [[ex | content] e2]; cbn.
  { caught. }
  destruct (get_items_from_json C _ _ _ _) as [ex | [[] result]]; cbn.
  { caught. }
  2:{ eexists _, _; (split; [reflexivity | left; auto]). }
  destruct (outcome_bind _ _ as_str (getitem result "goal"))
    as [goal | ex |] eqn:Eg; cbn.
  2:{ caught. }
  2:{ exfalso. revert Eg. apply (outcome_bind_ends (getitem result "goal") as_str);
      auto with ends. }
  destruct (outcome_bind _ _ as_str (getitem result "reasoning"))
    as [reasoning | ex |] eqn:Er; cbn.
  2:{ caught. }
  2:{ exfalso. revert Er.
      apply (outcome_bind_ends (getitem result "reasoning") as_str);
      auto with ends. }
  rewrite goals_set_goals.
  destruct (update_goals_head goal "以友好的态度回应" reasoning (goals c)) as [rest E].
  rewrite E. eexists _, _. split; [reflexivity |].
  right. exists goal, reasoning. rewrite <- E. auto.
Qed.

Lemma quiet_analyze_goal_attempt retry : llm_bound 1 (analyze_goal_attempt C retry).
Proof.
  unfold analyze_goal_attempt.
  apply (llm_bound_try 1 0).
  - apply (llm_bound_bind 0 1); [apply llm_bound_quiet, quiet_call | intros msgs].
    apply (llm_bound_bind 0 1); [apply llm_bound_quiet, quiet_lift | intros text].
    apply (llm_bound_bind 0 1); [apply llm_bound_quiet, quiet_get_self | intros gs].
    apply (llm_bound_bind 1 0); [apply llm_bound_llm | intros content].
    apply llm_bound_quiet.
    pose proof (@quiet_log Env). pose proof (@quiet_update_self Env).
    pose proof (@quiet_get_self Env). pose proof (@quiet_lift).
    preserves_tac.
  - intros e. apply llm_bound_quiet.
    pose proof (@quiet_log Env). preserves_tac.
Qed.

Lemma analyze_goal_loop_cases (retry remaining : nat) (w : World Env) :
  exists g w',
    analyze_goal_loop C retry remaining w = (Ret g, w') /\
    ((conv w' = conv w /\ g = default_goal) \/
     (exists goal reasoning,
         conv w' =
           set_goals (_update_goals goal friendly_method reasoning (goals (conv w)))
             (conv w) /\
         g = (goal, friendly_method, reasoning))).
Proof.
  revert retry w. induction remaining as [| n IH]; intros retry w.
  - exists default_goal, w. split; [reflexivity | left; auto].
  - cbn [analyze_goal_loop]. rewrite bind_unfold.
    destruct (analyze_goal_attempt_cases retry w) as (r & w1 & E & Hr).
    rewrite E.
    destruct Hr as [(Hc & [-> | ->]) | (goal & reasoning & Hc & ->)].
    + destruct (IH (S retry) w1) as (g & w' & E' & Hg).
      exists g, w'. split; [exact E' |]. now rewrite Hc in Hg.
    + eexists _, _. split; [reflexivity |]. left. auto.
    + eexists _, _. split; [reflexivity |]. right. eauto.
Qed.

Lemma llm_bound_analyze_goal_loop (retry remaining : nat) :
  llm_bound remaining (analyze_goal_loop C retry remaining).
Proof.
  revert retry. induction remaining as [| n IH]; intros retry.
  - apply llm_bound_quiet. intros w. reflexivity.
  - cbn [analyze_goal_loop]. apply (llm_bound_bind 1 n).
    + apply quiet_analyze_goal_attempt.
    + intros [g |]; [| apply IH]. apply llm_bound_quiet. intros w. reflexivity.
Qed.

Lemma update_goals_length (g m r : string) (gs : list Goal) :
  length gs <= max_goals -> length (_update_goals g m r gs) <= max_goals.
Proof.
  intros Hlen. destruct (first_similar g gs 0) as [i |] eqn:E.
  - rewrite (update_goals_merge _ _ _ _ _ E).
    apply first_similar_bound in E. cbn [length].
    rewrite length_delete_lt; lia.
  - rewrite (update_goals_insert _ _ _ _ E).
    unfold max_goals in *.
    destruct (Nat.ltb_spec (length gs) 3); cbn [length];
      [lia | rewrite length_removelast; lia].
Qed.

(** X13.  [analyze_goal] always returns: every failure inside a pass of
    the retry loop is caught.  It calls the language model at most three
    times.  Either it returns the default goal and leaves the
    Conversation as it found it, or it returns the goal it found, with
    the fixed method, after storing it with [_update_goals], so that the
    returned triple is the first entry of the goal list.  A goal list of
    at most three goals stays so. *)
Theorem analyze_goal_spec (w : World Env) :
  exists g w',
    analyze_goal C w = (Ret g, w') /\
    ((conv w' = conv w /\ g = default_goal) \/
     (exists goal reasoning,
         g = (goal, friendly_method, reasoning) /\
         conv w' =
           set_goals (_update_goals goal friendly_method reasoning (goals (conv w)))
             (conv w) /\
         head (goals (conv w')) = Some g)) /\
    (exists calls, llm_calls w' = llm_calls w ++ calls /\ length calls <= 3) /\
    (length (goals (conv w)) <= max_goals -> length (goals (conv w')) <= max_goals).
Proof.
  unfold analyze_goal.
  destruct (analyze_goal_loop_cases 0 max_retries w) as (g & w' & E & H).
  pose proof (llm_bound_analyze_goal_loop 0 max_retries w) as Hb.
  rewrite E in Hb. cbn [snd] in Hb.
  exists g, w'. split; [exact E | split; [| split; [exact Hb |]]].
  - destruct H as [H | (goal & reasoning & Hc & ->)]; [now left | right].
    exists goal, reasoning. split; [reflexivity | split; [exact Hc |]].
    rewrite Hc, goals_set_goals.
    now destruct (update_goals_head goal friendly_method reasoning (goals (conv w)))
      as [rest ->].
  - intros Hlen. destruct H as [[-> _] | (goal & reasoning & -> & _)]; [exact Hlen |].
    rewrite goals_set_goals. now apply update_goals_length.
Qed.

(** X14.  The rethink_goal branch always returns normally, in state
    RETHINKING and without touching [should_continue]; the active goal
    is then the default goal, or it is the first entry of the goal list
    and carries the fixed method. *)
Theorem rethink_goal_spec (w : World Env) :
  let r := handle_rethink_goal C w in
  r.1 = Ret tt /\
  state (conv r.2) = RETHINKING /\
  should_continue (conv r.2) = should_continue (conv w) /\
  (current_triple (conv r.2) = default_goal \/
   (head (goals (conv r.2)) = Some (current_triple (conv r.2)) /\
    current_method (conv r.2) = friendly_method)).
Proof.
  intros r. subst r. unfold handle_rethink_goal, analyze_goal.
  rewrite bind_unfold.
  change (update_self (set_state RETHINKING) w)
    with (Ret tt, set_conv (set_state RETHINKING (conv w)) w).
  cbv beta iota. rewrite bind_unfold.
  destruct (analyze_goal_loop_cases 0 max_retries
              (set_conv (set_state RETHINKING (conv w)) w)) as (g & w' & E & H).
  rewrite E. cbn [fst snd conv set_conv update_self modify].
  unfold update_self, modify. cbn [fst snd conv set_conv].
  destruct H as [[Hc ->] | (goal & reasoning & Hc & ->)];
    rewrite Hc; cbn [conv set_conv];
    destruct (conv w) as [? ? ? ? ? ? ? ? ? ? ? ? ? gs ?]; cbn.
  - auto.
  - repeat split. right.
    destruct (update_goals_head goal friendly_method reasoning gs) as [rest ->].
    auto.
Qed.

End GoalAnalysis.

(** The extractor finds a goal; the list of two goals grows to three. *)
Lemma analyze_goal_spec_witness :
  length (goals (conv (analyze_goal (Fake.collaborators Fake.goal_json)
                         Fake.world0).2)) <= max_goals.
Proof.
  destruct (analyze_goal_spec (Fake.collaborators Fake.goal_json) Fake.world0)
    as (g & w' & E & _ & _ & H).
  rewrite E. apply H. unfold max_goals. cbn. lia.
Defined.

(** ** The judgement of the conversation *)

Lemma try_except_no_raise {S A} (m : M S A) (h : exn -> M S A) :
  (forall e s e', (h e s).1 <> Raise e') ->
  forall s e', (try_except m h s).1 <> Raise e'.
Proof.
  intros Hh s e'. unfold try_except.
  destruct (m s) as [[a | e |] s1]; cbn; [discriminate | apply Hh | discriminate].
Qed.

Section Judging.

Context {Env : Type} (C : Collaborators Env).

Lemma delete_length_le {A} (i : nat) (l : list A) : length (delete i l) <= length l.
Proof. apply sublist_length, sublist_delete. Qed.

Lemma set_goals_same (c : Conversation) : set_goals (goals c) c = c.
Proof. now destruct c. Qed.

Lemma analyze_conversation_conv (goal reasoning : string) (w : World Env) :
  conv (analyze_conversation C goal reasoning w).2 = conv w \/
  conv (analyze_conversation C goal reasoning w).2 =
    set_goals (without_goal goal (goals (conv w))) (conv w).
Proof.
  unfold analyze_conversation, try_except, llm, call, getitem, without_goal.
  unfold_monad. destruct w as [c ws tr e]. cbn.
  destruct (get_message_history C None e) as [[? | ?] ?]; cbn; [now left |].
  destruct (format_history C _); cbn; try (now left).
  destruct (generate_response_async C _ _ _) as [[? | ?] ?]; cbn; [now left |].
  destruct (get_items_from_json C _ _ _ _) as [? | [[] result]]; cbn;
    try (now left).
  destruct (dict_lookup result "goal_achieved") as [ach |]; cbn; [| now left].
  destruct (truthy ach); cbn.
  2:{ destruct (dict_lookup result "goal_achieved"); cbn; [| now left].
      destruct (dict_lookup result "stop_conversation"); cbn; [| now left].
      destruct (dict_lookup result "reason"); cbn; now left. }
  destruct (dict_lookup result "stop_conversation") as [st |]; cbn; [| now left].
  destruct (truthy st); cbn.
  { destruct (dict_lookup result "goal_achieved"); cbn; [| now left].
    destruct (dict_lookup result "stop_conversation"); cbn; [| now left].
    destruct (dict_lookup result "reason"); cbn; now left. }
  destruct (first_equal goal (goals c) 0) as [i |]; cbn.
  2:{ destruct (dict_lookup result "goal_achieved"); cbn; [| now left].
      destruct (dict_lookup result "stop_conversation"); cbn; [| now left].
      destruct (dict_lookup result "reason"); cbn; now left. }
  right. rewrite goals_set_goals.
  destruct (delete i (goals c)) eqn:Ed; cbn;
    repeat match goal with
           | |- context [dict_lookup ?d ?k] => destruct (dict_lookup d k); cbn
           end;
    now rewrite ?Ed.
Qed.

Lemma terminates_analyze_conversation goal reasoning :
  terminates (analyze_conversation C goal reasoning).
Proof. unfold analyze_conversation. terminates_tac. Qed.

(** X15.  [analyze_conversation] changes nothing of the Conversation but
    its goal list, from which it removes at most one goal: the first one
    whose text is the judged goal.  It raises only before its [try]
    block, when the observer or the rendering of the history raises, and
    then nothing has changed; a failing language model gives the fallback
    judgement (False, False, ...) and leaves the goal list as it is. *)
Theorem analyze_conversation_goals (goal reasoning : string) (w : World Env) :
  let r := analyze_conversation C goal reasoning w in
  (conv r.2 = conv w \/
   conv r.2 = set_goals (without_goal goal (goals (conv w))) (conv w)) /\
  length (goals (conv r.2)) <= length (goals (conv w)) /\
  (forall e,
      r.1 = Raise e ->
      conv r.2 = conv w /\ trace r.2 = trace w /\
      ((get_message_history C None (env w)).1 = inl e \/
       exists msgs e1,
         get_message_history C None (env w) = (inr msgs, e1) /\
         format_history C msgs = Raise e)) /\
  (forall msgs e1 text ex e2,
      get_message_history C None (env w) = (inr msgs, e1) ->
      format_history C msgs = Ret text ->
      generate_response_async C "conversation_goal"
        (judge_prompt C goal reasoning text) e1 = (inl ex, e2) ->
      r.1 = Ret judge_fallback /\ conv r.2 = conv w) /\
  r.1 <> OutOfFuel.
Proof.
  intros r. subst r.
  pose proof (analyze_conversation_conv goal reasoning w) as Hconv.
  split; [exact Hconv | split; [| split; [| split]]].
  - destruct Hconv as [-> | ->]; [lia |].
    rewrite goals_set_goals. unfold without_goal.
    destruct (first_equal goal (goals (conv w)) 0); [apply delete_length_le | lia].
  - clear Hconv. unfold analyze_conversation.
    destruct (get_message_history C None (env w)) as [[ex | msgs] e1] eqn:Eh;
      rewrite bind_unfold, (call_eq _ _ _ _ Eh); cbn [of_result].
    { intros e [= <-]. cbn. auto. }
    rewrite bind_unfold. unfold lift at 1.
    destruct (format_history C msgs) as [text | ex |] eqn:Ef; cbv beta iota.
    + intros e H. exfalso. revert H. apply try_except_no_raise.
      intros e0 s e'. discriminate.
    + intros e [= <-]. cbn. repeat split. right. eauto.
    + discriminate.
  - intros msgs e1 text ex e2 Hh Hf Hl. clear Hconv.
    assert (E : exists w',
               analyze_conversation C goal reasoning w = (Ret judge_fallback, w') /\
               conv w' = conv w).
    { unfold analyze_conversation.
      rewrite bind_unfold, (call_eq _ _ _ _ Hh). cbn [of_result].
      rewrite bind_unfold. unfold lift at 1. rewrite Hf.
      fold (judge_prompt C goal reasoning text).
      unfold try_except, llm. unfold_monad.
      cbn [trace set_env set_trace env conv waiting_start_time].
      erewrite call_eq by exact Hl. cbn. eauto. }
    destruct E as (w' & -> & Hc). auto.
  - apply terminates_analyze_conversation.
Qed.


Lemma state_analyze_conversation g r :
  preserves (observe state) (analyze_conversation C g r).
Proof.
  unfold analyze_conversation.
  preserves_tac; try (apply keeps_update_self; intros c; destruct c; reflexivity).
Qed.

(** X16.  Once [analyze_conversation] has returned a judgement, the
    judge_conversation branch stores it.  If its stop flag is truthy the
    Conversation is stopped, whatever the achieved flag says; if it is
    not, the branch returns normally in state JUDGING, the Conversation
    continues as before and no removal is asked for. *)
Theorem judge_conversation_stop (w w1 : World Env) (a s r : pyval) :
  analyze_conversation C (current_goal (conv w)) (goal_reasoning (conv w))
    (set_conv (set_state JUDGING (conv w)) w) = (Ret (a, s, r), w1) ->
  let res := handle_judge_conversation C w in
  goal_achieved (conv res.2) = a /\
  stop_conversation (conv res.2) = s /\
  reason (conv res.2) = r /\
  (truthy s = true ->
   should_continue (conv res.2) = false /\
   state (conv res.2) = ENDED /\
   removals res.2 = removals w ++ [RemoveInstance (stream_id (conv w))]) /\
  (truthy s = false ->
   res.1 = Ret tt /\
   state (conv res.2) = JUDGING /\
   should_continue (conv res.2) = should_continue (conv w) /\
   removals res.2 = removals w).
Proof.
  intros Han res. subst res.
  pose proof (stand_analyze_conversation C (current_goal (conv w))
                (goal_reasoning (conv w))
                (set_conv (set_state JUDGING (conv w)) w)) as Hst.
  pose proof (state_analyze_conversation (current_goal (conv w))
                (goal_reasoning (conv w))
                (set_conv (set_state JUDGING (conv w)) w)) as Hs1.
  rewrite Han in Hst, Hs1. unfold standing, observe in Hst, Hs1.
  cbn [snd conv set_conv] in Hst, Hs1.
  assert (Hc : should_continue (conv w1) = should_continue (conv w) /\
               stream_id (conv w1) = stream_id (conv w) /\
               removals w1 = removals w /\ state (conv w1) = JUDGING).
  { injection Hst as H1 H2 H3. rewrite H1, H2, H3, Hs1.
    unfold removals. cbn. now destruct (conv w). }
  destruct Hc as (Hc1 & Hc2 & Hc3 & Hc4). clear Hst Hs1.
  unfold handle_judge_conversation. unfold_monad. cbn [conv set_conv].
  assert (Hg : current_goal (set_state JUDGING (conv w)) = current_goal (conv w))
    by now destruct (conv w).
  assert (Hre : goal_reasoning (set_state JUDGING (conv w)) = goal_reasoning (conv w))
    by now destruct (conv w).
  rewrite Hg, Hre, Han. cbn [conv set_conv].
  assert (J : goal_achieved (set_judgement (a, s, r) (conv w1)) = a)
    by now destruct (conv w1).
  assert (J' : stop_conversation (set_judgement (a, s, r) (conv w1)) = s)
    by now destruct (conv w1).
  rewrite J, J'.
  destruct (truthy s) eqn:Hs.
  - rewrite andb_false_r. cbn [conv set_conv]. rewrite J', Hs.
    unfold _stop_conversation, call. unfold_monad. cbn.
    destruct (remove_instance C _ _). cbn.
    unfold removals in *. cbn. rewrite List.filter_app, Hc3. cbn.
    rewrite <- Hc2.
    repeat split; try discriminate; now destruct (conv w1).
  - cbn [negb]. rewrite andb_true_r.
    destruct (truthy a).
    + destruct (get_alternative_goals _) as [| g alt]; cbn.
      * rewrite J', Hs. cbn. rewrite <- Hc1, <- Hc4.
        repeat split; try discriminate; now destruct (conv w1).
      * rewrite <- Hc1, <- Hc4.
        repeat split; try discriminate; now destruct (conv w1).
    + cbn. rewrite J', Hs. cbn. rewrite <- Hc1, <- Hc4.
      repeat split; try discriminate; now destruct (conv w1).
Qed.

End Judging.

(** The language model fails: the fallback judgement. *)
Lemma analyze_conversation_goals_witness :
  (analyze_conversation (Fake.collaborators Fake.achieved_json) "A" "r"
     Fake.world_llm_fails).1 = Ret judge_fallback.
Proof.
  destruct (analyze_conversation_goals (Fake.collaborators Fake.achieved_json)
              "A" "r" Fake.world_llm_fails) as (_ & _ & _ & H & _).
  edestruct H as [E _].
  - reflexivity.
  - reflexivity.
  - reflexivity.
  - exact E.
Defined.

(** The judgement asks to stop: the Conversation is stopped. *)
Lemma judge_conversation_stop_witness :
  let res := handle_judge_conversation (Fake.collaborators Fake.stop_json)
               Fake.world0 in
  should_continue (conv res.2) = false /\ state (conv res.2) = ENDED.
Proof.
  intros res.
  edestruct (judge_conversation_stop (Fake.collaborators Fake.stop_json)
               Fake.world0) as (_ & _ & _ & H & _).
  - vm_compute. reflexivity.
  - destruct (H eq_refl) as (S1 & S2 & _). auto.
Defined.

(** ** Knowledge, the send path and the reply generator *)

Ltac same_run Ec Ef :=
  let Hh' := fresh in
  let Hc' := fresh in
  intros ? ? ? ? ? ? ? Hh' Hc' Hf';
  injection Hh' as <- <-;
  unfold set_conv in Ec, Hc'; cbn in Ec, Hc'; rewrite Ec in Hc';
  injection Hc' as <- <-;
  rewrite Ef in Hf'.

Section Knowledge.

Context {Env : Type} (C : Collaborators Env).

(** X17.  The fetch_knowledge branch sets the state to GENERATING and
    touches the knowledge cache only after a successful fetch whose text
    is not the marker for "nothing found": the text is then stored under
    its source, replacing what was stored there, and the other entries
    stay. *)
Theorem fetch_knowledge_cache (w : World Env) :
  let r := handle_fetch_knowledge C w in
  state (conv r.2) = GENERATING /\
  (conv r.2 = set_state GENERATING (conv w) \/
   exists knowledge sources,
     knowledge <> nothing_found /\
     r.1 = Ret tt /\
     conv r.2 =
       set_knowledge_cache (<[sources := knowledge]> (knowledge_cache (conv w)))
         (set_state GENERATING (conv w))) /\
  (forall msgs e1 converted w1 knowledge sources e2,
      get_message_history C (Some 30%nat) (env w) = (inr msgs, e1) ->
      convert_all C msgs (set_env e1 (set_conv (set_state GENERATING (conv w)) w))
        = (Ret converted, w1) ->
      knowledge_fetch C (current_goal (conv w)) converted (env w1)
        = (inr (knowledge, sources), e2) ->
      r.1 = Ret tt /\
      (knowledge <> nothing_found ->
       knowledge_cache (conv r.2) !! sources = Some knowledge /\
       forall other, other <> sources ->
         knowledge_cache (conv r.2) !! other = knowledge_cache (conv w) !! other) /\
      (knowledge = nothing_found ->
       knowledge_cache (conv r.2) = knowledge_cache (conv w))).
Proof.
  intros r. assert (Er : r = handle_fetch_knowledge C w) by reflexivity.
  clearbody r. unfold handle_fetch_knowledge in Er.
  rewrite bind_unfold in Er.
  change (update_self (set_state GENERATING) w)
    with (Ret tt, set_conv (set_state GENERATING (conv w)) w) in Er.
  cbv beta iota in Er. set (w0 := set_conv (set_state GENERATING (conv w)) w) in *.
  assert (Hg : current_goal (conv w0) = current_goal (conv w))
    by (subst w0; cbn; now destruct (conv w)).
  assert (Hk : knowledge_cache (set_state GENERATING (conv w)) = knowledge_cache (conv w))
    by now destruct (conv w).
  assert (Hs : state (set_state GENERATING (conv w)) = GENERATING)
    by now destruct (conv w).
  rewrite bind_unfold in Er.
  destruct (get_message_history C (Some 30%nat) (env w)) as [[ex | msgs] e1] eqn:Eh;
    rewrite (call_eq (get_message_history C (Some 30%nat)) w0 _ _ Eh) in Er;
    cbn [of_result] in Er.
  { subst r. cbn. split; [exact Hs | split; [now left | discriminate]]. }
  rewrite bind_unfold in Er. unfold get_self at 1, gets in Er.
  cbn [conv set_env] in Er. rewrite Hg in Er. rewrite bind_unfold in Er.
  pose proof (keeps_convert_all C (fun c => c) msgs (set_env e1 w0)) as Kc.
  unfold observe in Kc. cbn [conv set_env] in Kc.
  destruct (convert_all C msgs (set_env e1 w0)) as [[converted | ex |] w1] eqn:Ec;
    cbn [snd] in Kc.
  2,3: subst r; cbn; rewrite Kc; (split; [exact Hs | split; [now left |]]);
    intros ? ? ? ? ? ? ? [= <- <-] H; subst w0; congruence.
  rewrite bind_unfold in Er.
  destruct (knowledge_fetch C (current_goal (conv w)) converted (env w1))
    as [[ex | [knowledge sources]] e2] eqn:Ef;
    rewrite (call_eq _ w1 _ _ Ef) in Er; cbn [of_result] in Er.
  { subst r. cbn. rewrite Kc. split; [exact Hs | split; [now left |]].
    same_run Ec Ef. discriminate. }
  destruct (String.eqb_spec knowledge "未找到相关知识") as [-> | Hne].
  - subst r. cbn. rewrite Kc. split; [exact Hs | split; [now left |]].
    same_run Ec Ef. injection Hf' as <- <- <-.
    split; [reflexivity | split; [intros H; now destruct H | intros _; exact Hk]].
  - unfold update_self, modify in Er. cbn [fst snd conv set_conv set_env] in Er.
    subst r. cbn [fst snd conv set_conv set_env]. rewrite Kc.
    split; [now destruct (conv w) | split].
    + right. exists knowledge, sources.
      split; [exact Hne | split; [reflexivity | now destruct (conv w)]].
    + same_run Ec Ef. injection Hf' as <- <- <-.
      split; [reflexivity | split; [intros _ | intros H; now destruct Hne]].
      destruct (conv w); cbn. split.
      * apply lookup_insert_eq.
      * intros other Ho. now apply lookup_insert_ne.
Qed.

End Knowledge.

Section SendPathMore.

Context {Env : Type} (C : Collaborators Env).

Lemma terminates_send_message stream content r :
  terminates (send_message C stream content r).
Proof. unfold send_message. terminates_tac. Qed.

Lemma terminates_convert_to_message m : terminates (_convert_to_message C m).
Proof. unfold _convert_to_message. terminates_tac. Qed.

Lemma terminates_send_reply : terminates (_send_reply C).
Proof.
  unfold _send_reply.
  pose proof terminates_send_message. pose proof terminates_convert_to_message.
  terminates_tac.
Qed.

(** The [try] block of [_send_reply] with its handler: it returns, and
    all it changes of the Conversation is the state, which it sets to
    ANALYZING. *)
Lemma send_attempt_result (B : M (World Env) unit) (w1 : World Env) :
  terminates B ->
  preserves (observe (fun c => c)) B ->
  let r :=
    try_except (B;; update_self (set_state ANALYZING))
      (fun e => log ERROR "发送消息失败";; update_self (set_state ANALYZING)) w1 in
  r.1 = Ret tt /\ conv r.2 = set_state ANALYZING (conv w1).
Proof.
  intros Ht Hp r. subst r. unfold try_except. unfold_monad.
  specialize (Ht w1). specialize (Hp w1). unfold observe in Hp.
  destruct (B w1) as [[[] | e |] w2]; cbn in *; try congruence.
  - now rewrite Hp.
  - now rewrite Hp.
Qed.

(** X18.  Once [_send_reply] is past its guards, that is, the reply is
    not empty, the observer has a prior message and that message has
    been converted, it returns normally and all it changes of the
    Conversation is the state, set to ANALYZING: whatever the sender, the
    update trigger and the wait for the update do.  [_send_reply] raises
    only when the observer or the conversion of the prior message
    raises. *)
Theorem send_reply_past_guards (w : World Env) :
  (forall e' m ms latest w1,
      generated_reply (conv w) <> "" ->
      get_message_history C (Some 1%nat) (env w) = (inr (m :: ms), e') ->
      _convert_to_message C m (set_env e' w) = (Ret latest, w1) ->
      (_send_reply C w).1 = Ret tt /\
      conv (_send_reply C w).2 = set_state ANALYZING (conv w)) /\
  (forall e,
      (_send_reply C w).1 = Raise e ->
      generated_reply (conv w) <> "" /\
      ((get_message_history C (Some 1%nat) (env w)).1 = inl e \/
       exists m ms e',
         get_message_history C (Some 1%nat) (env w) = (inr (m :: ms), e') /\
         (_convert_to_message C m (set_env e' w)).1 = Raise e)) /\
  (_send_reply C w).1 <> OutOfFuel.
Proof.
  assert (Past : forall e' m ms latest w1,
             generated_reply (conv w) <> "" ->
             get_message_history C (Some 1%nat) (env w) = (inr (m :: ms), e') ->
             _convert_to_message C m (set_env e' w) = (Ret latest, w1) ->
             (_send_reply C w).1 = Ret tt /\
             conv (_send_reply C w).2 = set_state ANALYZING (conv w)).
  { intros e' m ms latest w1 Hne Hh Hc.
    assert (Hc1 : conv w1 = conv w).
    { pose proof (keeps_convert_to_message C (fun c => c) m (set_env e' w)) as K.
      unfold observe in K. rewrite Hc in K. exact K. }
    apply String.eqb_neq in Hne.
    assert (E : _send_reply C w =
                try_except
                  ((send_message C (chat_stream (conv w)) (generated_reply (conv w))
                      (Some latest);;
                    do_trigger_update C;;
                    updated ← call (wait_for_update C);
                    (if negb updated then log WARNING "等待消息更新超时" else mret tt));;
                   update_self (set_state ANALYZING))
                  (fun e => log ERROR "发送消息失败";; update_self (set_state ANALYZING))
                  w1).
    { unfold _send_reply. rewrite bind_unfold.
      change (get_self generated_reply w) with (Ret (generated_reply (conv w)), w).
      cbv beta iota. rewrite Hne. rewrite bind_unfold, (call_eq _ _ _ _ Hh).
      cbn [of_result]. rewrite bind_unfold, Hc.
      unfold try_except. unfold_monad. rewrite Hc1.
      destruct (send_message C _ _ _ w1) as [[[] | ex |] w2]; try reflexivity.
      destruct (do_trigger_update C w2) as [[[] | ex |] w3]; try reflexivity.
      destruct (call (wait_for_update C) w3) as [[b | ex |] w4]; reflexivity. }
    rewrite E.
    destruct (send_attempt_result
                (send_message C (chat_stream (conv w)) (generated_reply (conv w))
                   (Some latest);;
                 do_trigger_update C;;
                 updated ← call (wait_for_update C);
                 (if negb updated then log WARNING "等待消息更新超时" else mret tt))
                w1) as [H1 H2].
    - pose proof terminates_send_message. terminates_tac.
    - preserves_tac.
    - rewrite H1, H2, Hc1. auto. }
  split; [exact Past | split].
  - intros e He.
    destruct (String.eqb_spec (generated_reply (conv w)) "") as [Hempty | Hne].
    { exfalso. revert He. unfold _send_reply. unfold_monad. cbn.
      apply String.eqb_eq in Hempty. rewrite Hempty. discriminate. }
    split; [exact Hne |].
    destruct (get_message_history C (Some 1%nat) (env w))
      as [[ex | [| m ms]] e'] eqn:Hh.
    + left. revert He. unfold _send_reply. unfold_monad. cbn.
      apply String.eqb_neq in Hne. rewrite Hne.
      rewrite (call_eq _ _ _ _ Hh). cbn. now intros [= <-].
    + exfalso. revert He. unfold _send_reply. unfold_monad. cbn.
      apply String.eqb_neq in Hne. rewrite Hne.
      rewrite (call_eq _ _ _ _ Hh). cbn. discriminate.
    + right. exists m, ms, e'. split; [reflexivity |].
      destruct (_convert_to_message C m (set_env e' w)) as [[latest | ex |] w1] eqn:Hc.
      * destruct (Past _ _ _ _ _ Hne eq_refl Hc) as [H1 _]. congruence.
      * revert He. unfold _send_reply. rewrite bind_unfold.
        change (get_self generated_reply w) with (Ret (generated_reply (conv w)), w).
        cbv beta iota.
        apply String.eqb_neq in Hne. rewrite Hne.
        rewrite bind_unfold, (call_eq _ _ _ _ Hh). cbn [of_result].
        rewrite bind_unfold, Hc. cbn. now intros [= <-].
      * exfalso. now apply (terminates_convert_to_message m (set_env e' w)); rewrite Hc.
  - apply terminates_send_reply.
Qed.

End SendPathMore.

Ltac unfold_monad_in H :=
  cbv [mbind M_bind mret M_ret gets modify get_self update_self lift raise
       emit log] in H.

Section Generate.

Context {Env : Type} (C : Collaborators Env).

(** X19.  Once the update has been triggered and the history rendered,
    [generate] returns: the answer of the language model, or the fixed
    apology when the model fails.  It calls the model exactly once, with
    a prompt in which the argument [chat_history] plays no part, and
    leaves the Conversation as it is. *)
Theorem generate_answer (goal : string) (chat_history knowledge_cache previous_reply : genarg)
    (w : World Env) (e1 e2 e3 : Env) (b : bool) (msgs : list pydict) (text : string) :
  trigger_update C (env w) = (inr tt, e1) ->
  wait_for_update C e1 = (inr b, e2) ->
  get_message_history C (Some 20%nat) e2 = (inr msgs, e3) ->
  format_history C msgs = Ret text ->
  let prompt := reply_prompt C goal knowledge_cache previous_reply text in
  let r := generate C goal chat_history knowledge_cache previous_reply w in
  r.1 = Ret (match (generate_response_async C "reply_generation" prompt e3).1 with
             | inr content => content
             | inl _ => apology
             end) /\
  llm_calls r.2 = llm_calls w ++ [LLMCall "reply_generation" prompt] /\
  conv r.2 = conv w.
Proof.
  intros Ht Hw Hh Hf prompt r.
  assert (Er : r = generate C goal chat_history knowledge_cache previous_reply w)
    by reflexivity.
  clearbody r. unfold generate, do_trigger_update in Er.
  fold (reply_prompt C goal knowledge_cache previous_reply) in Er.
  unfold try_except, llm in Er. unfold_monad_in Er.
  cbn [trace set_env set_trace env conv waiting_start_time] in Er.
  erewrite call_eq in Er by exact Ht. cbn [of_result] in Er.
  erewrite call_eq in Er by exact Hw. cbn [of_result] in Er.
  destruct b; cbn in Er.
  - erewrite call_eq in Er by exact Hh. cbn [of_result] in Er.
    rewrite Hf in Er. fold prompt in Er.
    cbn [trace set_env set_trace env conv waiting_start_time] in Er.
    destruct (generate_response_async C "reply_generation" prompt e3)
      as [[ex | content] e4] eqn:El;
      erewrite call_eq in Er by exact El; cbn in Er; subst r; cbn;
      (split; [reflexivity | split; [| reflexivity]]);
      unfold llm_calls; cbn; rewrite !List.filter_app; cbn;
      now rewrite ?app_nil_r, <- ?app_assoc.
  - erewrite call_eq in Er by exact Hh. cbn [of_result] in Er.
    rewrite Hf in Er. fold prompt in Er.
    cbn [trace set_env set_trace env conv waiting_start_time] in Er.
    destruct (generate_response_async C "reply_generation" prompt e3)
      as [[ex | content] e4] eqn:El;
      erewrite call_eq in Er by exact El; cbn in Er; subst r; cbn;
      (split; [reflexivity | split; [| reflexivity]]);
      unfold llm_calls; cbn; rewrite !List.filter_app; cbn;
      now rewrite ?app_nil_r, <- ?app_assoc.
Qed.

End Generate.

(** The fake fetcher finds nothing: the cache is as before. *)
Lemma fetch_knowledge_cache_witness :
  knowledge_cache
    (conv (handle_fetch_knowledge (Fake.collaborators Fake.no_json) Fake.world0).2)
  = knowledge_cache (conv Fake.world0).
Proof.
  destruct (fetch_knowledge_cache (Fake.collaborators Fake.no_json) Fake.world0)
    as (_ & _ & H).
  edestruct H as (_ & _ & E).
  - reflexivity.
  - vm_compute. reflexivity.
  - reflexivity.
  - apply E. reflexivity.
Defined.

(** The transport refuses the connection: the send path returns in state ANALYZING. *)
Lemma send_reply_past_guards_witness :
  (_send_reply (Fake.collaborators Fake.no_json) Fake.world_send_fails).1 = Ret tt /\
  conv (_send_reply (Fake.collaborators Fake.no_json) Fake.world_send_fails).2 =
    set_state ANALYZING (conv Fake.world_send_fails).
Proof.
  destruct (send_reply_past_guards (Fake.collaborators Fake.no_json)
              Fake.world_send_fails) as (H & _).
  eapply H.
  - discriminate.
  - reflexivity.
  - vm_compute. reflexivity.
Defined.

(** The language model fails: the apology. *)
Lemma generate_answer_witness :
  (generate (Fake.collaborators Fake.no_json) "A" (ArgStr "m") (ArgList [])
     (ArgDict ∅) Fake.world_llm_fails).1 = Ret apology.
Proof.
  edestruct (generate_answer (Fake.collaborators Fake.no_json) "A" (ArgStr "m")
               (ArgList []) (ArgDict ∅) Fake.world_llm_fails) as (E & _).
  - reflexivity.
  - reflexivity.
  - reflexivity.
  - reflexivity.
  - exact E.
Defined.

(** ** The cost in calls to the language model *)

#[export] Hint Resolve quiet_log quiet_call quiet_get_self quiet_update_self
  quiet_do_trigger_update quiet_convert_to_message quiet_send_message
  quiet_send_reply : keeps.
#[export] Hint Extern 1 (preserves llm_calls (emit _)) =>
  apply quiet_emit; reflexivity : keeps.

Section Budget.

Context {Env : Type} (C : Collaborators Env).

Lemma llm_bound_bind_l {A B} (n : nat) (m : M (World Env) A)
    (k : A -> M (World Env) B) :
  preserves llm_calls m -> (forall x, llm_bound n (k x)) -> llm_bound n (m ≫= k).
Proof.
  intros Hm Hk. apply (llm_bound_bind 0 n); [now apply llm_bound_quiet | exact Hk].
Qed.

Lemma llm_bound_bind_r {A B} (n : nat) (m : M (World Env) A)
    (k : A -> M (World Env) B) :
  llm_bound n m -> (forall x, preserves llm_calls (k x)) -> llm_bound n (m ≫= k).
Proof.
  intros Hm Hk. apply (llm_bound_weaken (n + 0)); [lia |].
  apply llm_bound_bind; [exact Hm | intros x; now apply llm_bound_quiet].
Qed.

Lemma llm_bound_try_l {A} (n : nat) (m : M (World Env) A)
    (h : exn -> M (World Env) A) :
  llm_bound n m -> (forall e, preserves llm_calls (h e)) ->
  llm_bound n (try_except m h).
Proof.
  intros Hm Hh. apply (llm_bound_weaken (n + 0)); [lia |].
  apply llm_bound_try; [exact Hm | intros e; now apply llm_bound_quiet].
Qed.

Lemma quiet_now : preserves llm_calls (now C).
Proof. intros w. reflexivity. Qed.

Lemma quiet_sleep s : preserves llm_calls (sleep C s).
Proof.
  unfold sleep. apply preserves_bind; [now apply quiet_emit |].
  intros _ w. reflexivity.
Qed.

Hint Resolve quiet_now quiet_sleep : keeps.

Lemma quiet_convert_all ms : preserves llm_calls (convert_all C ms).
Proof. induction ms; simpl; preserves_tac. Qed.

Lemma quiet_check_reply r g : preserves llm_calls (check_reply C r g).
Proof. unfold check_reply. preserves_tac. Qed.

Lemma quiet_wait_loop fuel t : preserves llm_calls (wait_loop C fuel t).
Proof. induction fuel; simpl; preserves_tac. Qed.

Hint Resolve quiet_convert_all quiet_check_reply quiet_wait_loop : keeps.

Lemma quiet_wait fuel : preserves llm_calls (wait C fuel).
Proof. unfold wait. preserves_tac; intros w; reflexivity. Qed.

Lemma quiet_send_timeout_message : preserves llm_calls (_send_timeout_message C).
Proof. unfold _send_timeout_message. preserves_tac. Qed.

Lemma quiet_stop_conversation : preserves llm_calls (_stop_conversation C).
Proof. unfold _stop_conversation. preserves_tac. Qed.

Lemma quiet_record_action a r : preserves llm_calls (record_action C a r).
Proof. unfold record_action. preserves_tac; intros w; reflexivity. Qed.

Lemma quiet_plan_prompt g m r h d : preserves llm_calls (plan_prompt C g m r h d).
Proof. unfold plan_prompt, decision_info_text. preserves_tac. Qed.

Hint Resolve quiet_wait quiet_send_timeout_message quiet_stop_conversation
  quiet_record_action quiet_plan_prompt : keeps.

Lemma quiet_handle_fetch_knowledge : preserves llm_calls (handle_fetch_knowledge C).
Proof. unfold handle_fetch_knowledge. preserves_tac. Qed.

Lemma quiet_handle_waiting s fuel : preserves llm_calls (handle_waiting C s fuel).
Proof. unfold handle_waiting. preserves_tac. Qed.

Ltac budget_tac :=
  repeat first
    [ solve [apply llm_bound_quiet; preserves_tac]
    | apply llm_bound_llm
    | apply llm_bound_bind_l; [solve [preserves_tac] | intros ?]
    | apply llm_bound_bind_r; [| intros ?; solve [preserves_tac]]
    | apply llm_bound_try_l; [| intros ?; solve [preserves_tac]]
    | match goal with
      | |- llm_bound _ (match ?x with _ => _ end) => destruct x
      end ].

Lemma llm_bound_plan g m r h d : llm_bound 1 (plan C g m r h d).
Proof. unfold plan, plan_decide. budget_tac. Qed.

Lemma llm_bound_generate g a b c : llm_bound 1 (generate C g a b c).
Proof. unfold generate. budget_tac. Qed.

Lemma llm_bound_analyze_conversation g r : llm_bound 1 (analyze_conversation C g r).
Proof. unfold analyze_conversation. budget_tac. Qed.

Lemma llm_bound_handle_direct_reply : llm_bound 1 (handle_direct_reply C).
Proof.
  unfold handle_direct_reply, generate_candidate.
  pose proof llm_bound_generate. budget_tac.
Qed.

Lemma llm_bound_handle_judge_conversation : llm_bound 1 (handle_judge_conversation C).
Proof.
  unfold handle_judge_conversation.
  apply llm_bound_bind_l; [solve [preserves_tac] | intros ?].
  apply llm_bound_bind_l; [solve [preserves_tac] | intros ?].
  apply llm_bound_bind_l; [solve [preserves_tac] | intros ?].
  apply llm_bound_bind_r; [apply llm_bound_analyze_conversation |].
  intros j. preserves_tac.
Qed.

Lemma llm_bound_handle_rethink_goal : llm_bound 3 (handle_rethink_goal C).
Proof.
  unfold handle_rethink_goal, analyze_goal.
  apply llm_bound_bind_l; [solve [preserves_tac] | intros ?].
  apply llm_bound_bind_r; [apply (llm_bound_analyze_goal_loop C 0 3) |].
  intros g. preserves_tac.
Qed.

Lemma llm_bound_handle_action fuel action reason :
  llm_bound (llm_budget action) (_handle_action C fuel action reason).
Proof.
  unfold _handle_action, llm_budget.
  apply llm_bound_bind_l; [apply quiet_record_action | intros _].
  destruct (String.eqb action "direct_reply") eqn:E1.
  { apply String.eqb_eq in E1. subst action. apply llm_bound_handle_direct_reply. }
  destruct (String.eqb action "fetch_knowledge") eqn:E2.
  { apply String.eqb_eq in E2. subst action.
    apply llm_bound_quiet, quiet_handle_fetch_knowledge. }
  destruct (String.eqb action "rethink_goal") eqn:E3.
  { apply llm_bound_handle_rethink_goal. }
  destruct (String.eqb action "judge_conversation") eqn:E4.
  { apply llm_bound_handle_judge_conversation. }
  destruct (String.eqb action "listening");
    apply llm_bound_quiet, quiet_handle_waiting.
Qed.

Lemma llm_budget_le (action : string) : llm_budget action <= 3.
Proof.
  unfold llm_budget.
  repeat match goal with |- context [if ?b then _ else _] => destruct b end; lia.
Qed.

(** X20.  The cost of the loop in calls to the language model.  The
    dispatch of an action calls the model at most three times for
    rethink_goal, at most once for direct_reply and for
    judge_conversation, and never for the other actions; one pass through
    the body of the loop, planning included, calls it at most four
    times. *)
Theorem loop_llm_budget (fuel : nat) (w : World Env) :
  (forall action reason,
      exists calls,
        llm_calls (_handle_action C fuel action reason w).2 = llm_calls w ++ calls /\
        length calls <= llm_budget action) /\
  (exists calls,
      llm_calls (loop_iteration C fuel w).2 = llm_calls w ++ calls /\
      length calls <= 4).
Proof.
  split.
  - intros action reason. apply llm_bound_handle_action.
  - revert w. change (llm_bound 4 (loop_iteration C fuel)).
    unfold loop_iteration.
    repeat (apply llm_bound_bind_l; [solve [preserves_tac] | intros ?]).
    apply (llm_bound_bind 1 3); [apply llm_bound_plan |].
    intros [action reason].
    apply llm_bound_bind_r; [| intros _; preserves_tac].
    apply (llm_bound_weaken (llm_budget action)); [apply llm_budget_le |].
    apply llm_bound_handle_action.
Qed.

End Budget.

(** ** What is never sent *)

Section Seen.

Context {Env : Type} (C : Collaborators Env) (p : event -> bool).

Lemma seen_emit (e : event) : p e = false -> preserves (seen p) (emit (Env := Env) e).
Proof.
  intros H w. unfold seen. cbn. rewrite List.filter_app. cbn.
  rewrite H. apply app_nil_r.
Qed.

Lemma seen_call {A} (g : Env -> result A * Env) : preserves (seen p) (call g).
Proof. intros w. unfold call. destruct (g (env w)). reflexivity. Qed.

Lemma seen_get_self {A} (g : Conversation -> A) :
  preserves (seen p) (get_self (Env := Env) g).
Proof. intros w. reflexivity. Qed.

Lemma seen_update_self (g : Conversation -> Conversation) :
  preserves (seen p) (update_self (Env := Env) g).
Proof. intros w. reflexivity. Qed.

Lemma seen_now : preserves (seen p) (now C).
Proof. intros w. reflexivity. Qed.

Lemma seen_on_decision_info {A} (m : M DecisionInfo A) :
  preserves (seen p) (on_decision_info (Env := Env) m).
Proof.
  intros w. unfold on_decision_info. now destruct (m (decision_info (conv w))).
Qed.

Lemma seen_elem (w w' : World Env) (e : event) :
  seen p w' = seen p w -> e ∈ trace w' -> p e = true -> e ∈ trace w.
Proof.
  intros H Hin Hp. apply list_elem_of_In. apply list_elem_of_In in Hin.
  assert (K : In e (seen p w')) by (apply List.filter_In; auto).
  rewrite H in K. now apply List.filter_In in K.
Qed.

End Seen.

#[export] Hint Resolve seen_call seen_get_self seen_update_self seen_now
  seen_on_decision_info : keeps.
#[export] Hint Extern 1 (preserves (seen _) (emit _)) =>
  apply seen_emit; reflexivity : keeps.
#[export] Hint Extern 1 (preserves (seen _) (log _ _)) =>
  apply seen_emit; reflexivity : keeps.

Section Inward.

Context {Env : Type} (C : Collaborators Env).

Lemma inward_do_trigger_update : preserves (seen outward) (do_trigger_update C).
Proof. unfold do_trigger_update. preserves_tac. Qed.

(** X21.  [handle_notification] only writes to the log and asks the
    observer for an update: it never calls the language model, sends or
    stores a message, asks for a removal or sleeps. *)
Theorem handle_notification_is_inward (notification : option Notification)
    (w : World Env) (e : event) :
  e ∈ trace (handle_notification C notification w).2 ->
  e ∈ trace w \/ e = TriggerUpdate \/ exists lvl msg, e = Log lvl msg.
Proof.
  intros Hin.
  assert (K : preserves (seen outward) (handle_notification C notification)).
  { unfold handle_notification. pose proof inward_do_trigger_update. preserves_tac. }
  destruct (outward e) eqn:E.
  - left. exact (seen_elem outward _ _ e (K w) Hin E).
  - right. destruct e; try discriminate; eauto.
Qed.

End Inward.

Section NeverSends.

Context {Env : Type} (C : Collaborators Env) (text : string).

Lemma foreign_sleep s : preserves (seen (foreign_send text)) (sleep C s).
Proof.
  unfold sleep. apply preserves_bind; [now apply seen_emit |].
  intros _ w. reflexivity.
Qed.

Lemma foreign_do_trigger_update :
  preserves (seen (foreign_send text)) (do_trigger_update C).
Proof. unfold do_trigger_update. preserves_tac. Qed.

Lemma foreign_llm rt p : preserves (seen (foreign_send text)) (llm C rt p).
Proof. unfold llm. preserves_tac. Qed.

Hint Resolve foreign_sleep foreign_do_trigger_update foreign_llm : keeps.

Lemma foreign_convert_to_message m :
  preserves (seen (foreign_send text)) (_convert_to_message C m).
Proof. unfold _convert_to_message. preserves_tac. Qed.

Lemma foreign_send_message stream r :
  preserves (seen (foreign_send text)) (send_message C stream text r).
Proof.
  unfold send_message. preserves_tac.
  apply seen_emit. cbn. now rewrite String.eqb_refl.
Qed.

Hint Resolve foreign_convert_to_message foreign_send_message : keeps.

Lemma foreign_convert_all ms : preserves (seen (foreign_send text)) (convert_all C ms).
Proof. induction ms; simpl; preserves_tac. Qed.

Lemma foreign_wait_loop fuel t :
  preserves (seen (foreign_send text)) (wait_loop C fuel t).
Proof. induction fuel; simpl; preserves_tac. Qed.

Hint Resolve foreign_convert_all foreign_wait_loop : keeps.

Lemma foreign_wait fuel : preserves (seen (foreign_send text)) (wait C fuel).
Proof. unfold wait. preserves_tac; intros w; reflexivity. Qed.

Lemma foreign_stop_conversation :
  preserves (seen (foreign_send text)) (_stop_conversation C).
Proof. unfold _stop_conversation. preserves_tac. Qed.

Lemma foreign_analyze_goal_attempt n :
  preserves (seen (foreign_send text)) (analyze_goal_attempt C n).
Proof. unfold analyze_goal_attempt. preserves_tac. Qed.

Hint Resolve foreign_wait foreign_stop_conversation foreign_analyze_goal_attempt : keeps.

Lemma foreign_analyze_goal_loop n k :
  preserves (seen (foreign_send text)) (analyze_goal_loop C n k).
Proof. revert n. induction k; intros n; simpl; preserves_tac. Qed.

Hint Resolve foreign_analyze_goal_loop : keeps.

Lemma foreign_analyze_conversation g r :
  preserves (seen (foreign_send text)) (analyze_conversation C g r).
Proof. unfold analyze_conversation. preserves_tac. Qed.

Lemma foreign_record_action a r :
  preserves (seen (foreign_send text)) (record_action C a r).
Proof. unfold record_action. preserves_tac; intros w; reflexivity. Qed.

Hint Resolve foreign_analyze_conversation foreign_record_action : keeps.

Lemma foreign_handle_fetch_knowledge :
  preserves (seen (foreign_send text)) (handle_fetch_knowledge C).
Proof. unfold handle_fetch_knowledge. preserves_tac. Qed.

Lemma foreign_handle_rethink_goal :
  preserves (seen (foreign_send text)) (handle_rethink_goal C).
Proof. unfold handle_rethink_goal, analyze_goal. preserves_tac. Qed.

Lemma foreign_handle_judge_conversation :
  preserves (seen (foreign_send text)) (handle_judge_conversation C).
Proof. unfold handle_judge_conversation. preserves_tac. Qed.

End NeverSends.

Section Timeout.

Context {Env : Type} (C : Collaborators Env).

Lemma foreign_send_timeout_message :
  preserves (seen (foreign_send timeout_text)) (_send_timeout_message C).
Proof.
  unfold _send_timeout_message.
  pose proof (foreign_convert_to_message C timeout_text).
  pose proof (foreign_send_message C timeout_text).
  preserves_tac.
Qed.

Lemma foreign_handle_waiting s fuel :
  preserves (seen (foreign_send timeout_text)) (handle_waiting C s fuel).
Proof.
  unfold handle_waiting.
  pose proof (foreign_wait C timeout_text).
  pose proof (foreign_stop_conversation C timeout_text).
  pose proof foreign_send_timeout_message.
  preserves_tac.
Qed.

Lemma foreign_send_elem (w w' : World Env) (text content : string) r :
  seen (foreign_send text) w' = seen (foreign_send text) w ->
  SendMessage content r ∈ trace w' ->
  SendMessage content r ∈ trace w \/ content = text.
Proof.
  intros H Hin. destruct (String.eqb_spec content text) as [-> | Hne]; [now right |].
  left. apply (seen_elem (foreign_send text) w w' _ H Hin).
  cbn. apply String.eqb_neq in Hne. now rewrite Hne.
Qed.

(** X22.  Whatever is dispatched other than direct_reply, the only text
    that can be handed to the sender is the timeout notice. *)
Theorem handle_action_sends (fuel : nat) (action : string) (reason : pyval)
    (w : World Env) (content : string) (r : option Message) :
  action <> "direct_reply" ->
  SendMessage content r ∈ trace (_handle_action C fuel action reason w).2 ->
  SendMessage content r ∈ trace w \/ content = timeout_text.
Proof.
  intros Hne. apply foreign_send_elem.
  revert w. change (preserves (seen (foreign_send timeout_text))
                      (_handle_action C fuel action reason)).
  unfold _handle_action. apply String.eqb_neq in Hne. rewrite Hne.
  apply preserves_bind; [apply foreign_record_action | intros _].
  repeat match goal with
         | |- preserves _ (if ?b then _ else _) => destruct b
         end;
    auto using foreign_handle_fetch_knowledge, foreign_handle_rethink_goal,
      foreign_handle_judge_conversation, foreign_handle_waiting.
Qed.

Lemma send_timeout_message_returns (w : World Env) :
  (_send_timeout_message C w).1 = Ret tt.
Proof.
  unfold _send_timeout_message. apply try_except_returns.
  - pose proof (terminates_send_message C).
    pose proof (terminates_convert_to_message C). terminates_tac.
  - reflexivity.
Qed.

Lemma stop_conversation_conv (w : World Env) :
  conv (_stop_conversation C w).2 = set_state ENDED (set_should_continue false (conv w)).
Proof.
  unfold _stop_conversation, call. unfold_monad. cbn.
  now destruct (remove_instance C _ _).
Qed.

Lemma happened_emit (x e : event) :
  maintains (fun w : World Env => x ∈ trace w) (emit e).
Proof. intros w H. cbn. apply elem_of_app. now left. Qed.

Lemma happened_call {A} (x : event) (g : Env -> result A * Env) :
  maintains (fun w : World Env => x ∈ trace w) (call g).
Proof. intros w H. unfold call. now destruct (g (env w)) as [[ex | a] e']. Qed.

Lemma happened_update_self (x : event) (g : Conversation -> Conversation) :
  maintains (fun w : World Env => x ∈ trace w) (update_self g).
Proof. intros w H. exact H. Qed.

Lemma happened_stop_conversation (x : event) :
  maintains (fun w : World Env => x ∈ trace w) (_stop_conversation C).
Proof.
  unfold _stop_conversation.
  repeat first [ apply maintains_bind; [| intros ?]
               | apply happened_emit | apply happened_call
               | apply happened_update_self | apply maintains_gets ].
Qed.

(** [send_message] starts by taking the message over, whatever happens
    to it afterwards. *)
Lemma send_message_hands_over (stream : ChatStream) (content : string)
    (reply : option Message) (w : World Env) :
  SendMessage content reply ∈ trace (send_message C stream content reply w).2.
Proof.
  unfold send_message. rewrite bind_unfold.
  change (emit (SendMessage content reply) w)
    with (Ret tt, set_trace (trace w ++ [SendMessage content reply]) w).
  cbv beta iota.
  match goal with
  | |- _ ∈ trace (?m ?w1).2 =>
      assert (K : maintains (fun w : World Env => SendMessage content reply ∈ trace w) m)
  end.
  { apply maintains_bind; [apply happened_call | intros _].
    apply maintains_try.
    - destruct (api_urls C (platform stream)) as [ep |]; [| apply maintains_raise].
      destruct (String.eqb ep ""); [apply maintains_raise |].
      repeat first [ apply maintains_bind; [| intros ?]
                   | apply happened_emit | apply happened_call ].
    - intros e. apply maintains_bind; [apply happened_emit | intros _].
      apply maintains_raise. }
  apply K. cbn. apply elem_of_app. right. now apply list_elem_of_singleton.
Qed.

(** The timeout notice: with a prior message that converts, the notice
    is handed to the sender as a reply to that message. *)
Lemma send_timeout_message_hands_over (w w2 : World Env) (m : pydict)
    (ms : list pydict) (e' : Env) (latest : Message) :
  get_message_history C (Some 1%nat) (env w) = (inr (m :: ms), e') ->
  _convert_to_message C m (set_env e' w) = (Ret latest, w2) ->
  SendMessage timeout_text (Some latest) ∈ trace (_send_timeout_message C w).2.
Proof.
  intros Hh Hc. unfold _send_timeout_message, try_except.
  rewrite bind_unfold, (call_eq _ _ _ _ Hh). cbv beta iota delta [of_result].
  rewrite bind_unfold, Hc. cbv beta iota. rewrite bind_unfold.
  change (get_self chat_stream w2) with (Ret (chat_stream (conv w2)), w2).
  cbv beta iota.
  pose proof (send_message_hands_over (chat_stream (conv w2)) timeout_text
                (Some latest) w2) as K.
  destruct (send_message C (chat_stream (conv w2)) timeout_text (Some latest) w2)
    as [[[] | ex |] w3]; cbn in *; try exact K.
  apply elem_of_app. now left.
Qed.

(** X23.  The listening and wait branches.  When the Waiter reports a new
    message, the branch returns and only the state has changed.  When
    the Waiter times out, [_send_timeout_message] is run from the world
    the Waiter left and [_stop_conversation] from the world the notice
    left: the timeout notice is attempted (with a prior message that
    converts, it is handed to the sender as a reply to that message), and
    whether or not it could be sent the Conversation is stopped.  When
    the Waiter raises, so does the branch, and the Conversation is not
    stopped. *)
Theorem handle_waiting_outcomes (s : ConversationState) (fuel : nat) (w : World Env) :
  let w0 := set_conv (set_state s (conv w)) w in
  let r := handle_waiting C s fuel w in
  (forall w1,
      wait C fuel w0 = (Ret false, w1) ->
      r = (Ret tt, w1) /\ conv w1 = set_state s (conv w)) /\
  (forall w1,
      wait C fuel w0 = (Ret true, w1) ->
      r = _stop_conversation C (_send_timeout_message C w1).2 /\
      (forall m ms e' latest w2,
          get_message_history C (Some 1%nat) (env w1) = (inr (m :: ms), e') ->
          _convert_to_message C m (set_env e' w1) = (Ret latest, w2) ->
          SendMessage timeout_text (Some latest) ∈ trace r.2) /\
      conv r.2 = set_state ENDED (set_should_continue false (conv w)) /\
      removals r.2 = removals w ++ [RemoveInstance (stream_id (conv w))] /\
      r.1 <> OutOfFuel) /\
  (forall e w1,
      wait C fuel w0 = (Raise e, w1) ->
      r = (Raise e, w1) /\ conv w1 = set_state s (conv w)).
Proof.
  intros w0 r.
  assert (Er : r = (timed_out ← wait C fuel;
                    if (timed_out : bool)
                    then _send_timeout_message C;; _stop_conversation C
                    else mret tt) w0) by reflexivity.
  clearbody r. rewrite bind_unfold in Er.
  assert (Hw : conv (wait C fuel w0).2 = set_state s (conv w)).
  { pose proof (keeps_wait C (fun c => c) fuel w0) as K. exact K. }
  split; [| split].
  - intros w1 E. rewrite E in Er, Hw. subst r. auto.
  - intros w1 E. rewrite E in Er, Hw. cbn [snd] in Hw. cbv beta iota in Er.
    rewrite bind_unfold in Er.
    pose proof (send_timeout_message_returns w1) as Hret.
    pose proof (keeps_send_timeout_message C (fun c => c) w1) as Hkeep.
    pose proof (stand_send_timeout_message C w1) as Hstand.
    pose proof (stand_wait C fuel w0) as Hstand0. rewrite E in Hstand0.
    assert (Hsent : forall m ms e' latest w2,
               get_message_history C (Some 1%nat) (env w1) = (inr (m :: ms), e') ->
               _convert_to_message C m (set_env e' w1) = (Ret latest, w2) ->
               SendMessage timeout_text (Some latest)
                 ∈ trace (_send_timeout_message C w1).2).
    { intros m ms e' latest w2. apply send_timeout_message_hands_over. }
    destruct (_send_timeout_message C w1) as [[[] | e |] w2]; try discriminate.
    unfold observe in Hkeep. cbn in Hkeep, Hstand, Hstand0, Hsent.
    cbn [snd]. subst r.
    split; [reflexivity | split; [| split; [| split]]].
    + intros m ms e' latest w3 Hh Hc.
      apply (happened_stop_conversation _ w2). exact (Hsent m ms e' latest w3 Hh Hc).
    + rewrite stop_conversation_conv, Hkeep, Hw. now destruct (conv w).
    + destruct (stop_conversation_stops C w2) as (_ & _ & _ & ->).
      unfold standing in Hstand, Hstand0.
      injection Hstand as _ Hi Hr. injection Hstand0 as _ Hi0 Hr0.
      rewrite Hr, Hr0, Hi, Hi0. subst w0. unfold removals. cbn.
      now destruct (conv w).
    + unfold _stop_conversation.
      pose proof (@terminates_call Env). pose proof (@terminates_emit Env).
      assert (T : terminates (_stop_conversation C))
        by (unfold _stop_conversation; terminates_tac).
      apply T.
  - intros e w1 E. rewrite E in Er, Hw. subst r. auto.
Qed.

End Timeout.

(** No notification: an error is logged. *)
Lemma handle_notification_is_inward_witness :
  Log ERROR "收到无效的通知：notification 或 data 为空" ∈ trace Fake.world0 \/
  Log ERROR "收到无效的通知：notification 或 data 为空" = TriggerUpdate \/
  exists lvl msg, Log ERROR "收到无效的通知：notification 或 data 为空" = Log lvl msg.
Proof.
  apply (handle_notification_is_inward (Fake.collaborators Fake.no_json) None
           Fake.world0).
  cbn. apply elem_of_cons. now left.
Defined.

(** A wait that times out hands the timeout notice to the sender. *)
Lemma handle_action_sends_witness :
  SendMessage timeout_text
    (Some (mkMessage (PyStr "m1") (mkChatStream "qq") (PyFloat 990)
             (mkUserInfo (PyStr "u1") (PyStr "u1")) (PyStr "hello") (PyStr "")))
    ∈ trace Fake.world0 \/
  timeout_text = timeout_text.
Proof.
  apply (handle_action_sends (Fake.collaborators Fake.no_json) 302 "wait"
           (PyStr "idle") Fake.world0).
  - discriminate.
  - apply (list_elem_of_lookup_2 _ 301). vm_compute. reflexivity.
Defined.

(** With the fake clock and a silent observer the wait times out: the
    notice is handed to the sender as a reply to the last message, and
    the Conversation is stopped. *)
Lemma handle_waiting_outcomes_witness :
  let r := handle_waiting (Fake.collaborators Fake.no_json) WAITING 302
             Fake.world0 in
  SendMessage timeout_text
    (Some (mkMessage (PyStr "m1") (mkChatStream "qq") (PyFloat 990)
             (mkUserInfo (PyStr "u1") (PyStr "u1")) (PyStr "hello") (PyStr "")))
    ∈ trace r.2 /\
  conv r.2 = set_state ENDED (set_should_continue false (conv Fake.world0)).
Proof.
  intros r.
  destruct (handle_waiting_outcomes (Fake.collaborators Fake.no_json) WAITING 302
              Fake.world0) as (_ & H & _).
  edestruct H as (_ & Hs & E & _).
  - vm_compute. reflexivity.
  - split; [| exact E]. eapply Hs; reflexivity.
Defined.

Section TimeoutNotice.

Context {Env : Type} (C : Collaborators Env).

(** X24.  The timeout notice is a best effort: [_send_timeout_message]
    always returns normally and leaves the Conversation as it is.  With
    no prior message it does nothing; when the observer raises it only
    logs an error; and the only text it can hand to the sender is the
    timeout notice. *)
Theorem send_timeout_message_safe (w : World Env) :
  let r := _send_timeout_message C w in
  r.1 = Ret tt /\
  conv r.2 = conv w /\
  (forall e',
      get_message_history C (Some 1%nat) (env w) = (inr [], e') ->
      r.2 = set_env e' w) /\
  (forall ex e',
      get_message_history C (Some 1%nat) (env w) = (inl ex, e') ->
      r.2 = set_trace (trace w ++ [Log ERROR "发送超时消息失败"]) (set_env e' w)) /\
  (forall content reply,
      SendMessage content reply ∈ trace r.2 ->
      SendMessage content reply ∈ trace w \/ content = timeout_text).
Proof.
  intros r. subst r. split; [| split; [| split; [| split]]].
  - apply send_timeout_message_returns.
  - exact (keeps_send_timeout_message C (fun c => c) w).
  - intros e' Hh. unfold _send_timeout_message, try_except.
    rewrite bind_unfold, (call_eq _ _ _ _ Hh). reflexivity.
  - intros ex e' Hh. unfold _send_timeout_message, try_except.
    rewrite bind_unfold, (call_eq _ _ _ _ Hh). reflexivity.
  - intros content reply. apply foreign_send_elem.
    apply foreign_send_timeout_message.
Qed.

End TimeoutNotice.

(** With an empty history nothing happens. *)
Lemma send_timeout_message_safe_witness :
  (_send_timeout_message (Fake.collaborators Fake.no_json)
     Fake.world_message_soon).2 = Fake.world_message_soon.
Proof.
  destruct (send_timeout_message_safe (Fake.collaborators Fake.no_json)
              Fake.world_message_soon) as (_ & _ & H & _).
  exact (H _ eq_refl).
Defined.

(** ** The registry under any schedule *)

Module RegistrySafety.

Import Registry.

Lemma sound_initial : sound initial.
Proof.
  split; cbn.
  - constructor.
  - constructor.
  - intros k i H. rewrite lookup_empty in H. discriminate.
  - intros c k i H. destruct c; discriminate.
Qed.

Lemma launched_as_elem (s : state) (k : string) (i : nat) :
  launched_as s k i <-> i ∈ launched k s.
Proof.
  unfold launched_as, launched. rewrite list_elem_of_omap. split.
  - intros (t & st & H). exists (k, i, st). split.
    + eapply list_elem_of_lookup_2; eauto.
    + cbn. now rewrite String.eqb_refl.
  - intros ([[k' i'] st] & Hin & H). cbn in H.
    destruct (String.eqb_spec k' k); [| discriminate]. injection H as ->. subst k'.
    apply list_elem_of_lookup_1 in Hin as [t Ht]. eauto.
Qed.

Lemma launched_sublist (k : string) (s : state) : launched k s `sublist_of` created s.
Proof.
  unfold launched, created. induction (tasks s) as [| [[k' i] st] l IH]; cbn.
  - constructor.
  - destruct (String.eqb k' k); cbn.
    + now apply sublist_skip.
    + now apply sublist_cons.
Qed.

Lemma created_unique (s : state) (k k' : string) (i : nat) :
  NoDup (created s) -> launched_as s k i -> launched_as s k' i -> k = k'.
Proof.
  intros Hn (t & st & H) (t' & st' & H').
  assert (E : t = t').
  { apply (NoDup_lookup (created s) t t' i Hn); unfold created;
      rewrite list_lookup_fmap; [rewrite H | rewrite H']; reflexivity. }
  subst t'. congruence.
Qed.

(** A state that differs in the lock, the flags and the events only. *)
Lemma sound_frame (s s' : state) :
  tasks s' = tasks s -> next_object s' = next_object s ->
  calls s' = calls s ->
  (forall k i, _instances s' !! k = Some i -> _instances s !! k = Some i) ->
  sound s -> sound s'.
Proof.
  intros Ht Hn Hc Hi [F N I R].
  split; unfold created, launched_as in *; rewrite ?Ht, ?Hn, ?Hc; eauto.
Qed.

Lemma launched_as_create (ctor : construction) (k k' : string) (i : nat)
    (s : state) :
  launched_as s k' i -> launched_as (create ctor k s).2 k' i.
Proof.
  intros (t & st & H). exists t, st. destruct ctor; cbn; [| exact H].
  apply lookup_app_l_Some. exact H.
Qed.

Lemma launched_as_created (ctor : construction) (k : string) (s : state) (i : nat) :
  (create ctor k s).1 = Some i -> launched_as (create ctor k s).2 k i.
Proof.
  destruct ctor; [| discriminate]. intros [= <-].
  exists (length (tasks s)), Running. cbn.
  rewrite lookup_app_r by lia. now rewrite Nat.sub_diag.
Qed.

Lemma sound_create (ctor : construction) (k : string) (s : state) :
  sound s -> sound (create ctor k s).2.
Proof.
  intros [F N I R]. destruct ctor.
  - split.
    + unfold created in *. cbn. rewrite fmap_app. apply Forall_app. split.
      * eapply Forall_impl; [exact F |]. cbn. intros; lia.
      * constructor; [cbn; lia | constructor].
    + unfold created in *. cbn. rewrite fmap_app. apply NoDup_app.
      split; [exact N |]. split; [| apply NoDup_singleton].
      intros i Hi Hin. apply list_elem_of_singleton in Hin. cbn in Hin. subst i.
      rewrite Forall_forall in F. specialize (F _ Hi). cbn in F. lia.
    + intros k' i H. cbn [create snd _instances] in H.
      destruct (decide (k' = k)) as [-> | Hne].
      * rewrite lookup_insert_eq in H. injection H as <-.
        now apply (launched_as_created Constructs).
      * rewrite lookup_insert_ne in H by congruence.
        apply (launched_as_create Constructs). auto.
    + intros c k' i H. apply (launched_as_create Constructs). eauto.
  - split; cbn; try assumption.
    eapply Forall_impl; [exact F |]. cbn. intros; lia.
Qed.

Lemma sound_set_calls (s : state) (c : nat) (k : string) (p : pc) :
  sound s ->
  (forall i, p = Returned (Some i) -> launched_as s k i) ->
  sound (set_calls (<[c := (k, p)]> (calls s)) s).
Proof.
  intros [F N I R] Hp. split; try assumption.
  intros c' k' i H. cbn in H.
  apply RegistryFacts.lookup_set_call in H as [[_ [= -> <-]] | H]; eauto.
Qed.

Lemma launched_as_set_task (s : state) (t : nat) (k : string) (i : nat)
    (st st' : task_status) (k' : string) (i' : nat) :
  tasks s !! t = Some (k, i, st) ->
  launched_as s k' i' -> launched_as (set_task t (k, i, st') s) k' i'.
Proof.
  intros Ht (t' & st0 & H). unfold launched_as. cbn.
  destruct (decide (t' = t)) as [-> | Hne].
  - exists t, st'. rewrite list_lookup_insert_eq by (eapply lookup_lt_Some; eauto).
    congruence.
  - exists t', st0. now rewrite list_lookup_insert_ne by congruence.
Qed.

Lemma created_set_task (s : state) (t : nat) (k : string) (i : nat)
    (st st' : task_status) :
  tasks s !! t = Some (k, i, st) ->
  created (set_task t (k, i, st') s) = created s.
Proof.
  intros Ht. unfold created. cbn. rewrite list_fmap_insert. cbn.
  apply list_insert_id. rewrite list_lookup_fmap, Ht. reflexivity.
Qed.

Lemma sound_set_task (s : state) (t : nat) (k : string) (i : nat)
    (st st' : task_status) :
  tasks s !! t = Some (k, i, st) -> sound s -> sound (set_task t (k, i, st') s).
Proof.
  intros Ht [F N I R]. split.
  - rewrite (created_set_task _ _ _ _ _ _ Ht). exact F.
  - rewrite (created_set_task _ _ _ _ _ _ Ht). exact N.
  - intros k' i' H. apply (launched_as_set_task _ _ _ _ _ _ _ _ Ht). auto.
  - intros c k' i' H. apply (launched_as_set_task _ _ _ _ _ _ _ _ Ht). eauto.
Qed.

Lemma sound_initialize (b : bool) (k : string) (s : state) :
  sound s -> sound (_initialize b k s).
Proof.
  intros H. apply (sound_frame s); try (destruct b; reflexivity); [| exact H].
  intros k' i. destruct b; cbn; [auto |].
  destruct (decide (k' = k)) as [-> | Hne].
  - now rewrite lookup_delete_eq.
  - now rewrite lookup_delete_ne by congruence.
Qed.

Lemma create_and_return_eq (ctor : construction) (k : string) (s : state) :
  create_and_return ctor k s =
    (Returned (create ctor k s).1, release (create ctor k s).2).
Proof. unfold create_and_return. now destruct (create ctor k s). Qed.

Lemma sound_release_create (ctor : construction) (k : string) (s : state)
    (c : nat) :
  sound s ->
  sound (set_calls
           (<[c := (k, (create_and_return ctor k (set_locked true s)).1)]>
              (calls (create_and_return ctor k (set_locked true s)).2))
           (create_and_return ctor k (set_locked true s)).2) /\
  locked (create_and_return ctor k (set_locked true s)).2 = false.
Proof.
  intros H. rewrite create_and_return_eq. cbn [fst snd]. split; [| reflexivity].
  assert (H1 : sound (set_locked true s)) by (apply (sound_frame s); auto).
  apply (sound_create ctor k) in H1.
  assert (H2 : sound (release (create ctor k (set_locked true s)).2))
    by (apply (sound_frame (create ctor k (set_locked true s)).2); auto).
  apply (sound_set_calls _ c k _ H2).
  intros i [= E].
  destruct (launched_as_created ctor k (set_locked true s) i E) as (t & st & Ht).
  exists t, st. exact Ht.
Qed.

Lemma sound_move (s : state) (c : nat) (k : string) (p : pc) :
  sound s ->
  (forall i, p = Returned (Some i) -> _instances s !! k = Some i) ->
  sound (set_calls (<[c := (k, p)]> (calls s)) s).
Proof.
  intros H Hp. apply sound_set_calls; [exact H |].
  intros i Hi. apply (sound_instances _ H). auto.
Qed.

Lemma sound_get_instance (ctor : construction) (k : string) (s s1 : state)
    (c : nat) (p p' : pc) :
  sound s -> locked s = false ->
  get_instance k p ctor s = Some (p', s1) ->
  sound (set_calls (<[c := (k, p')]> (calls s1)) s1) /\ locked s1 = false.
Proof.
  intros H L Hadv. destruct p; cbn in Hadv.
  - destruct (_instances s !! k) as [i |] eqn:E; injection Hadv as <- <-;
      (split; [| exact L]); apply sound_move; auto; congruence.
  - unfold acquire in Hadv. rewrite L in Hadv. cbn in Hadv.
    unfold locked_section in Hadv.
    cbn [_instances _initializing _init_events set_locked] in Hadv.
    destruct (_instances s !! k) as [i |] eqn:E.
    + injection Hadv as <- <-. rewrite (RegistryFacts.release_locked _ L).
      split; [| exact L]. apply sound_move; auto; congruence.
    + destruct (default false (_initializing s !! k)).
      * destruct (_init_events s !! k) as [ev |].
        -- injection Hadv as <- <-. rewrite (RegistryFacts.release_locked _ L).
           split; [| exact L]. apply sound_move; auto; discriminate.
        -- pose proof (sound_release_create ctor k s c H) as K.
           destruct (create_and_return ctor k (set_locked true s)) as [p2 s2].
           injection Hadv as <- <-. exact K.
      * pose proof (sound_release_create ctor k s c H) as K.
        destruct (create_and_return ctor k (set_locked true s)) as [p2 s2].
        injection Hadv as <- <-. exact K.
  - destruct (bool_decide (ev ∈ events_set s)); [| discriminate].
    injection Hadv as <- <-. split; [| exact L]. apply sound_move; auto; discriminate.
  - unfold acquire in Hadv. rewrite L in Hadv. cbn in Hadv.
    destruct (_instances s !! k) as [i |] eqn:E.
    + injection Hadv as <- <-. rewrite (RegistryFacts.release_locked _ L).
      split; [| exact L]. apply sound_move; auto; congruence.
    + pose proof (sound_release_create ctor k s c H) as K.
      destruct (create_and_return ctor k (set_locked true s)) as [p2 s2].
      injection Hadv as <- <-. exact K.
  - discriminate.
Qed.

Lemma sound_step (l : label) (s s' : state) :
  step l s = Some s' -> sound s /\ locked s = false -> sound s' /\ locked s' = false.
Proof.
  intros Hstep [H L]. destruct l as [k | c ctor | c | k t | k t | k]; cbn in Hstep.
  - injection Hstep as <-. split; [| exact L].
    destruct H as [F N I R]. split; try assumption.
    intros c k' i Hc. cbn in Hc.
    apply lookup_app_Some in Hc as [Hc | [_ Hc]]; [eauto |].
    destruct (c - length (calls s))%nat; discriminate.
  - destruct (calls s !! c) as [[k p] |] eqn:Hc; [| discriminate]. cbn in Hstep.
    destruct (get_instance k p ctor s) as [[p' s1] |] eqn:Hadv; [| discriminate].
    injection Hstep as <-.
    destruct (sound_get_instance _ _ _ _ c _ _ H L Hadv) as [K1 K2]. auto.
  - destruct (calls s !! c) as [[k p] |] eqn:Hc; [| discriminate]. cbn in Hstep.
    destruct p; try discriminate. injection Hstep as <-.
    split; [| reflexivity].
    change (sound (set_calls (<[c := (k, Returned None)]> (calls (expire k s).2))
                     (expire k s).2)).
    apply sound_set_calls; [| discriminate].
    apply (sound_frame s); auto.
  - destruct (tasks s !! t) as [[[k0 i] st] |] eqn:Ht; [| discriminate]. cbn in Hstep.
    destruct st; try discriminate.
    destruct (String.eqb_spec k0 k); [subst k0 | discriminate].
    injection Hstep as <-. split; [| exact L].
    apply (sound_set_task (_initialize true k s) t k i Running); [exact Ht |].
    now apply sound_initialize.
  - destruct (tasks s !! t) as [[[k0 i] st] |] eqn:Ht; [| discriminate]. cbn in Hstep.
    destruct st; try discriminate.
    destruct (String.eqb_spec k0 k); [subst k0 | discriminate].
    injection Hstep as <-. split; [| exact L].
    apply (sound_set_task (_initialize false k s) t k i Running); [exact Ht |].
    now apply sound_initialize.
  - injection Hstep as <-. split; [| exact L].
    apply (sound_frame s); auto.
    intros k' i. cbn. destruct (decide (k' = k)) as [-> | Hne].
    + now rewrite lookup_delete_eq.
    + now rewrite lookup_delete_ne by congruence.
Qed.

Lemma sound_run (ls : list label) (s s' : state) :
  run ls s = Some s' -> sound s /\ locked s = false -> sound s' /\ locked s' = false.
Proof.
  revert s. induction ls as [| l ls IH]; intros s Hrun H.
  - now injection Hrun as <-.
  - cbn in Hrun. destruct (step l s) as [s1 |] eqn:Hs; [| discriminate].
    cbn in Hrun. apply (IH s1 Hrun). exact (sound_step _ _ _ Hs H).
Qed.

(** X25.  Whatever the schedule, failing initialisations, removals,
    expired waits and constructors that raise included: between two steps
    the lock is free; an
    instance that a call for [k] has returned, or that is registered
    under [k], is one that was created for [k]; an instance was created
    for one stream only; and no instance was created twice. *)
Theorem registry_sound (ls : list label) (s : state) :
  run ls initial = Some s ->
  locked s = false /\
  (forall c k i, returned s c k (Some i) -> i ∈ launched k s) /\
  (forall k i, _instances s !! k = Some i -> i ∈ launched k s) /\
  (forall k k' i, i ∈ launched k s -> i ∈ launched k' s -> k = k') /\
  (forall k, NoDup (launched k s)).
Proof.
  intros Hrun.
  destruct (sound_run ls initial s Hrun (conj sound_initial eq_refl)) as [[F N I R] L].
  split; [exact L | split; [| split; [| split]]].
  - intros c k i H. apply launched_as_elem. exact (R c k i H).
  - intros k i H. apply launched_as_elem. exact (I k i H).
  - intros k k' i H H'. apply launched_as_elem in H, H'.
    exact (created_unique s k k' i N H H').
  - intros k. eapply sublist_NoDup; [exact N | apply launched_sublist].
Qed.

(** An instance removed while its initialisation runs, which then fails,
    and a constructor that raises in the call that goes on. *)
Lemma registry_sound_witness :
  exists s,
    run removed_while_initializing initial = Some s /\
    NoDup (launched "s1" s) /\ locked s = false.
Proof.
  assert (H : is_Some (run removed_while_initializing initial))
    by (vm_compute; eauto).
  destruct H as [s Hs]. exists s. split; [exact Hs |].
  destruct (registry_sound removed_while_initializing s Hs)
    as (L & _ & _ & _ & N).
  auto.
Defined.




Lemma barren_step (l : label) (s s' : state) :
  constructor_raises l -> step l s = Some s' ->
  _instances s = ∅ /\ tasks s = [] /\ events_set s = ∅ /\
  (forall c k r, calls s !! c = Some (k, Returned r) -> r = None) ->
  _instances s' = ∅ /\ tasks s' = [] /\ events_set s' = ∅ /\
  (forall c k r, calls s' !! c = Some (k, Returned r) -> r = None).
Proof.
  intros Hl Hstep (Hi & Ht & He & Hr).
  destruct l as [k | c ctor | c | k t | k t | k]; cbn in Hstep.
  - injection Hstep as <-. cbn. repeat split; try assumption.
    intros c k' r H. apply lookup_app_Some in H as [H | [_ H]]; [eauto |].
    destruct (c - length (calls s))%nat; [| discriminate]. discriminate.
  - cbn in Hl. subst ctor.
    destruct (calls s !! c) as [[k p] |] eqn:Hc; [| discriminate]. cbn in Hstep.
    assert (Hk : _instances s !! k = None) by (rewrite Hi; apply lookup_empty).
    assert (K : forall p' s1,
               get_instance k p Raises s = Some (p', s1) ->
               (_instances s1 = ∅ /\ tasks s1 = [] /\ events_set s1 = ∅ /\
                calls s1 = calls s) /\
               (forall r, p' = Returned r -> r = None)).
    { intros p' s1 Hadv. destruct p; cbn in Hadv.
      - rewrite Hk in Hadv. injection Hadv as <- <-. repeat split; auto.
        discriminate.
      - unfold acquire in Hadv. destruct (locked s); [discriminate |].
        cbn in Hadv. unfold locked_section in Hadv. cbn in Hadv.
        rewrite Hk in Hadv.
        destruct (default false (_initializing s !! k));
          [destruct (_init_events s !! k) |];
          injection Hadv as <- <-; cbn; repeat split; auto; congruence.
      - rewrite He in Hadv. rewrite bool_decide_eq_false_2 in Hadv by set_solver.
        discriminate.
      - unfold acquire in Hadv. destruct (locked s); [discriminate |].
        cbn in Hadv. rewrite Hk in Hadv.
        injection Hadv as <- <-; cbn; repeat split; auto; congruence.
      - discriminate. }
    destruct (get_instance k p Raises s) as [[p' s1] |]; [| discriminate].
    injection Hstep as <-. destruct (K p' s1 eq_refl) as [(Hi1 & Ht1 & He1 & Hc1) Hp].
    cbn. repeat split; try assumption.
    intros c' k' r H. rewrite Hc1 in H.
    apply RegistryFacts.lookup_set_call in H as [[_ [= _ Ep]] | H]; eauto.
  - destruct (calls s !! c) as [[k p] |] eqn:Hc; [| discriminate]. cbn in Hstep.
    destruct p; try discriminate. injection Hstep as <-. cbn.
    repeat split; try assumption.
    intros c' k' r H.
    apply RegistryFacts.lookup_set_call in H as [[_ [= _ Ep]] | H]; eauto.
  - rewrite Ht in Hstep. discriminate.
  - rewrite Ht in Hstep. discriminate.
  - injection Hstep as <-. cbn. rewrite Hi. repeat split; assumption.
Qed.

(** X27.  The registry with the class as it stands, that is while every
    call of the constructor raises, under every schedule: nothing is ever
    registered, no initialisation task is launched, no event is fired, and
    every call of [get_instance] that has returned has returned [None].
    A call that has been made to wait can only leave by the expiry of its
    wait. *)
Theorem get_instance_while_constructor_raises (ls : list label) (s : state) :
  Forall constructor_raises ls ->
  run ls initial = Some s ->
  _instances s = ∅ /\
  tasks s = [] /\
  (forall c k r, returned s c k r -> r = None) /\
  (forall c k ev ctor,
      calls s !! c = Some (k, Waiting ev) -> get_instance k (Waiting ev) ctor s = None).
Proof.
  intros Hq Hrun.
  assert (K : _instances s = ∅ /\ tasks s = [] /\ events_set s = ∅ /\
              (forall c k r, calls s !! c = Some (k, Returned r) -> r = None)).
  { assert (K0 : _instances initial = ∅ /\ tasks initial = [] /\
                 events_set initial = ∅ /\
                 (forall c k r, calls initial !! c = Some (k, Returned r) -> r = None)).
    { repeat split. intros c k r H. destruct c; discriminate. }
    revert Hrun K0. generalize initial as s0.
    induction Hq as [| l ls Hl Hls IH]; intros s0 Hrun K0.
    - now injection Hrun as <-.
    - cbn in Hrun. destruct (step l s0) as [s1 |] eqn:Hs; [| discriminate].
      cbn in Hrun. apply (IH s1 Hrun). exact (barren_step _ _ _ Hl Hs K0). }
  destruct K as (Hi & Ht & He & Hr). repeat split; try assumption.
  intros c k ev ctor _. cbn. rewrite He.
  rewrite bool_decide_eq_false_2 by set_solver. reflexivity.
Qed.

(** Two calls in flight together: both return [None]. *)
Lemma get_instance_while_constructor_raises_witness :
  exists s,
    run two_calls_raising initial = Some s /\
    _instances s = ∅ /\ tasks s = [].
Proof.
  assert (H : is_Some (run two_calls_raising initial)) by (vm_compute; eauto).
  destruct H as [s Hs]. exists s. split; [exact Hs |].
  destruct (get_instance_while_constructor_raises two_calls_raising s)
    as (Hi & Ht & _).
  - repeat constructor.
  - exact Hs.
  - auto.
Defined.

End RegistrySafety.
